(** * SecureChat: the room session lifecycle of [app.js], embedded and verified

    The client logic of [src/app.js] is embedded shallowly.  JavaScript
    strings are sequences of UTF-16 code units, the Firestore collections
    are finite maps, and every [async] handler is a program of a small free
    monad whose [Await] nodes are the handler's [await] points, so that the
    same definition can be run to completion against the store or suspended
    and interleaved with other events. *)

From stdpp Require Import gmap list fin_maps sorting.
From Stdlib Require Import ZArith String Ascii Lia.

Local Open Scope list_scope.

(** ** JavaScript strings *)

(** A string is its sequence of UTF-16 code units; [===] on strings is
    equality of these sequences. *)
Abbreviation JSString := (list N).

(** A string literal of the source, given by its ASCII text. *)
Definition lit (s : string) : JSString :=
  map N_of_ascii (list_ascii_of_string s).
Arguments lit : simpl never.

(** The services the program takes from its platform: the Unicode case
    mapping behind [String.prototype.toLowerCase] and the SHA-256 digest,
    rendered in hex, that [hashPassword] computes with [crypto.subtle]. *)
Class Platform := {
  toLowerCase : JSString -> JSString;
  sha256hex : JSString -> JSString
}.

Module JS.

(** The code units [String.prototype.trim] removes: ECMAScript's
    WhiteSpace and LineTerminator. *)
Definition is_white (c : N) : bool :=
  ((9 <=? c) && (c <=? 13) || (c =? 32) || (c =? 160) || (c =? 5760)
   || (8192 <=? c) && (c <=? 8202) || (c =? 8232) || (c =? 8233)
   || (c =? 8239) || (c =? 8287) || (c =? 12288) || (c =? 65279))%N.

Fixpoint trimStart (s : JSString) : JSString :=
  match s with
  | c :: s' => if is_white c then trimStart s' else s
  | [] => []
  end.

Definition trimEnd (s : JSString) : JSString := rev (trimStart (rev s)).

Definition trim (s : JSString) : JSString := trimEnd (trimStart s).
Arguments trim : simpl never.

(** The complement of the character class of [/[^a-z0-9-]/g]: a code unit
    is kept when it is one of [a-z], [0-9] or [-]. *)
Definition in_slug_class (c : N) : bool :=
  ((97 <=? c) && (c <=? 122) || (48 <=? c) && (c <=? 57) || (c =? 45))%N.

(** [s.replace(/[^a-z0-9-]/g, '')] *)
Definition strip_non_slug (s : JSString) : JSString :=
  List.filter in_slug_class s.

(** Truthiness of a string, and of a string-or-null. *)
Definition truthy (s : JSString) : bool :=
  match s with [] => false | _ => true end.

Definition truthy_opt (o : option JSString) : bool :=
  match o with Some s => truthy s | None => false end.
Arguments truthy : simpl nomatch.
Arguments truthy_opt : simpl nomatch.

(** A string-or-null inside a template literal: [null] prints as "null". *)
Definition interpolate (o : option JSString) : JSString :=
  match o with Some s => s | None => lit "null" end.

(** [toLowerCase] on ASCII text, the platform of the worked examples. *)
Definition ascii_lower (s : JSString) : JSString :=
  map (fun c => if ((65 <=? c) && (c <=? 90))%N then (c + 32)%N else c) s.

(** [Array.prototype.sort(cmp)]: the sort is stable, and for a consistent
    comparator every stable sort returns the same array; insertion from the
    right is one.  [cmp a b <= 0] keeps [a] before [b]. *)
Fixpoint insert_by {A} (cmp : A -> A -> Z) (x : A) (l : list A) : list A :=
  match l with
  | [] => [x]
  | y :: l' => if (cmp x y <=? 0)%Z then x :: l else y :: insert_by cmp x l'
  end.

Definition sort {A} (cmp : A -> A -> Z) (l : list A) : list A :=
  foldr (insert_by cmp) [] l.

(** [x || 0] for a number-or-undefined [x]. *)
Definition or_zero (x : option Z) : Z :=
  match x with
  | Some v => if (v =? 0)%Z then 0%Z else v
  | None => 0%Z
  end.

End JS.

(** ** Slug normalization (handleRoomFormSubmit, line 234) *)

Section Normalize.
Context `{Platform}.

(** [value.trim().toLowerCase().replace(/[^a-z0-9-]/g, '')] *)
Definition normalize (s : JSString) : JSString :=
  JS.strip_non_slug (toLowerCase (JS.trim s)).

End Normalize.
Arguments normalize : simpl never.

(** The strings matched by [^[a-z0-9-]*$]. *)
Definition is_slug (s : JSString) : Prop :=
  Forall (fun c => JS.in_slug_class c = true) s.

(** ** Documents of the store *)

(** A Firestore [Timestamp]: whole seconds since the epoch and the
    nanoseconds within the second. *)
Record Timestamp := { seconds : Z; nanoseconds : Z }.

(** Chronological order of timestamps. *)
Definition ts_lt (a b : Timestamp) : Prop :=
  (seconds a < seconds b \/
   (seconds a = seconds b /\ nanoseconds a < nanoseconds b))%Z.

Definition ts_le (a b : Timestamp) : Prop := a = b \/ ts_lt a b.

(** [chat-rooms/<slug>] *)
Record RoomDoc := { passwordHash : JSString; createdAt : Timestamp }.

(** [chat-rooms/<slug>/users/<uid>] *)
Record UserDoc := { user_name : JSString; user_joined : Timestamp }.

(** The fields of [chat-rooms/<slug>/messages/<id>].  Event messages carry
    [type: 'event'] and no [name]; user messages carry [name] and no
    [type].  The timestamp of a snapshot is [null] while the server has not
    confirmed the write. *)
Record MsgData := {
  msg_type : option JSString;
  msg_name : option JSString;
  msg_text : JSString;
  msg_senderId : JSString;
  msg_timestamp : option Timestamp
}.

(** [{ id: change.doc.id, ...change.doc.data() }]; ids are the store's
    opaque auto-ids. *)
Abbreviation Msg := (N * MsgData)%type.

Definition system : JSString := lit "system".

Definition event_message (text : JSString) : MsgData :=
  {| msg_type := Some (lit "event"); msg_name := None; msg_text := text;
     msg_senderId := system; msg_timestamp := None |}.

Definition user_message (name text senderId : JSString) : MsgData :=
  {| msg_type := None; msg_name := Some name; msg_text := text;
     msg_senderId := senderId; msg_timestamp := None |}.

Definition with_timestamp (t : option Timestamp) (m : MsgData) : MsgData :=
  {| msg_type := msg_type m; msg_name := msg_name m; msg_text := msg_text m;
     msg_senderId := msg_senderId m; msg_timestamp := t |}.

(** One entry of [snapshot.docChanges()]. *)
Inductive ChangeType := added | modified | removed.

Record Change := { change_type : ChangeType; change_doc : Msg }.

(** ** The client: globals and DOM *)

Inductive UIState := UI_loading | UI_room | UI_password | UI_name | UI_chat.

(** An error element: its text and whether it carries the class [hidden]. *)
Record ErrorSlot := { textContent : JSString; hidden : bool }.

(** The text of a [.chat-timestamp] element: "..." while pending, else the
    locale time of the timestamp. *)
Inductive TimeLabel := Pending | LocaleTime (t : Timestamp).

(** A child of [#message-list]: a centered system line, or a bubble with
    sender name, text and time. *)
Inductive Element :=
| SystemLine (data_id : N) (text : JSString)
| Bubble (data_id : N) (isSelf : bool) (senderName text : JSString)
    (time : TimeLabel).

Definition data_id (el : Element) : N :=
  match el with SystemLine i _ => i | Bubble i _ _ _ _ => i end.

Record Inputs := {
  roomInput : JSString;
  roomPasswordInput : JSString;
  passwordVerifyInput : JSString;
  nameInput : JSString;
  messageInput : JSString
}.

Record Errors := {
  roomError : ErrorSlot;
  passwordError : ErrorSlot;
  nameError : ErrorSlot
}.

Record Dom := {
  visible : UIState;
  chatRoomDisplay : JSString;
  inputs : Inputs;
  errors : Errors;
  messageList : list Element;
  userList : list (JSString * bool);
  sidebarHidden : bool;
  deleteModalHidden : bool;
  title : option nat
}.

Record Client := {
  dom : Dom;
  currentUserId : JSString;
  userName : option JSString;
  currentRoom : option JSString;
  unsubscribeMessages : bool;
  unsubscribeUsers : bool;
  isNavigating : bool;
  usersInRoom : gmap JSString UserDoc;
  isWindowActive : bool;
  unreadMessages : nat
}.

(** Field updates. *)

Definition set_roomInput v (i : Inputs) : Inputs :=
  {| roomInput := v; roomPasswordInput := roomPasswordInput i;
     passwordVerifyInput := passwordVerifyInput i; nameInput := nameInput i;
     messageInput := messageInput i |}.

Definition set_roomPasswordInput v (i : Inputs) : Inputs :=
  {| roomInput := roomInput i; roomPasswordInput := v; passwordVerifyInput
     := passwordVerifyInput i; nameInput := nameInput i; messageInput :=
     messageInput i |}.

Definition set_passwordVerifyInput v (i : Inputs) : Inputs :=
  {| roomInput := roomInput i; roomPasswordInput := roomPasswordInput i;
     passwordVerifyInput := v; nameInput := nameInput i; messageInput :=
     messageInput i |}.

Definition set_nameInput v (i : Inputs) : Inputs :=
  {| roomInput := roomInput i; roomPasswordInput := roomPasswordInput i;
     passwordVerifyInput := passwordVerifyInput i; nameInput := v;
     messageInput := messageInput i |}.

Definition set_messageInput v (i : Inputs) : Inputs :=
  {| roomInput := roomInput i; roomPasswordInput := roomPasswordInput i;
     passwordVerifyInput := passwordVerifyInput i; nameInput := nameInput i;
     messageInput := v |}.

Definition set_roomError v (e : Errors) : Errors :=
  {| roomError := v; passwordError := passwordError e; nameError :=
     nameError e |}.

Definition set_passwordError v (e : Errors) : Errors :=
  {| roomError := roomError e; passwordError := v; nameError := nameError e
     |}.

Definition set_nameError v (e : Errors) : Errors :=
  {| roomError := roomError e; passwordError := passwordError e; nameError
     := v |}.

Definition set_visible v (d : Dom) : Dom :=
  {| visible := v; chatRoomDisplay := chatRoomDisplay d; inputs := inputs d;
     errors := errors d; messageList := messageList d; userList := userList
     d; sidebarHidden := sidebarHidden d; deleteModalHidden :=
     deleteModalHidden d; title := title d |}.

Definition set_chatRoomDisplay v (d : Dom) : Dom :=
  {| visible := visible d; chatRoomDisplay := v; inputs := inputs d; errors
     := errors d; messageList := messageList d; userList := userList d;
     sidebarHidden := sidebarHidden d; deleteModalHidden :=
     deleteModalHidden d; title := title d |}.

Definition set_inputs v (d : Dom) : Dom :=
  {| visible := visible d; chatRoomDisplay := chatRoomDisplay d; inputs :=
     v; errors := errors d; messageList := messageList d; userList :=
     userList d; sidebarHidden := sidebarHidden d; deleteModalHidden :=
     deleteModalHidden d; title := title d |}.

Definition set_errors v (d : Dom) : Dom :=
  {| visible := visible d; chatRoomDisplay := chatRoomDisplay d; inputs :=
     inputs d; errors := v; messageList := messageList d; userList :=
     userList d; sidebarHidden := sidebarHidden d; deleteModalHidden :=
     deleteModalHidden d; title := title d |}.

Definition set_messageList v (d : Dom) : Dom :=
  {| visible := visible d; chatRoomDisplay := chatRoomDisplay d; inputs :=
     inputs d; errors := errors d; messageList := v; userList := userList d;
     sidebarHidden := sidebarHidden d; deleteModalHidden :=
     deleteModalHidden d; title := title d |}.

Definition set_userList v (d : Dom) : Dom :=
  {| visible := visible d; chatRoomDisplay := chatRoomDisplay d; inputs :=
     inputs d; errors := errors d; messageList := messageList d; userList :=
     v; sidebarHidden := sidebarHidden d; deleteModalHidden :=
     deleteModalHidden d; title := title d |}.

Definition set_sidebarHidden v (d : Dom) : Dom :=
  {| visible := visible d; chatRoomDisplay := chatRoomDisplay d; inputs :=
     inputs d; errors := errors d; messageList := messageList d; userList :=
     userList d; sidebarHidden := v; deleteModalHidden := deleteModalHidden
     d; title := title d |}.

Definition set_deleteModalHidden v (d : Dom) : Dom :=
  {| visible := visible d; chatRoomDisplay := chatRoomDisplay d; inputs :=
     inputs d; errors := errors d; messageList := messageList d; userList :=
     userList d; sidebarHidden := sidebarHidden d; deleteModalHidden := v;
     title := title d |}.

Definition set_title v (d : Dom) : Dom :=
  {| visible := visible d; chatRoomDisplay := chatRoomDisplay d; inputs :=
     inputs d; errors := errors d; messageList := messageList d; userList :=
     userList d; sidebarHidden := sidebarHidden d; deleteModalHidden :=
     deleteModalHidden d; title := v |}.

Definition set_dom v (c : Client) : Client :=
  {| dom := v; currentUserId := currentUserId c; userName := userName c;
     currentRoom := currentRoom c; unsubscribeMessages :=
     unsubscribeMessages c; unsubscribeUsers := unsubscribeUsers c;
     isNavigating := isNavigating c; usersInRoom := usersInRoom c;
     isWindowActive := isWindowActive c; unreadMessages := unreadMessages c
     |}.

Definition set_currentUserId v (c : Client) : Client :=
  {| dom := dom c; currentUserId := v; userName := userName c; currentRoom
     := currentRoom c; unsubscribeMessages := unsubscribeMessages c;
     unsubscribeUsers := unsubscribeUsers c; isNavigating := isNavigating c;
     usersInRoom := usersInRoom c; isWindowActive := isWindowActive c;
     unreadMessages := unreadMessages c |}.

Definition set_userName v (c : Client) : Client :=
  {| dom := dom c; currentUserId := currentUserId c; userName := v;
     currentRoom := currentRoom c; unsubscribeMessages :=
     unsubscribeMessages c; unsubscribeUsers := unsubscribeUsers c;
     isNavigating := isNavigating c; usersInRoom := usersInRoom c;
     isWindowActive := isWindowActive c; unreadMessages := unreadMessages c
     |}.

Definition set_currentRoom v (c : Client) : Client :=
  {| dom := dom c; currentUserId := currentUserId c; userName := userName c;
     currentRoom := v; unsubscribeMessages := unsubscribeMessages c;
     unsubscribeUsers := unsubscribeUsers c; isNavigating := isNavigating c;
     usersInRoom := usersInRoom c; isWindowActive := isWindowActive c;
     unreadMessages := unreadMessages c |}.

Definition set_unsubscribeMessages v (c : Client) : Client :=
  {| dom := dom c; currentUserId := currentUserId c; userName := userName c;
     currentRoom := currentRoom c; unsubscribeMessages := v;
     unsubscribeUsers := unsubscribeUsers c; isNavigating := isNavigating c;
     usersInRoom := usersInRoom c; isWindowActive := isWindowActive c;
     unreadMessages := unreadMessages c |}.

Definition set_unsubscribeUsers v (c : Client) : Client :=
  {| dom := dom c; currentUserId := currentUserId c; userName := userName c;
     currentRoom := currentRoom c; unsubscribeMessages :=
     unsubscribeMessages c; unsubscribeUsers := v; isNavigating :=
     isNavigating c; usersInRoom := usersInRoom c; isWindowActive :=
     isWindowActive c; unreadMessages := unreadMessages c |}.

Definition set_isNavigating v (c : Client) : Client :=
  {| dom := dom c; currentUserId := currentUserId c; userName := userName c;
     currentRoom := currentRoom c; unsubscribeMessages :=
     unsubscribeMessages c; unsubscribeUsers := unsubscribeUsers c;
     isNavigating := v; usersInRoom := usersInRoom c; isWindowActive :=
     isWindowActive c; unreadMessages := unreadMessages c |}.

Definition set_usersInRoom v (c : Client) : Client :=
  {| dom := dom c; currentUserId := currentUserId c; userName := userName c;
     currentRoom := currentRoom c; unsubscribeMessages :=
     unsubscribeMessages c; unsubscribeUsers := unsubscribeUsers c;
     isNavigating := isNavigating c; usersInRoom := v; isWindowActive :=
     isWindowActive c; unreadMessages := unreadMessages c |}.

Definition set_isWindowActive v (c : Client) : Client :=
  {| dom := dom c; currentUserId := currentUserId c; userName := userName c;
     currentRoom := currentRoom c; unsubscribeMessages :=
     unsubscribeMessages c; unsubscribeUsers := unsubscribeUsers c;
     isNavigating := isNavigating c; usersInRoom := usersInRoom c;
     isWindowActive := v; unreadMessages := unreadMessages c |}.

Definition set_unreadMessages v (c : Client) : Client :=
  {| dom := dom c; currentUserId := currentUserId c; userName := userName c;
     currentRoom := currentRoom c; unsubscribeMessages :=
     unsubscribeMessages c; unsubscribeUsers := unsubscribeUsers c;
     isNavigating := isNavigating c; usersInRoom := usersInRoom c;
     isWindowActive := isWindowActive c; unreadMessages := v |}.

Definition upd_dom (f : Dom -> Dom) (c : Client) : Client :=
  set_dom (f (dom c)) c.

Definition upd_inputs (f : Inputs -> Inputs) : Client -> Client :=
  upd_dom (fun d => set_inputs (f (inputs d)) d).

Definition upd_errors (f : Errors -> Errors) : Client -> Client :=
  upd_dom (fun d => set_errors (f (errors d)) d).

Definition upd_messageList (f : list Element -> list Element)
    : Client -> Client :=
  upd_dom (fun d => set_messageList (f (messageList d)) d).

(** ** Synchronous DOM procedures *)

(** [showUI(state)]: hide every page, then show one; the header shows the
    room only on the password, name and chat pages. *)
Definition showUI (state : UIState) (c : Client) : Client :=
  let room_label := lit "Room: " ++ JS.interpolate (currentRoom c) in
  upd_dom (fun d =>
    set_visible state
      (set_chatRoomDisplay
         match state with
         | UI_loading | UI_room => []
         | UI_password | UI_name | UI_chat => room_label
         end d)) c.

Inductive ErrorEl := El_roomError | El_passwordError | El_nameError.

Definition error_slot (el : ErrorEl) (c : Client) : ErrorSlot :=
  match el with
  | El_roomError => roomError (errors (dom c))
  | El_passwordError => passwordError (errors (dom c))
  | El_nameError => nameError (errors (dom c))
  end.

(** [showError(el, message, hide)] *)
Definition showError (el : ErrorEl) (message : JSString) (hide : bool)
    (c : Client) : Client :=
  let old := error_slot el c in
  let new :=
    if hide then {| textContent := textContent old; hidden := true |}
    else {| textContent := message; hidden := false |} in
  upd_errors
    match el with
    | El_roomError => set_roomError new
    | El_passwordError => set_passwordError new
    | El_nameError => set_nameError new
    end c.

(** [formatTimestamp(timestamp)] *)
Definition formatTimestamp (timestamp : option Timestamp) : TimeLabel :=
  match timestamp with
  | None => Pending
  | Some t => LocaleTime t
  end.

(** The element [renderMessages] builds for one message. *)
Definition render_element (uid : JSString) (msg : Msg) : Element :=
  let isSelf := bool_decide (msg_senderId msg.2 = uid) in
  let isSystem := bool_decide (msg_senderId msg.2 = system) in
  if isSystem then SystemLine msg.1 (msg_text msg.2)
  else
    Bubble msg.1 isSelf
      (if JS.truthy_opt (msg_name msg.2) then JS.interpolate (msg_name msg.2)
       else lit "Anonymous")
      (msg_text msg.2)
      (formatTimestamp (msg_timestamp msg.2)).

Inductive RenderType := render_added | render_all.

(** [renderMessages(messages, type)]; the scroll position is not part of
    the model. *)
Definition renderMessages (msgs : list Msg) (type : RenderType)
    (c : Client) : Client :=
  let c1 :=
    match type with
    | render_all => upd_messageList (fun _ => []) c
    | render_added => c
    end in
  foldl (fun c msg =>
           upd_messageList (fun l => l ++ [render_element (currentUserId c) msg]) c)
        c1 msgs.

(** [renderUserList(users)] *)
Definition renderUserList (us : list (JSString * UserDoc)) (c : Client)
    : Client :=
  upd_dom (set_userList
    (map (fun u => (user_name u.2, bool_decide (u.1 = currentUserId c))) us)) c.

(** [document.querySelector('[data-id=ID] .chat-timestamp')] then
    [textContent = label]: the first bubble with this id is patched. *)
Fixpoint patch_timestamp (id : N) (label : TimeLabel) (l : list Element)
    : list Element :=
  match l with
  | [] => []
  | Bubble i s n t old :: l' =>
      if (i =? id)%N then Bubble i s n t label :: l'
      else Bubble i s n t old :: patch_timestamp id label l'
  | el :: l' => el :: patch_timestamp id label l'
  end.

(** [document.querySelector('[data-id=ID]')] then [remove()]. *)
Fixpoint remove_element (id : N) (l : list Element) : list Element :=
  match l with
  | [] => []
  | el :: l' => if (data_id el =? id)%N then l' else el :: remove_element id l'
  end.

(** The comparator of line 462. *)
Definition by_seconds (a b : Msg) : Z :=
  (JS.or_zero (seconds <$> msg_timestamp a.2)
   - JS.or_zero (seconds <$> msg_timestamp b.2))%Z.

(** The body of [forEach] over [snapshot.docChanges()] (lines 436-459). *)
Definition on_change (st : Client * list Msg) (change : Change)
    : Client * list Msg :=
  let '(c, messages) := st in
  let msgData := change_doc change in
  match change_type change with
  | added =>
      (if bool_decide (msg_senderId msgData.2 <> currentUserId c)
          && negb (isWindowActive c)
       then
         let n := S (unreadMessages c) in
         upd_dom (set_title (Some n)) (set_unreadMessages n c)
       else c,
       messages ++ [msgData])
  | modified =>
      (if bool_decide (msg_senderId msgData.2 = currentUserId c)
       then upd_messageList
              (patch_timestamp msgData.1
                 (formatTimestamp (msg_timestamp msgData.2))) c
       else c,
       messages)
  | removed => (upd_messageList (remove_element msgData.1) c, messages)
  end.

(** The message listener registered by [listenForMessages]. *)
Definition onMessagesSnapshot (changes : list Change) (c : Client) : Client :=
  let '(c1, messages) := foldl on_change (c, []) changes in
  renderMessages (JS.sort by_seconds messages) render_added c1.

Definition by_joined (a b : JSString * UserDoc) : Z :=
  (JS.or_zero (Some (seconds (user_joined a.2)))
   - JS.or_zero (Some (seconds (user_joined b.2))))%Z.

(** The participant listener registered by [listenForUsers]. *)
Definition onUsersSnapshot (docs : list (JSString * UserDoc)) (c : Client)
    : Client :=
  let cache := foldl (fun m u => <[u.1 := u.2]> m) ∅ docs in
  renderUserList (JS.sort by_joined docs) (set_usersInRoom cache c).

(** ** The environment: store, location, faults *)

Inductive Error := StoreError | NotFound | TypeError.

(** How a promise settles. *)
Inductive Settled (A : Type) :=
| Fulfilled (a : A)
| Rejected (e : Error).
Arguments Fulfilled {A} a.
Arguments Rejected {A} e.

(** The promises the handlers await. *)
Inductive Request :=
| HashPassword (password : JSString)
| GetRoom (room : JSString)
| SetRoom (room hash : JSString)
| GetUsers (room : JSString)
| UpdateUserJoined (room uid : JSString)
| SetUser (room uid name : JSString)
| DeleteUser (room uid : JSString)
| AddMessage (room : JSString) (m : MsgData)
| GetMessages (room : JSString)
| CommitDeletes (room : JSString) (ids : list N).

Definition response (r : Request) : Type :=
  match r with
  | HashPassword _ => JSString
  | GetRoom _ => option RoomDoc
  | GetUsers _ => list (JSString * UserDoc)
  | AddMessage _ _ => N
  | GetMessages _ => list Msg
  | _ => unit
  end.

(** The calls that return at once. *)
Inductive SysCall :=
| SetHash (v : JSString)
| GetHash
| ConsoleError (label : JSString)
| OnSnapshotMessages (room : JSString)
| OnSnapshotUsers (room : JSString)
| UnsubscribeMessages
| UnsubscribeUsers.

Definition answer (s : SysCall) : Type :=
  match s with
  | GetHash => JSString
  | _ => unit
  end.

(** What an observer of the client sees it do, in order. *)
Inductive Event :=
| EvRequest (r : Request) (ok : bool)
| EvNavigate (v : JSString)
| EvConsoleError (label : JSString).

(** A listener invocation the environment owes the client. *)
Inductive Callback :=
| MessagesSnapshot (changes : list Change)
| UsersSnapshot (docs : list (JSString * UserDoc)).

(** The store, the server clock and id supply, the active listeners, the
    location hash with its queued [hashchange] events, the schedule of
    transient faults (one flag per awaited request, [true] rejects it) and
    the trace. *)
Record Env := {
  rooms : gmap JSString RoomDoc;
  users : gmap JSString (gmap JSString UserDoc);
  messages : gmap JSString (list Msg);
  now : Timestamp;
  nextId : N;
  msgListener : option JSString;
  userListener : option JSString;
  hash : JSString;
  hashchanges : nat;
  faults : list bool;
  trace : list Event
}.

Definition set_rooms v (e : Env) : Env :=
  {| rooms := v; users := users e; messages := messages e; now := now e;
     nextId := nextId e; msgListener := msgListener e; userListener :=
     userListener e; hash := hash e; hashchanges := hashchanges e; faults :=
     faults e; trace := trace e |}.

Definition set_users v (e : Env) : Env :=
  {| rooms := rooms e; users := v; messages := messages e; now := now e;
     nextId := nextId e; msgListener := msgListener e; userListener :=
     userListener e; hash := hash e; hashchanges := hashchanges e; faults :=
     faults e; trace := trace e |}.

Definition set_messages v (e : Env) : Env :=
  {| rooms := rooms e; users := users e; messages := v; now := now e; nextId
     := nextId e; msgListener := msgListener e; userListener := userListener
     e; hash := hash e; hashchanges := hashchanges e; faults := faults e;
     trace := trace e |}.

Definition set_now v (e : Env) : Env :=
  {| rooms := rooms e; users := users e; messages := messages e; now := v;
     nextId := nextId e; msgListener := msgListener e; userListener :=
     userListener e; hash := hash e; hashchanges := hashchanges e; faults :=
     faults e; trace := trace e |}.

Definition set_nextId v (e : Env) : Env :=
  {| rooms := rooms e; users := users e; messages := messages e; now := now
     e; nextId := v; msgListener := msgListener e; userListener :=
     userListener e; hash := hash e; hashchanges := hashchanges e; faults :=
     faults e; trace := trace e |}.

Definition set_msgListener v (e : Env) : Env :=
  {| rooms := rooms e; users := users e; messages := messages e; now := now
     e; nextId := nextId e; msgListener := v; userListener := userListener
     e; hash := hash e; hashchanges := hashchanges e; faults := faults e;
     trace := trace e |}.

Definition set_userListener v (e : Env) : Env :=
  {| rooms := rooms e; users := users e; messages := messages e; now := now
     e; nextId := nextId e; msgListener := msgListener e; userListener := v;
     hash := hash e; hashchanges := hashchanges e; faults := faults e; trace
     := trace e |}.

Definition set_hash v (e : Env) : Env :=
  {| rooms := rooms e; users := users e; messages := messages e; now := now
     e; nextId := nextId e; msgListener := msgListener e; userListener :=
     userListener e; hash := v; hashchanges := hashchanges e; faults :=
     faults e; trace := trace e |}.

Definition set_hashchanges v (e : Env) : Env :=
  {| rooms := rooms e; users := users e; messages := messages e; now := now
     e; nextId := nextId e; msgListener := msgListener e; userListener :=
     userListener e; hash := hash e; hashchanges := v; faults := faults e;
     trace := trace e |}.

Definition set_faults v (e : Env) : Env :=
  {| rooms := rooms e; users := users e; messages := messages e; now := now
     e; nextId := nextId e; msgListener := msgListener e; userListener :=
     userListener e; hash := hash e; hashchanges := hashchanges e; faults :=
     v; trace := trace e |}.

Definition set_trace v (e : Env) : Env :=
  {| rooms := rooms e; users := users e; messages := messages e; now := now
     e; nextId := nextId e; msgListener := msgListener e; userListener :=
     userListener e; hash := hash e; hashchanges := hashchanges e; faults :=
     faults e; trace := v |}.

Definition log (ev : Event) (e : Env) : Env := set_trace (trace e ++ [ev]) e.

Definition room_users (e : Env) (room : JSString) : gmap JSString UserDoc :=
  users e !!! room.

Definition room_messages (e : Env) (room : JSString) : list Msg :=
  messages e !!! room.
Arguments room_users e room /.
Arguments room_messages e room /.

(** [serverTimestamp()] resolves to the server's clock, which then moves on. *)
Definition tick (t : Timestamp) : Timestamp :=
  if (nanoseconds t <? 999999999)%Z
  then {| seconds := seconds t; nanoseconds := nanoseconds t + 1 |}
  else {| seconds := seconds t + 1; nanoseconds := 0 |}.

Definition write_users (room : JSString) (m : gmap JSString UserDoc) (e : Env)
    : Env * list Callback :=
  (set_now (tick (now e)) (set_users (<[room := m]> (users e)) e),
   if bool_decide (userListener e = Some room)
   then [UsersSnapshot (map_to_list m)] else []).

Definition write_messages (room : JSString) (l : list Msg)
    (echo : list Callback) (e : Env) : Env * list Callback :=
  (set_messages (<[room := l]> (messages e)) e,
   if bool_decide (msgListener e = Some room) then echo else []).

Section Semantics.
Context `{Platform}.

(** The store's answer to a request that reaches it.  A write to a
    collection the client listens to is echoed to the listener: a new
    message first with its timestamp pending, then confirmed. *)
Definition exec (r : Request) (e : Env)
    : Settled (response r) * Env * list Callback :=
  match r as r0 return Settled (response r0) * Env * list Callback with
  | HashPassword p => (Fulfilled (sha256hex p), e, [])
  | GetRoom room => (Fulfilled (rooms e !! room), e, [])
  | SetRoom room h =>
      (Fulfilled tt,
       set_now (tick (now e))
         (set_rooms (<[room := {| passwordHash := h; createdAt := now e |}]>
                       (rooms e)) e),
       [])
  | GetUsers room => (Fulfilled (map_to_list (room_users e room)), e, [])
  | UpdateUserJoined room uid =>
      match room_users e room !! uid with
      | Some u =>
          let u' := {| user_name := user_name u; user_joined := now e |} in
          let '(e', cbs) := write_users room (<[uid := u']> (room_users e room)) e in
          (Fulfilled tt, e', cbs)
      | None => (Rejected NotFound, e, [])
      end
  | SetUser room uid name =>
      let u := {| user_name := name; user_joined := now e |} in
      let '(e', cbs) := write_users room (<[uid := u]> (room_users e room)) e in
      (Fulfilled tt, e', cbs)
  | DeleteUser room uid =>
      let '(e', cbs) := write_users room (delete uid (room_users e room)) e in
      (Fulfilled tt, e', cbs)
  | AddMessage room m =>
      let id := nextId e in
      let stored := with_timestamp (Some (now e)) m in
      let '(e', cbs) :=
        write_messages room (room_messages e room ++ [(id, stored)])
          [MessagesSnapshot
             [{| change_type := added;
                 change_doc := (id, with_timestamp None m) |}];
           MessagesSnapshot
             [{| change_type := modified; change_doc := (id, stored) |}]]
          e in
      (Fulfilled id, set_now (tick (now e)) (set_nextId (N.succ id) e'), cbs)
  | GetMessages room => (Fulfilled (room_messages e room), e, [])
  | CommitDeletes room ids =>
      let '(gone, kept) :=
        List.partition (fun d => bool_decide (d.1 ∈ ids)) (room_messages e room) in
      let '(e', cbs) :=
        write_messages room kept
          [MessagesSnapshot
             (map (fun d => {| change_type := removed; change_doc := d |}) gone)]
          e in
      (Fulfilled tt, e', cbs)
  end.

End Semantics.

(** ** Handler programs *)

(** A handler is a tree of client-state accesses, immediate calls and
    awaited requests; the continuation of [Await] is the code after the
    [await], entered when the promise settles. *)
Inductive Prog (A : Type) : Type :=
| Ret (a : A)
| Throw (err : Error)
| Get (k : Client -> Prog A)
| Put (c : Client) (k : Prog A)
| Sys (s : SysCall) (k : answer s -> Prog A)
| Await (r : Request) (k : Settled (response r) -> Prog A).
Arguments Ret {A} a.
Arguments Throw {A} err.
Arguments Get {A} k.
Arguments Put {A} c k.
Arguments Sys {A} s k.
Arguments Await {A} r k.

Fixpoint bind {A B} (p : Prog A) (f : A -> Prog B) : Prog B :=
  match p with
  | Ret a => f a
  | Throw err => Throw err
  | Get k => Get (fun c => bind (k c) f)
  | Put c k => Put c (bind k f)
  | Sys s k => Sys s (fun v => bind (k v) f)
  | Await r k => Await r (fun v => bind (k v) f)
  end.

#[export] Instance Prog_ret : MRet Prog := fun A a => Ret a.
#[export] Instance Prog_bind : MBind Prog := fun A B f p => bind p f.
#[export] Instance Prog_fmap : FMap Prog :=
  fun A B f p => bind p (fun a => Ret (f a)).

(** [try { p } catch (error) { handler }] *)
Fixpoint try_catch {A} (p : Prog A) (handler : Error -> Prog A) : Prog A :=
  match p with
  | Ret a => Ret a
  | Throw err => handler err
  | Get k => Get (fun c => try_catch (k c) handler)
  | Put c k => Put c (try_catch k handler)
  | Sys s k => Sys s (fun v => try_catch (k v) handler)
  | Await r k => Await r (fun v => try_catch (k v) handler)
  end.

(** [try { p } finally { cleanup }] *)
Fixpoint try_finally {A} (p : Prog A) (cleanup : Prog unit) : Prog A :=
  match p with
  | Ret a => bind cleanup (fun _ => Ret a)
  | Throw err => bind cleanup (fun _ => Throw err)
  | Get k => Get (fun c => try_finally (k c) cleanup)
  | Put c k => Put c (try_finally k cleanup)
  | Sys s k => Sys s (fun v => try_finally (k v) cleanup)
  | Await r k => Await r (fun v => try_finally (k v) cleanup)
  end.

Definition gets {A} (f : Client -> A) : Prog A := Get (fun c => Ret (f c)).

Definition modify (f : Client -> Client) : Prog unit :=
  Get (fun c => Put (f c) (Ret tt)).

Definition sys (s : SysCall) : Prog (answer s) := Sys s Ret.

(** [await promise]: the value, or the rejection thrown. *)
Definition await (r : Request) : Prog (response r) :=
  Await r (fun v =>
    match v with
    | Fulfilled b => Ret b
    | Rejected err => Throw err
    end).

(** A path segment given to [doc(...)] or [collection(...)]: [null] makes
    the SDK throw. *)
Definition segment (o : option JSString) : Prog JSString :=
  match o with
  | Some s => Ret s
  | None => Throw TypeError
  end.

Definition value (field : Inputs -> JSString) : Prog JSString :=
  gets (fun c => field (inputs (dom c))).

(** [cleanupSubscriptions()] *)
Definition cleanupSubscriptions : Prog unit :=
  um ← gets unsubscribeMessages;
  (if (um : bool) then sys UnsubscribeMessages;; modify (set_unsubscribeMessages false)
   else Ret tt);;
  uu ← gets unsubscribeUsers;
  (if (uu : bool) then sys UnsubscribeUsers;; modify (set_unsubscribeUsers false)
   else Ret tt).

(** [verifyRoomExists(roomName)] *)
Definition verifyRoomExists (roomName : JSString) : Prog unit :=
  modify (showUI UI_loading);;
  try_catch
    (roomSnap ← await (GetRoom roomName);
     match roomSnap with
     | Some _ => modify (showUI UI_password)
     | None =>
         modify (showError El_roomError
                   (lit "Room not found. You can create it.") false);;
         sys (SetHash [])
     end)
    (fun _ =>
       sys (ConsoleError (lit "Error checking room:"));;
       modify (showError El_roomError (lit "An error occurred.") false);;
       sys (SetHash [])).

(** [handleHashChange()], the listener of [hashchange]. *)
Definition handleHashChange : Prog unit :=
  navigating ← gets isNavigating;
  if (navigating : bool) then modify (set_isNavigating false)
  else
    cleanupSubscriptions;;
    h ← sys GetHash;
    if JS.truthy h then
      modify (set_currentRoom (Some h));;
      verifyRoomExists h
    else
      modify (set_currentRoom None);;
      modify (set_userName None);;
      modify (showUI UI_room);;
      modify (upd_inputs (set_roomInput []));;
      modify (upd_inputs (set_roomPasswordInput []));;
      modify (upd_inputs (set_passwordVerifyInput []));;
      modify (upd_inputs (set_nameInput [])).

(** [listenForMessages()] and [listenForUsers()] *)
Definition listenForMessages : Prog unit :=
  um ← gets unsubscribeMessages;
  (if (um : bool) then sys UnsubscribeMessages else Ret tt);;
  room ← gets currentRoom;
  room ← segment room;
  sys (OnSnapshotMessages room);;
  modify (set_unsubscribeMessages true).

Definition listenForUsers : Prog unit :=
  uu ← gets unsubscribeUsers;
  (if (uu : bool) then sys UnsubscribeUsers else Ret tt);;
  room ← gets currentRoom;
  room ← segment room;
  sys (OnSnapshotUsers room);;
  modify (set_unsubscribeUsers true).

Section Handlers.
Context `{Platform}.

(** The self-navigation of lines 253-257 and 269-273. *)
Definition enter_name_screen (roomName : JSString) : Prog unit :=
  modify (set_currentRoom (Some roomName));;
  modify (set_isNavigating true);;
  sys (SetHash roomName);;
  modify (showUI UI_name).

(** [handleRoomFormSubmit(e)] *)
Definition handleRoomFormSubmit : Prog unit :=
  modify (showError El_roomError [] true);;
  roomName ← normalize <$> value roomInput;
  password ← JS.trim <$> value roomPasswordInput;
  if negb (JS.truthy roomName) || negb (JS.truthy password) then
    modify (showError El_roomError
              (lit "Room name and password are required.") false)
  else
    modify (showUI UI_loading);;
    try_catch
      (passwordHash' ← await (HashPassword password);
       roomSnap ← await (GetRoom roomName);
       match roomSnap with
       | Some data =>
           if bool_decide (passwordHash data = passwordHash') then
             enter_name_screen roomName
           else
             modify (showError El_roomError
                       (lit "Invalid password for this room.") false);;
             modify (showUI UI_room)
       | None =>
           await (SetRoom roomName passwordHash');;
           enter_name_screen roomName
       end)
      (fun _ =>
         sys (ConsoleError (lit "Error creating/joining room:"));;
         modify (showError El_roomError
                   (lit "An error occurred. Please try again.") false);;
         modify (showUI UI_room)).

(** [handlePasswordVerifySubmit(e)]; [currentRoom] is read again after the
    first [await], where the document reference is built. *)
Definition handlePasswordVerifySubmit : Prog unit :=
  modify (showError El_passwordError [] true);;
  password ← JS.trim <$> value passwordVerifyInput;
  room ← gets currentRoom;
  if negb (JS.truthy password) || negb (JS.truthy_opt room) then Ret tt
  else
    modify (showUI UI_loading);;
    try_catch
      (passwordHash' ← await (HashPassword password);
       room ← gets currentRoom;
       roomDocRef ← segment room;
       roomSnap ← await (GetRoom roomDocRef);
       if match roomSnap with
          | Some data => bool_decide (passwordHash data = passwordHash')
          | None => false
          end
       then modify (showUI UI_name)
       else
         modify (showError El_passwordError
                   (lit "Invalid password. Please try again.") false);;
         modify (showUI UI_password))
      (fun _ =>
         sys (ConsoleError (lit "Error verifying password:"));;
         modify (showError El_passwordError (lit "An error occurred.") false);;
         modify (showUI UI_password)).

(** The [forEach] of lines 333-341 over the listed participants:
    [(nameIsTaken, existingUserDoc)]. *)
Definition scan_users (name uid : JSString)
    (docs : list (JSString * UserDoc))
    : bool * option (JSString * UserDoc) :=
  foldl (fun st doc =>
           if bool_decide (toLowerCase (user_name doc.2) = toLowerCase name)
           then
             if bool_decide (doc.1 <> uid) then (true, st.2)
             else (st.1, Some doc)
           else st)
        (false, None) docs.

Arguments scan_users : simpl never.

(** [handleNameFormSubmit(e)] *)
Definition handleNameFormSubmit : Prog unit :=
  modify (showError El_nameError [] true);;
  name ← JS.trim <$> value nameInput;
  room ← gets currentRoom;
  if negb (JS.truthy name) || negb (JS.truthy_opt room) then Ret tt
  else
    modify (showUI UI_loading);;
    try_catch
      (room ← gets currentRoom;
       usersCol ← segment room;
       querySnapshot ← await (GetUsers usersCol);
       uid ← gets currentUserId;
       let '(nameIsTaken, existingUserDoc) :=
         scan_users name uid querySnapshot in
       if (nameIsTaken : bool) then
         modify (showError El_nameError
                   (lit "This name is already in use. Please choose another.")
                   false);;
         modify (showUI UI_name)
       else
         modify (set_userName (Some name));;
         room ← gets currentRoom;
         userDocRoom ← segment room;
         uid ← gets currentUserId;
         match existingUserDoc with
         | Some _ => await (UpdateUserJoined userDocRoom uid)
         | None =>
             await (SetUser userDocRoom uid name);;
             room ← gets currentRoom;
             messagesCol ← segment room;
             userName' ← gets userName;
             await (AddMessage messagesCol
                      (event_message
                         (JS.interpolate userName'
                          ++ lit " has joined the room.")));;
             Ret tt
         end;;
         modify (showUI UI_chat);;
         listenForMessages;;
         listenForUsers)
      (fun _ =>
         sys (ConsoleError (lit "Error joining chat:"));;
         modify (showError El_nameError
                   (lit "An error occurred while joining.") false);;
         modify (showUI UI_name)).

(** [handleLeaveRoom()] *)
Definition handleLeaveRoom : Prog unit :=
  room ← gets currentRoom;
  userName' ← gets userName;
  uid ← gets currentUserId;
  if negb (JS.truthy_opt room) || negb (JS.truthy_opt userName')
     || negb (JS.truthy uid)
  then Ret tt
  else
    modify (upd_dom (set_sidebarHidden true));;
    try_catch
      (room ← gets currentRoom;
       messagesCol ← segment room;
       userName' ← gets userName;
       await (AddMessage messagesCol
                (event_message
                   (JS.interpolate userName' ++ lit " has left the room.")));;
       room ← gets currentRoom;
       userDocRoom ← segment room;
       uid ← gets currentUserId;
       await (DeleteUser userDocRoom uid);;
       sys (SetHash []))
      (fun _ =>
         sys (ConsoleError (lit "Error leaving room:"));;
         sys (SetHash [])).

(** [handleMessageFormSubmit(e)] *)
Definition handleMessageFormSubmit : Prog unit :=
  text ← JS.trim <$> value messageInput;
  room ← gets currentRoom;
  userName' ← gets userName;
  uid ← gets currentUserId;
  if JS.truthy text && JS.truthy_opt room && JS.truthy_opt userName'
     && JS.truthy uid
  then
    modify (upd_inputs (set_messageInput []));;
    try_catch
      (await (AddMessage (JS.interpolate room)
                (user_message (JS.interpolate userName') text uid));;
       Ret tt)
      (fun _ =>
         sys (ConsoleError (lit "Error sending message:"));;
         modify (upd_inputs (set_messageInput text)))
  else Ret tt.

(** [snapshot.empty] *)
Definition is_empty {A} (docs : list A) : bool :=
  match docs with [] => true | _ :: _ => false end.
Arguments is_empty : simpl nomatch.

(** [handleDeleteChat()]; the early [return] of line 633 leaves the [try]
    through its [finally]. *)
Definition handleDeleteChat : Prog unit :=
  room ← gets currentRoom;
  if negb (JS.truthy_opt room) then Ret tt
  else
    modify (upd_dom (set_deleteModalHidden true));;
    modify (showUI UI_loading);;
    try_finally
      (try_catch
         (room ← gets currentRoom;
          let collectionPath := JS.interpolate room in
          snapshot ← await (GetMessages collectionPath);
          if is_empty snapshot then modify (showUI UI_chat)
          else
            await (CommitDeletes collectionPath (map fst snapshot));;
            modify (upd_messageList (fun _ => []));;
            userName' ← gets userName;
            await (AddMessage collectionPath
                     (event_message
                        (JS.interpolate userName'
                         ++ lit " cleared the chat history.")));;
            Ret tt)
         (fun _ => sys (ConsoleError (lit "Error deleting chat:"))))
      (modify (showUI UI_chat)).

End Handlers.

(** ** Running handlers *)

Definition is_fulfilled {A} (v : Settled A) : bool :=
  match v with Fulfilled _ => true | Rejected _ => false end.

(** The calls that return at once: the location, the console and the
    registration of listeners.  Assigning the hash queues a [hashchange]
    event when the value changes.  A new listener receives the collection
    as it stands. *)
Definition syscall (s : SysCall) (e : Env) : answer s * Env * list Callback :=
  match s as s0 return answer s0 * Env * list Callback with
  | SetHash v =>
      (tt,
       log (EvNavigate v)
         (set_hashchanges
            (if bool_decide (v = hash e) then hashchanges e
             else S (hashchanges e))
            (set_hash v e)),
       [])
  | GetHash => (hash e, e, [])
  | ConsoleError label => (tt, log (EvConsoleError label) e, [])
  | OnSnapshotMessages room =>
      (tt, set_msgListener (Some room) e,
       [MessagesSnapshot
          (map (fun d => {| change_type := added; change_doc := d |})
             (room_messages e room))])
  | OnSnapshotUsers room =>
      (tt, set_userListener (Some room) e,
       [UsersSnapshot (map_to_list (room_users e room))])
  | UnsubscribeMessages => (tt, set_msgListener None e, [])
  | UnsubscribeUsers => (tt, set_userListener None e, [])
  end.

Definition deliver (cb : Callback) (c : Client) : Client :=
  match cb with
  | MessagesSnapshot changes => onMessagesSnapshot changes c
  | UsersSnapshot docs => onUsersSnapshot docs c
  end.

Definition deliver_all (cbs : list Callback) (c : Client) : Client :=
  foldl (fun c cb => deliver cb c) c cbs.
Arguments onMessagesSnapshot : simpl never.
Arguments onUsersSnapshot : simpl never.

Section Running.
Context `{Platform}.

(** An awaited request settles: rejected when the fault schedule says so,
    else answered by the store. *)
Definition perform (r : Request) (e : Env)
    : Settled (response r) * Env * list Callback :=
  match faults e with
  | true :: fs =>
      (Rejected StoreError, log (EvRequest r false) (set_faults fs e), [])
  | fs =>
      let '(v, e', cbs) := exec r (set_faults (tail fs) e) in
      (v, log (EvRequest r (is_fulfilled v)) e', cbs)
  end.

(** A handler run to completion, every promise settling at once. *)
Fixpoint run {A} (p : Prog A) (c : Client) (e : Env)
    : Settled A * Client * Env :=
  match p with
  | Ret a => (Fulfilled a, c, e)
  | Throw err => (Rejected err, c, e)
  | Get k => run (k c) c e
  | Put c' k => run k c' e
  | Sys s k =>
      let '(v, e', cbs) := syscall s e in
      run (k v) (deliver_all cbs c) e'
  | Await r k =>
      let '(v, e', cbs) := perform r e in
      run (k v) (deliver_all cbs c) e'
  end.

(** A handler run up to its next [await]. *)
Inductive Step (A : Type) :=
| Done (v : Settled A) (c : Client) (e : Env)
| Waiting (r : Request) (k : Settled (response r) -> Prog A)
    (c : Client) (e : Env).
Arguments Done {A} v c e.
Arguments Waiting {A} r k c e.

Fixpoint start {A} (p : Prog A) (c : Client) (e : Env) : Step A :=
  match p with
  | Ret a => Done (Fulfilled a) c e
  | Throw err => Done (Rejected err) c e
  | Get k => start (k c) c e
  | Put c' k => start k c' e
  | Sys s k =>
      let '(v, e', cbs) := syscall s e in
      start (k v) (deliver_all cbs c) e'
  | Await r k => Waiting r k c e
  end.

(** The pending promise of a waiting handler settles and the handler runs
    on to its next [await]. *)
Definition resume {A} (s : Step A) : Step A :=
  match s with
  | Done v c e => Done v c e
  | Waiting r k c e =>
      let '(v, e', cbs) := perform r e in
      start (k v) (deliver_all cbs c) e'
  end.

(** Something else happens while the handler waits. *)
Definition meanwhile {A} (f : Client -> Env -> Client * Env) (s : Step A)
    : Step A :=
  match s with
  | Done v c e => let '(c', e') := f c e in Done v c' e'
  | Waiting r k c e => let '(c', e') := f c e in Waiting r k c' e'
  end.

Definition client_of {A} (s : Step A) : Client :=
  match s with Done _ c _ => c | Waiting _ _ c _ => c end.

Definition env_of {A} (s : Step A) : Env :=
  match s with Done _ _ e => e | Waiting _ _ _ e => e end.

Definition pending {A} (s : Step A) : option Request :=
  match s with Done _ _ _ => None | Waiting r _ _ _ => Some r end.

(** The queued [hashchange] events are handled, each by
    [handleHashChange]. *)
Fixpoint drain (fuel : nat) (c : Client) (e : Env) : Client * Env :=
  match fuel with
  | O => (c, e)
  | S fuel' =>
      match hashchanges e with
      | O => (c, e)
      | S q =>
          let '(_, c', e') := run handleHashChange c (set_hashchanges q e) in
          drain fuel' c' e'
      end
  end.

(** An event is dispatched to its handler; the navigation the handler
    caused is handled after it.  One queued event costs at most two runs of
    [handleHashChange]: a failed room check navigates once more, to the empty
    token, and that run navigates no further. *)
Definition dispatch (h : Prog unit) (c : Client) (e : Env) : Client * Env :=
  let '(_, c1, e1) := run h c e in
  drain (2 * hashchanges e1) c1 e1.

(** The user changes the location (a link, the back button). *)
Definition navigate (token : JSString) (c : Client) (e : Env) : Client * Env :=
  let e1 :=
    set_hashchanges
      (if bool_decide (token = hash e) then hashchanges e
       else S (hashchanges e))
      (set_hash token e) in
  drain (2 * hashchanges e1) c e1.

End Running.

(** ** Observing a run *)

(** A rejected request in a trace. *)
Definition is_rejection (ev : Event) : bool :=
  match ev with EvRequest _ false => true | _ => false end.

Definition rejected (evs : list Event) : bool := existsb is_rejection evs.

(** An error written to the console in a trace. *)
Definition is_console_error (ev : Event) : bool :=
  match ev with EvConsoleError _ => true | _ => false end.

Definition logged (evs : list Event) : bool := existsb is_console_error evs.

(** The events between two states of the environment. *)
Definition since (e e' : Env) : list Event :=
  drop (List.length (trace e)) (trace e').

(** An error element showing a message. *)
Definition shown (message : string) : ErrorSlot :=
  {| textContent := lit message; hidden := false |}.

(** ** Orders on a batch of messages *)

(** A comparator that subtracts keys, as the two of the source do. *)
Definition by_key {A} (key : A -> Z) (a b : A) : Z := (key a - key b)%Z.

Definition key_le {A} (key : A -> Z) (a b : A) : Prop := (key a <= key b)%Z.

(** The elements of one key, in the order of the list. *)
Definition with_key {A} (key : A -> Z) (k : Z) (l : list A) : list A :=
  List.filter (fun x => (key x =? k)%Z) l.

(** The key [by_seconds] compares. *)
Definition sort_key (m : Msg) : Z :=
  JS.or_zero (seconds <$> msg_timestamp m.2).

(** A batch that only adds. *)
Definition all_added (chs : list Change) : Prop :=
  Forall (fun ch => change_type ch = added) chs.

(** Two instants of one second, and a batch that delivers the later
    message first. *)
Definition t_early : Timestamp :=
  {| seconds := 1700000000; nanoseconds := 100000000 |}.
Definition t_late : Timestamp :=
  {| seconds := 1700000000; nanoseconds := 900000000 |}.

Definition same_second_batch : list Change :=
  [{| change_type := added;
      change_doc :=
        (7%N, with_timestamp (Some t_late)
                (user_message (lit "Bob") (lit "second") (lit "uid-bob"))) |};
   {| change_type := added;
      change_doc :=
        (3%N, with_timestamp (Some t_early)
                (user_message (lit "Bob") (lit "first") (lit "uid-bob"))) |}].

(** What the listeners leave alone: everything but the two rendered lists,
    the participant cache and the unread counter with its title. *)
Definition session_of (c : Client) :=
  (visible (dom c), chatRoomDisplay (dom c), inputs (dom c), errors (dom c),
   sidebarHidden (dom c), deleteModalHidden (dom c), currentUserId c,
   userName c, currentRoom c, unsubscribeMessages c, unsubscribeUsers c,
   isNavigating c).

(** ** A concrete platform and session for the worked examples *)

Definition hex_digit (n : N) : N :=
  (if n <? 10 then 48 + n else 87 + n)%N.

(** A stand-in for the digest in the examples: the hex dump of the low
    bytes.  The general theorems hold for every digest. *)
Definition hex_dump (s : JSString) : JSString :=
  flat_map (fun c => [hex_digit ((c / 16) mod 16); hex_digit (c mod 16)]%N) s.

Definition example_platform : Platform :=
  {| toLowerCase := JS.ascii_lower; sha256hex := hex_dump |}.

Definition blank_slot : ErrorSlot := {| textContent := []; hidden := true |}.

(** The client as [initializeAppLogic] leaves it on the room page. *)
Definition fresh_client (uid : JSString) : Client :=
  {| dom :=
       {| visible := UI_room; chatRoomDisplay := [];
          inputs :=
            {| roomInput := []; roomPasswordInput := [];
               passwordVerifyInput := []; nameInput := [];
               messageInput := [] |};
          errors :=
            {| roomError := blank_slot; passwordError := blank_slot;
               nameError := blank_slot |};
          messageList := []; userList := []; sidebarHidden := true;
          deleteModalHidden := true; title := None |};
     currentUserId := uid; userName := None; currentRoom := None;
     unsubscribeMessages := false; unsubscribeUsers := false;
     isNavigating := false; usersInRoom := ∅; isWindowActive := true;
     unreadMessages := 0 |}.

Definition empty_env : Env :=
  {| rooms := ∅; users := ∅; messages := ∅;
     now := {| seconds := 1700000000; nanoseconds := 0 |};
     nextId := 0%N; msgListener := None; userListener := None;
     hash := []; hashchanges := 0; faults := []; trace := [] |}.

Section Running_on.
Context `{Platform}.

(** Running one handler after another, with text typed in between. *)
Definition typing (set : JSString -> Inputs -> Inputs) (text : string)
    (s : Client * Env) : Client * Env :=
  (upd_inputs (set (lit text)) s.1, s.2).

Definition submit (h : Prog unit) (s : Client * Env) : Client * Env :=
  dispatch h s.1 s.2.

Definition with_faults (fs : list bool) (s : Client * Env) : Client * Env :=
  (s.1, set_faults fs s.2).

(** The events a handler adds to the trace. *)
Definition events_of (h : Prog unit) (s : Client * Env) : list Event :=
  drop (List.length (trace s.2)) (trace (submit h s).2).

End Running_on.

(** ** The store operations that show the spinner *)

Inductive Operation :=
| RoomCheck | CreateOrJoin | PasswordVerify | NameClaim | DeleteAll.

Section Operations.
Context `{Platform}.

Definition handler_of (op : Operation) : Prog unit :=
  match op with
  | RoomCheck => handleHashChange
  | CreateOrJoin => handleRoomFormSubmit
  | PasswordVerify => handlePasswordVerifySubmit
  | NameClaim => handleNameFormSubmit
  | DeleteAll => handleDeleteChat
  end.

(** The guards before the [try] of each handler: past them the handler
    shows the spinner and asks the store. *)
Definition reaches_store (op : Operation) (c : Client) (e : Env) : bool :=
  match op with
  | RoomCheck => negb (isNavigating c) && JS.truthy (hash e)
  | CreateOrJoin =>
      JS.truthy (normalize (roomInput (inputs (dom c))))
      && JS.truthy (JS.trim (roomPasswordInput (inputs (dom c))))
  | PasswordVerify =>
      JS.truthy (JS.trim (passwordVerifyInput (inputs (dom c))))
      && JS.truthy_opt (currentRoom c)
  | NameClaim =>
      JS.truthy (JS.trim (nameInput (inputs (dom c))))
      && JS.truthy_opt (currentRoom c)
  | DeleteAll => JS.truthy_opt (currentRoom c)
  end.

(** The screen each [catch] block returns to and the message it puts into
    an error element; the [catch] of [handleDeleteChat] only logs. *)
Definition recovery (op : Operation) : UIState * option (ErrorEl * string) :=
  match op with
  | RoomCheck => (UI_room, Some (El_roomError, "An error occurred."%string))
  | CreateOrJoin =>
      (UI_room, Some (El_roomError, "An error occurred. Please try again."%string))
  | PasswordVerify =>
      (UI_password, Some (El_passwordError, "An error occurred."%string))
  | NameClaim =>
      (UI_name, Some (El_nameError, "An error occurred while joining."%string))
  | DeleteAll => (UI_chat, None)
  end.

End Operations.

Definition uid_alice : JSString := lit "uid-alice".
Definition team_x : JSString := lit "team-x".

Section Examples.
#[local] Existing Instance example_platform.

(** Alice creates the room team-x with password hunter2 ... *)
Definition at_name_form : Client * Env :=
  submit handleRoomFormSubmit
    (typing set_roomPasswordInput "hunter2"
       (typing set_roomInput "team-x" (fresh_client uid_alice, empty_env))).

(** ... and joins it as Alice. *)
Definition in_chat : Client * Env :=
  submit handleNameFormSubmit (typing set_nameInput "Alice" at_name_form).

(** Alice types " hi" and the write will be rejected. *)
Definition send_fails : Client * Env :=
  with_faults [true] (typing set_messageInput " hi" in_chat).

(** A chat whose message collection is empty: the write of Alice's join
    event was rejected, and she joined again. *)
Definition quiet_chat : Client * Env :=
  submit handleNameFormSubmit
    (submit handleNameFormSubmit
       (with_faults [false; false; true]
          (typing set_nameInput "Alice" at_name_form))).

(** The room form with the slug team-x typed in, before any room exists. *)
Definition create_team_x : Client * Env :=
  typing set_roomInput "team-x" (fresh_client uid_alice, empty_env).

End Examples.

(** ** The window and the unread counter *)

(** The listeners of [blur] and [focus] (lines 107-112).  In [title],
    [Some n] is the title "(n) SecureChat" and [None] the title without a
    counter. *)
Definition handleBlur (c : Client) : Client := set_isWindowActive false c.

Definition handleFocus (c : Client) : Client :=
  upd_dom (set_title None) (set_unreadMessages 0 (set_isWindowActive true c)).

(** An added change whose sender is not this client (line 441). *)
Definition is_foreign_added (uid : JSString) (ch : Change) : bool :=
  match change_type ch with
  | added => bool_decide (msg_senderId (change_doc ch).2 <> uid)
  | _ => false
  end.

(** A batch that only removes, as the echo of a batch delete is. *)
Definition all_removed (chs : list Change) : Prop :=
  Forall (fun ch => change_type ch = removed) chs.

(** A batch that only modifies. *)
Definition all_modified (chs : list Change) : Prop :=
  Forall (fun ch => change_type ch = modified) chs.

(** An element with its time label forgotten. *)
Definition without_time (el : Element) : Element :=
  match el with
  | Bubble i s n t _ => Bubble i s n t Pending
  | SystemLine i t => SystemLine i t
  end.

(** The key [by_joined] compares. *)
Definition joined_key (u : JSString * UserDoc) : Z :=
  JS.or_zero (Some (seconds (user_joined u.2))).

(** The line of the sidebar for one participant: the name, and whether
    " (You)" is appended. *)
Definition user_line (uid : JSString) (u : JSString * UserDoc)
    : JSString * bool :=
  (user_name u.2, bool_decide (u.1 = uid)).

(** The text inputs that [handleHashChange] empties on the way to the room
    page (lines 194-197); the message input is not among them. *)
Definition clear_forms (i : Inputs) : Inputs :=
  {| roomInput := []; roomPasswordInput := []; passwordVerifyInput := [];
     nameInput := []; messageInput := messageInput i |}.

(** ** Names of a room *)

Section Names.
Context `{Platform}.

(** Two names the check of line 334 takes for the same. *)
Definition same_name (a b : JSString) : Prop :=
  toLowerCase a = toLowerCase b.

(** No two participant records of a room carry the same name. *)
Definition names_unique (m : gmap JSString UserDoc) : Prop :=
  forall i j u v,
    m !! i = Some u -> m !! j = Some v ->
    same_name (user_name u) (user_name v) -> i = j.

(** One round of the [forEach] of [scan_users]. *)
Definition scan_step (name uid : JSString)
    (st : bool * option (JSString * UserDoc)) (doc : JSString * UserDoc)
    : bool * option (JSString * UserDoc) :=
  if bool_decide (toLowerCase (user_name doc.2) = toLowerCase name)
  then if bool_decide (doc.1 <> uid) then (true, st.2) else (st.1, Some doc)
  else st.

End Names.

(** The participant record after [updateDoc(..., {joined})]. *)
Definition refreshed (u : UserDoc) (t : Timestamp) : UserDoc :=
  {| user_name := user_name u; user_joined := t |}.

(** The event message of lines 365-370. *)
Definition join_event (name : JSString) : MsgData :=
  event_message (name ++ lit " has joined the room.").

(** A rendered list of two elements. *)
Definition two_lines : list Element :=
  [SystemLine 1 (lit "Alice has joined the room.");
   Bubble 2 true (lit "Alice") (lit "hi") Pending].

(** ** More sessions for the worked examples *)

Section Sessions.
#[local] Existing Instance example_platform.

(** Only punctuation in the room field. *)
Definition punctuation_only : Client * Env :=
  typing set_roomPasswordInput "hunter2"
    (typing set_roomInput "!?" (fresh_client uid_alice, empty_env)).

(** Bob, on the room page, asks for Alice's room with the password in
    capitals. *)
Definition bob_at_rooms : Client * Env :=
  (fresh_client (lit "uid-bob"),
   set_hashchanges 0 (set_hash [] in_chat.2)).

Definition bob_shouts : Client * Env :=
  typing set_roomPasswordInput "HUNTER2"
    (typing set_roomInput "team-x" bob_at_rooms).

Definition alice_creates : Client * Env :=
  typing set_roomPasswordInput "hunter2" create_team_x.

(** Bob follows the link to team-x and types the password in capitals. *)
Definition bob_at_password : Client * Env :=
  typing set_passwordVerifyInput "HUNTER2"
    (navigate team_x bob_at_rooms.1 bob_at_rooms.2).

(** A message of blanks only. *)
Definition blanks_typed : Client * Env := typing set_messageInput "   " in_chat.

(** Bob opens the link to team-x, where Alice is, and gives the password. *)
Definition bob_at_name : Client * Env :=
  submit handlePasswordVerifySubmit
    (typing set_passwordVerifyInput "hunter2"
       (navigate team_x (fresh_client (lit "uid-bob"))
          (set_hashchanges 0 (set_hash [] in_chat.2)))).

Definition bob_as_alice : Client * Env := typing set_nameInput "alice" bob_at_name.
Definition bob_as_bob : Client * Env := typing set_nameInput " Bob " bob_at_name.

(** Alice goes back to the room page, opens team-x again and types her
    name in capitals, or another name. *)
Definition alice_back : Client * Env :=
  submit handleRoomFormSubmit
    (typing set_roomPasswordInput "hunter2"
       (typing set_roomInput "team-x" (navigate [] in_chat.1 in_chat.2))).

Definition alice_again : Client * Env := typing set_nameInput "ALICE" alice_back.
Definition alice_renamed : Client * Env := typing set_nameInput "Alicia" alice_back.

Definition alice_says_hi : Client * Env := typing set_messageInput " hi" in_chat.

(** Alice leaves while the store rejects the announcement. *)
Definition alice_leaves_offline : Client * Env := with_faults [true] in_chat.

End Sessions.

Section StaleSessions.
#[local] Existing Instance example_platform.

(** A second room, board, with a password Bob does not know; Bob is on the
    password page of team-x and types its password, or on its name page
    and types his name. *)
Definition with_board (s : Client * Env) : Client * Env :=
  (s.1,
   set_rooms (<[lit "board" := {| passwordHash := sha256hex (lit "s3cret");
                                  createdAt := now s.2 |}]> (rooms s.2)) s.2).

Definition bob_right_password : Client * Env :=
  with_board
    (typing set_passwordVerifyInput "hunter2"
       (navigate team_x bob_at_rooms.1 bob_at_rooms.2)).

Definition bob_claims : Client * Env := with_board bob_as_bob.

End StaleSessions.

(** * Verification *)

(** ** The listeners only touch the rendered lists *)

Lemma on_change_session st ch :
  session_of (on_change st ch).1 = session_of st.1.
Proof.
  destruct st as [c ms]. unfold on_change.
  destruct (change_type ch); cbn.
  - destruct (_ && _); reflexivity.
  - destruct (bool_decide _); reflexivity.
  - reflexivity.
Qed.

Lemma foldl_on_change_session chs st :
  session_of (foldl on_change st chs).1 = session_of st.1.
Proof.
  revert st. induction chs as [|ch chs IH]; intros st; cbn; [reflexivity|].
  rewrite IH. apply on_change_session.
Qed.

Lemma render_loop_session ms c :
  session_of
    (foldl (fun c msg =>
              upd_messageList
                (fun l => l ++ [render_element (currentUserId c) msg]) c)
       c ms)
  = session_of c.
Proof.
  revert c. induction ms as [|m ms IH]; intros c; cbn; [reflexivity|].
  rewrite IH. reflexivity.
Qed.

Lemma renderMessages_session ms ty c :
  session_of (renderMessages ms ty c) = session_of c.
Proof.
  unfold renderMessages. rewrite render_loop_session.
  destruct ty; reflexivity.
Qed.

Lemma onMessagesSnapshot_session chs c :
  session_of (onMessagesSnapshot chs c) = session_of c.
Proof.
  unfold onMessagesSnapshot.
  pose proof (foldl_on_change_session chs (c, [])) as Hs.
  destruct (foldl on_change (c, []) chs) as [c1 ms]. cbn in Hs.
  rewrite renderMessages_session. exact Hs.
Qed.

Lemma deliver_all_session cbs c :
  session_of (deliver_all cbs c) = session_of c.
Proof.
  revert c. induction cbs as [|cb cbs IH]; intros c; [reflexivity|].
  change (deliver_all (cb :: cbs) c) with (deliver_all cbs (deliver cb c)).
  rewrite IH. destruct cb; [apply onMessagesSnapshot_session | reflexivity].
Qed.

Ltac frame_proj :=
  intros;
  match goal with
  | |- context [deliver_all ?cbs ?c] =>
      let Hs := fresh "Hs" in
      pose proof (deliver_all_session cbs c) as Hs;
      unfold session_of in Hs; congruence
  end.

Lemma deliver_all_visible cbs c :
  visible (dom (deliver_all cbs c)) = visible (dom c).
Proof. frame_proj. Qed.

Lemma deliver_all_chatRoomDisplay cbs c :
  chatRoomDisplay (dom (deliver_all cbs c)) = chatRoomDisplay (dom c).
Proof. frame_proj. Qed.

Lemma deliver_all_inputs cbs c :
  inputs (dom (deliver_all cbs c)) = inputs (dom c).
Proof. frame_proj. Qed.

Lemma deliver_all_errors cbs c :
  errors (dom (deliver_all cbs c)) = errors (dom c).
Proof. frame_proj. Qed.

Lemma deliver_all_sidebarHidden cbs c :
  sidebarHidden (dom (deliver_all cbs c)) = sidebarHidden (dom c).
Proof. frame_proj. Qed.

Lemma deliver_all_deleteModalHidden cbs c :
  deleteModalHidden (dom (deliver_all cbs c)) = deleteModalHidden (dom c).
Proof. frame_proj. Qed.

Lemma deliver_all_currentUserId cbs c :
  currentUserId (deliver_all cbs c) = currentUserId c.
Proof. frame_proj. Qed.

Lemma deliver_all_userName cbs c :
  userName (deliver_all cbs c) = userName c.
Proof. frame_proj. Qed.

Lemma deliver_all_currentRoom cbs c :
  currentRoom (deliver_all cbs c) = currentRoom c.
Proof. frame_proj. Qed.

Lemma deliver_all_unsubscribeMessages cbs c :
  unsubscribeMessages (deliver_all cbs c) = unsubscribeMessages c.
Proof. frame_proj. Qed.

Lemma deliver_all_unsubscribeUsers cbs c :
  unsubscribeUsers (deliver_all cbs c) = unsubscribeUsers c.
Proof. frame_proj. Qed.

Lemma deliver_all_isNavigating cbs c :
  isNavigating (deliver_all cbs c) = isNavigating c.
Proof. frame_proj. Qed.

Create Rewrite HintDb frame.
#[export] Hint Rewrite
  deliver_all_visible deliver_all_chatRoomDisplay deliver_all_inputs
  deliver_all_errors deliver_all_sidebarHidden deliver_all_deleteModalHidden
  deliver_all_currentUserId deliver_all_userName deliver_all_currentRoom
  deliver_all_unsubscribeMessages deliver_all_unsubscribeUsers
  deliver_all_isNavigating : frame.

Lemma onUsersSnapshot_session docs c :
  session_of (onUsersSnapshot docs c) = session_of c.
Proof. reflexivity. Qed.

Ltac session_proj lemma :=
  intros;
  let Hs := fresh "Hs" in
  pose proof lemma as Hs; unfold session_of in Hs; congruence.

Lemma onMessagesSnapshot_visible chs c :
  visible (dom (onMessagesSnapshot chs c)) = visible (dom c).
Proof. session_proj (onMessagesSnapshot_session chs c). Qed.

Lemma onMessagesSnapshot_chatRoomDisplay chs c :
  chatRoomDisplay (dom (onMessagesSnapshot chs c)) = chatRoomDisplay (dom c).
Proof. session_proj (onMessagesSnapshot_session chs c). Qed.

Lemma onMessagesSnapshot_inputs chs c :
  inputs (dom (onMessagesSnapshot chs c)) = inputs (dom c).
Proof. session_proj (onMessagesSnapshot_session chs c). Qed.

Lemma onMessagesSnapshot_errors chs c :
  errors (dom (onMessagesSnapshot chs c)) = errors (dom c).
Proof. session_proj (onMessagesSnapshot_session chs c). Qed.

Lemma onMessagesSnapshot_sidebarHidden chs c :
  sidebarHidden (dom (onMessagesSnapshot chs c)) = sidebarHidden (dom c).
Proof. session_proj (onMessagesSnapshot_session chs c). Qed.

Lemma onMessagesSnapshot_deleteModalHidden chs c :
  deleteModalHidden (dom (onMessagesSnapshot chs c)) = deleteModalHidden (dom c).
Proof. session_proj (onMessagesSnapshot_session chs c). Qed.

Lemma onMessagesSnapshot_currentUserId chs c :
  currentUserId (onMessagesSnapshot chs c) = currentUserId c.
Proof. session_proj (onMessagesSnapshot_session chs c). Qed.

Lemma onMessagesSnapshot_userName chs c :
  userName (onMessagesSnapshot chs c) = userName c.
Proof. session_proj (onMessagesSnapshot_session chs c). Qed.

Lemma onMessagesSnapshot_currentRoom chs c :
  currentRoom (onMessagesSnapshot chs c) = currentRoom c.
Proof. session_proj (onMessagesSnapshot_session chs c). Qed.

Lemma onMessagesSnapshot_unsubscribeMessages chs c :
  unsubscribeMessages (onMessagesSnapshot chs c) = unsubscribeMessages c.
Proof. session_proj (onMessagesSnapshot_session chs c). Qed.

Lemma onMessagesSnapshot_unsubscribeUsers chs c :
  unsubscribeUsers (onMessagesSnapshot chs c) = unsubscribeUsers c.
Proof. session_proj (onMessagesSnapshot_session chs c). Qed.

Lemma onMessagesSnapshot_isNavigating chs c :
  isNavigating (onMessagesSnapshot chs c) = isNavigating c.
Proof. session_proj (onMessagesSnapshot_session chs c). Qed.

Lemma onUsersSnapshot_visible docs c :
  visible (dom (onUsersSnapshot docs c)) = visible (dom c).
Proof. session_proj (onUsersSnapshot_session docs c). Qed.

Lemma onUsersSnapshot_chatRoomDisplay docs c :
  chatRoomDisplay (dom (onUsersSnapshot docs c)) = chatRoomDisplay (dom c).
Proof. session_proj (onUsersSnapshot_session docs c). Qed.

Lemma onUsersSnapshot_inputs docs c :
  inputs (dom (onUsersSnapshot docs c)) = inputs (dom c).
Proof. session_proj (onUsersSnapshot_session docs c). Qed.

Lemma onUsersSnapshot_errors docs c :
  errors (dom (onUsersSnapshot docs c)) = errors (dom c).
Proof. session_proj (onUsersSnapshot_session docs c). Qed.

Lemma onUsersSnapshot_sidebarHidden docs c :
  sidebarHidden (dom (onUsersSnapshot docs c)) = sidebarHidden (dom c).
Proof. session_proj (onUsersSnapshot_session docs c). Qed.

Lemma onUsersSnapshot_deleteModalHidden docs c :
  deleteModalHidden (dom (onUsersSnapshot docs c)) = deleteModalHidden (dom c).
Proof. session_proj (onUsersSnapshot_session docs c). Qed.

Lemma onUsersSnapshot_currentUserId docs c :
  currentUserId (onUsersSnapshot docs c) = currentUserId c.
Proof. session_proj (onUsersSnapshot_session docs c). Qed.

Lemma onUsersSnapshot_userName docs c :
  userName (onUsersSnapshot docs c) = userName c.
Proof. session_proj (onUsersSnapshot_session docs c). Qed.

Lemma onUsersSnapshot_currentRoom docs c :
  currentRoom (onUsersSnapshot docs c) = currentRoom c.
Proof. session_proj (onUsersSnapshot_session docs c). Qed.

Lemma onUsersSnapshot_unsubscribeMessages docs c :
  unsubscribeMessages (onUsersSnapshot docs c) = unsubscribeMessages c.
Proof. session_proj (onUsersSnapshot_session docs c). Qed.

Lemma onUsersSnapshot_unsubscribeUsers docs c :
  unsubscribeUsers (onUsersSnapshot docs c) = unsubscribeUsers c.
Proof. session_proj (onUsersSnapshot_session docs c). Qed.

Lemma onUsersSnapshot_isNavigating docs c :
  isNavigating (onUsersSnapshot docs c) = isNavigating c.
Proof. session_proj (onUsersSnapshot_session docs c). Qed.

#[export] Hint Rewrite
  onMessagesSnapshot_visible onMessagesSnapshot_chatRoomDisplay
  onMessagesSnapshot_inputs onMessagesSnapshot_errors
  onMessagesSnapshot_sidebarHidden onMessagesSnapshot_deleteModalHidden
  onMessagesSnapshot_currentUserId onMessagesSnapshot_userName
  onMessagesSnapshot_currentRoom onMessagesSnapshot_unsubscribeMessages
  onMessagesSnapshot_unsubscribeUsers onMessagesSnapshot_isNavigating
  onUsersSnapshot_visible onUsersSnapshot_chatRoomDisplay
  onUsersSnapshot_inputs onUsersSnapshot_errors
  onUsersSnapshot_sidebarHidden onUsersSnapshot_deleteModalHidden
  onUsersSnapshot_currentUserId onUsersSnapshot_userName
  onUsersSnapshot_currentRoom onUsersSnapshot_unsubscribeMessages
  onUsersSnapshot_unsubscribeUsers onUsersSnapshot_isNavigating : frame.

(** Symbolic execution of a handler: compute, use what is known of the
    state, and step over listener invocations. *)
Ltac hyp_rewrite :=
  repeat match goal with
         | H : ?l = _ |- context [?l] => rewrite H
         end.

Ltac sx :=
  repeat (progress (cbn; unfold perform; hyp_rewrite; autorewrite with frame)).


(** ** Running a handler piece by piece *)

Section MonadLaws.
Context `{Platform}.

Lemma run_bind {A B} (p : Prog A) (f : A -> Prog B) c e :
  run (p ≫= f) c e =
  match run p c e with
  | (Fulfilled a, c1, e1) => run (f a) c1 e1
  | (Rejected err, c1, e1) => (Rejected err, c1, e1)
  end.
Proof.
  change (p ≫= f) with (bind p f). revert c e.
  induction p as [a|err|k IH|c' k IH|s k IH|r k IH]; intros c e; cbn;
    try reflexivity; try apply IH.
  - destruct (syscall s e) as [[v e'] cbs]. apply IH.
  - destruct (perform r e) as [[v e'] cbs]. apply IH.
Qed.

Lemma run_fmap {A B} (g : A -> B) (p : Prog A) c e :
  run (g <$> p) c e =
  match run p c e with
  | (Fulfilled a, c1, e1) => (Fulfilled (g a), c1, e1)
  | (Rejected err, c1, e1) => (Rejected err, c1, e1)
  end.
Proof.
  change (g <$> p) with (p ≫= fun a => Ret (g a)). rewrite run_bind.
  destruct (run p c e) as [[[a|err] c1] e1]; reflexivity.
Qed.

Lemma run_try_catch {A} (p : Prog A) (handler : Error -> Prog A) c e :
  run (try_catch p handler) c e =
  match run p c e with
  | (Fulfilled a, c1, e1) => (Fulfilled a, c1, e1)
  | (Rejected err, c1, e1) => run (handler err) c1 e1
  end.
Proof.
  revert c e.
  induction p as [a|err|k IH|c' k IH|s k IH|r k IH]; intros c e; cbn;
    try reflexivity; try apply IH.
  - destruct (syscall s e) as [[v e'] cbs]. apply IH.
  - destruct (perform r e) as [[v e'] cbs]. apply IH.
Qed.

Lemma run_try_finally {A} (p : Prog A) (cleanup : Prog unit) c e :
  run (try_finally p cleanup) c e =
  match run p c e with
  | (v, c1, e1) =>
      match run cleanup c1 e1 with
      | (Fulfilled _, c2, e2) => (v, c2, e2)
      | (Rejected err, c2, e2) => (Rejected err, c2, e2)
      end
  end.
Proof.
  revert c e.
  induction p as [a|err|k IH|c' k IH|s k IH|r k IH]; intros c e; cbn -[bind];
    try apply IH.
  - change (bind cleanup (fun _ => Ret a)) with (cleanup ≫= fun _ => Ret a).
    rewrite run_bind. destruct (run cleanup c e) as [[[[]|err] c1] e1]; reflexivity.
  - change (bind cleanup (fun _ => @Throw A err)) with (cleanup ≫= fun _ => @Throw A err).
    rewrite run_bind. destruct (run cleanup c e) as [[[[]|err'] c1] e1]; reflexivity.
  - destruct (syscall s e) as [[v e'] cbs]. apply IH.
  - destruct (perform r e) as [[v e'] cbs]. apply IH.
Qed.

Lemma run_ret {A} (a : A) c e : run (mret a) c e = (Fulfilled a, c, e).
Proof. reflexivity. Qed.

Lemma run_Ret {A} (a : A) c e : run (Ret a) c e = (Fulfilled a, c, e).
Proof. reflexivity. Qed.

Lemma run_Throw {A} err c e : run (@Throw A err) c e = (Rejected err, c, e).
Proof. reflexivity. Qed.

Lemma run_gets {A} (f : Client -> A) c e :
  run (gets f) c e = (Fulfilled (f c), c, e).
Proof. reflexivity. Qed.

Lemma run_value f c e :
  run (value f) c e = (Fulfilled (f (inputs (dom c))), c, e).
Proof. reflexivity. Qed.

Lemma run_modify f c e : run (modify f) c e = (Fulfilled tt, f c, e).
Proof. reflexivity. Qed.

Lemma run_sys s c e :
  run (sys s) c e =
  (Fulfilled (syscall s e).1.1, deliver_all (syscall s e).2 c, (syscall s e).1.2).
Proof. cbn. destruct (syscall s e) as [[v e'] cbs]. reflexivity. Qed.

Lemma run_await r c e :
  run (await r) c e =
  (match (perform r e).1.1 with
   | Fulfilled b => Fulfilled b
   | Rejected err => Rejected err
   end,
   deliver_all (perform r e).2 c, (perform r e).1.2).
Proof.
  cbn. destruct (perform r e) as [[[b|err] e'] cbs]; reflexivity.
Qed.

Lemma run_segment o c e :
  run (segment o) c e =
  (match o with Some s => Fulfilled s | None => Rejected TypeError end, c, e).
Proof. destruct o; reflexivity. Qed.

End MonadLaws.

Section Perform.
Context `{Platform}.

Lemma perform_rejected r e fs :
  faults e = true :: fs ->
  perform r e
  = (Rejected StoreError, log (EvRequest r false) (set_faults fs e), []).
Proof. intros Hf. unfold perform. rewrite Hf. reflexivity. Qed.

Lemma perform_answered r e :
  head (faults e) <> Some true ->
  perform r e
  = ((exec r (set_faults (tail (faults e)) e)).1.1,
     log (EvRequest r (is_fulfilled (exec r (set_faults (tail (faults e)) e)).1.1))
       (exec r (set_faults (tail (faults e)) e)).1.2,
     (exec r (set_faults (tail (faults e)) e)).2).
Proof.
  intros Hf. unfold perform.
  destruct (faults e) as [|[] fs]; cbn in Hf; try congruence;
    cbn [tail]; destruct (exec r _) as [[v e'] cbs]; reflexivity.
Qed.
End Perform.

Ltac env_simpl :=
  cbn [response answer exec syscall write_users write_messages log tail
       head is_fulfilled fst snd rooms users messages now nextId msgListener userListener hash
       hashchanges faults trace set_rooms set_users set_messages set_now
       set_nextId set_msgListener set_userListener set_hash set_hashchanges
       set_faults set_trace room_users room_messages].

Ltac cli_simpl :=
  cbn [dom currentUserId userName currentRoom unsubscribeMessages
       unsubscribeUsers isNavigating usersInRoom isWindowActive
       unreadMessages visible chatRoomDisplay inputs errors messageList
       userList sidebarHidden deleteModalHidden title roomInput
       roomPasswordInput passwordVerifyInput nameInput messageInput
       roomError passwordError nameError
       set_dom set_currentUserId set_userName set_currentRoom
       set_unsubscribeMessages set_unsubscribeUsers set_isNavigating
       set_usersInRoom set_isWindowActive set_unreadMessages
       set_visible set_chatRoomDisplay set_inputs set_errors set_messageList
       set_userList set_sidebarHidden set_deleteModalHidden set_title
       set_roomInput set_roomPasswordInput set_passwordVerifyInput
       set_nameInput set_messageInput set_roomError set_passwordError
       set_nameError upd_dom upd_inputs upd_errors upd_messageList
       showUI showError error_slot JS.truthy_opt negb orb andb].

Ltac await_step :=
  match goal with
  | |- context [run (await ?r) ?c ?e] =>
      let Hr := fresh "Hr" in
      pose proof (run_await r c e) as Hr; cbn [response] in Hr;
      rewrite Hr; clear Hr
  | |- context [run (sys ?s) ?c ?e] =>
      let Hr := fresh "Hr" in
      pose proof (run_sys s c e) as Hr; cbn [answer] in Hr;
      rewrite Hr; clear Hr
  end.

Lemma deliver_all_nil c : deliver_all [] c = c.
Proof. reflexivity. Qed.
#[export] Hint Rewrite deliver_all_nil : frame.

Ltac mstep :=
  first
    [ rewrite run_bind | rewrite run_fmap | rewrite run_try_catch
    | rewrite run_try_finally | rewrite run_modify | rewrite run_gets
    | rewrite run_value | rewrite run_ret | rewrite run_Ret
    | rewrite run_Throw | await_step | rewrite run_segment ].

Ltac perform_step :=
  match goal with
  | |- context [perform ?r ?e] =>
      first
        [ rewrite (perform_rejected r e _ ltac:(env_simpl; eassumption))
        | rewrite (perform_answered r e)
            by (env_simpl;
                repeat match goal with H : faults _ = _ |- _ => rewrite H end;
                cbn [head]; congruence) ]
  end.

Ltac mx :=
  repeat (progress
            (repeat mstep; cbv beta iota; try perform_step; env_simpl;
             cli_simpl; hyp_rewrite; autorewrite with frame)).

Ltac trace_tail :=
  rewrite <- ?app_assoc; rewrite ?drop_app_length;
  rewrite ?lookup_total_insert_eq.

Ltac case_on t :=
  match goal with
  | |- context [t] => destruct t eqn:?
  end.

Ltac case_scan :=
  match goal with
  | |- context [scan_users ?n ?u ?d] =>
      destruct (scan_users n u d) as [[] [?|]] eqn:?
  end.

(** ** Subscribing *)

Section Subscribing.
Context `{Platform}.

Lemma perform_faulted r e :
  head (faults e) = Some true ->
  perform r e
  = (Rejected StoreError,
     log (EvRequest r false) (set_faults (tail (faults e)) e), []).
Proof.
  intros Hf. unfold perform.
  destruct (faults e) as [|[] fs]; cbn in Hf; try congruence. reflexivity.
Qed.

(** Whether or not a listener was registered before, [listenForMessages]
    leaves exactly one, on the current room, and renders what the room
    holds. *)
Lemma run_listenForMessages c e room :
  currentRoom c = Some room ->
  run listenForMessages c e
  = (Fulfilled tt,
     set_unsubscribeMessages true
       (deliver_all
          [MessagesSnapshot
             (map (fun d => {| change_type := added; change_doc := d |})
                (room_messages e room))] c),
     set_msgListener (Some room) e).
Proof.
  intros Hr. unfold listenForMessages.
  destruct (unsubscribeMessages c) eqn:Hum; mx; reflexivity.
Qed.

Lemma run_listenForUsers c e room :
  currentRoom c = Some room ->
  run listenForUsers c e
  = (Fulfilled tt,
     set_unsubscribeUsers true
       (deliver_all [UsersSnapshot (map_to_list (room_users e room))] c),
     set_userListener (Some room) e).
Proof.
  intros Hr. unfold listenForUsers.
  destruct (unsubscribeUsers c) eqn:Hum; mx; reflexivity.
Qed.

End Subscribing.

Ltac known_room :=
  repeat (progress (cli_simpl; autorewrite with frame)); eassumption.

Ltac listen_step :=
  first
    [ erewrite run_listenForMessages by known_room
    | erewrite run_listenForUsers by known_room ].

(** The next request is rejected, or answered. *)
Ltac split_faults :=
  match goal with
  | |- context [perform ?r ?e] =>
      let Hf := fresh "Hf" in
      destruct (decide (head (faults e) = Some true)) as [Hf|Hf];
      [ rewrite (perform_faulted r e Hf)
      | rewrite (perform_answered r e Hf) ];
      clear Hf
  end.

(** A handler run symbolically, up to the next case distinction. *)
Ltac hx :=
  repeat (progress
            (repeat first [mstep | listen_step]; cbv beta iota;
             env_simpl; cli_simpl; hyp_rewrite; autorewrite with frame)).

(** The end of a symbolic run: the result is known, the claim is read off. *)
Ltac settle :=
  unfold since;
  repeat (progress (env_simpl; cli_simpl; autorewrite with frame));
  trace_tail;
  cbn [rejected logged existsb is_rejection is_console_error orb app].

Ltac finish :=
  let Hx := fresh "Hx" in
  intros Hx; injection Hx as <- <- <-;
  settle;
  repeat split;
  try reflexivity; try discriminate;
  try (intros ?; first [discriminate | repeat split; reflexivity]).


(** ** Handling queued navigation *)

Section Drain.
Context `{Platform}.

Lemma drain_idle n c e : hashchanges e = 0 -> drain n c e = (c, e).
Proof. intros Hq. destruct n; cbn; [reflexivity|]. rewrite Hq. reflexivity. Qed.

Lemma drain_suppressed n c e :
  hashchanges e = 1 -> isNavigating c = true ->
  drain (S n) c e = (set_isNavigating false c, set_hashchanges 0 e).
Proof.
  intros Hq Hn. cbn. rewrite Hq. cbn. rewrite Hn. cbn.
  apply drain_idle. reflexivity.
Qed.

(** Handling a navigation to the empty token: teardown to the room page. *)
Lemma drain_empty_token n c e :
  hashchanges e = 1 -> hash e = [] -> isNavigating c = false ->
  exists c' e', drain (S n) c e = (c', e')
    /\ visible (dom c') = UI_room /\ currentRoom c' = None
    /\ userName c' = None
    /\ unsubscribeMessages c' = false /\ unsubscribeUsers c' = false
    /\ errors (dom c') = errors (dom c)
    /\ messageList (dom c') = messageList (dom c)
    /\ rooms e' = rooms e /\ users e' = users e /\ messages e' = messages e
    /\ trace e' = trace e /\ hash e' = [] /\ hashchanges e' = 0.
Proof.
  intros Hq Hh Hn. cbn. rewrite Hq. cbn. rewrite Hn. cbn.
  destruct (unsubscribeMessages c) eqn:Hum, (unsubscribeUsers c) eqn:Huu;
    sx; rewrite drain_idle by reflexivity;
    eexists _, _; (split; [reflexivity|]); cbn; repeat split;
    first [reflexivity | assumption].
Qed.
(** A handler that queues no navigation is all that its event runs. *)
Lemma submit_idle (h : Prog unit) c e c1 e1 v :
  run h c e = (v, c1, e1) -> hashchanges e1 = 0 ->
  submit h (c, e) = (c1, e1).
Proof.
  intros Hrun Hq. unfold submit, dispatch. cbn [fst snd].
  rewrite Hrun, Hq. reflexivity.
Qed.

Lemma events_of_idle (h : Prog unit) c e c1 e1 v evs :
  run h c e = (v, c1, e1) -> hashchanges e1 = 0 ->
  trace e1 = trace e ++ evs ->
  events_of h (c, e) = evs.
Proof.
  intros Hrun Hq Ht. unfold events_of.
  rewrite (submit_idle _ _ _ _ _ _ Hrun Hq). cbn [fst snd].
  rewrite Ht. apply drop_app_length.
Qed.

Lemma submit_settled (h : Prog unit) c e :
  hashchanges (run h c e).2 = 0 ->
  submit h (c, e) = ((run h c e).1.2, (run h c e).2).
Proof.
  intros Hq. unfold submit, dispatch. cbn [fst snd].
  destruct (run h c e) as [[v c1] e1]. cbn [fst snd] in *.
  rewrite Hq. reflexivity.
Qed.

Lemma submit_suppressed (h : Prog unit) c e :
  hashchanges (run h c e).2 = 1 -> isNavigating (run h c e).1.2 = true ->
  submit h (c, e)
  = (set_isNavigating false (run h c e).1.2, set_hashchanges 0 (run h c e).2).
Proof.
  intros Hq Hn. unfold submit, dispatch. cbn [fst snd].
  destruct (run h c e) as [[v c1] e1]. cbn [fst snd] in *.
  rewrite Hq. apply drain_suppressed; assumption.
Qed.

End Drain.

(** ** Leaving the room (C6) *)

Section Leave.
Context `{Platform}.

Lemma run_handleLeaveRoom c e room un :
  currentRoom c = Some room -> JS.truthy room = true ->
  userName c = Some un -> JS.truthy un = true ->
  JS.truthy (currentUserId c) = true ->
  faults e = [] ->
  let left := event_message (un ++ lit " has left the room.") in
  exists c1 e1, run handleLeaveRoom c e = (Fulfilled tt, c1, e1)
    /\ trace e1 = trace e ++
         [EvRequest (AddMessage room left) true;
          EvRequest (DeleteUser room (currentUserId c)) true;
          EvNavigate []]
    /\ room_messages e1 room =
         room_messages e room ++ [(nextId e, with_timestamp (Some (now e)) left)]
    /\ room_users e1 room = delete (currentUserId c) (room_users e room)
    /\ hash e1 = []
    /\ hashchanges e1 = (if bool_decide ([] = hash e) then hashchanges e else S (hashchanges e))
    /\ isNavigating c1 = isNavigating c.
Proof.
  intros Hr Hrt Hu Hut Hid Hf.
  unfold handleLeaveRoom.
  sx. eexists _, _. split; [reflexivity|]. sx. trace_tail. repeat split; reflexivity.
Qed.

(** C6, as amended.  In an active session whose requests all succeed,
    leave() first appends the system event "<name> has left the room.",
    then removes this client's participant record, then issues the
    empty-token navigation, whose handling tears the session down to the
    room page. *)
Theorem C6_leave_appends_then_removes c e room un :
  currentRoom c = Some room -> JS.truthy room = true ->
  userName c = Some un -> JS.truthy un = true ->
  JS.truthy (currentUserId c) = true ->
  isNavigating c = false ->
  hashchanges e = 0 -> hash e <> [] ->
  faults e = [] ->
  let left := event_message (un ++ lit " has left the room.") in
  let '(c', e') := submit handleLeaveRoom (c, e) in
  events_of handleLeaveRoom (c, e) =
    [EvRequest (AddMessage room left) true;
     EvRequest (DeleteUser room (currentUserId c)) true;
     EvNavigate []]
  /\ room_messages e' room =
       room_messages e room ++ [(nextId e, with_timestamp (Some (now e)) left)]
  /\ room_users e' room = delete (currentUserId c) (room_users e room)
  /\ hash e' = [] /\ hashchanges e' = 0
  /\ visible (dom c') = UI_room /\ currentRoom c' = None
  /\ userName c' = None
  /\ unsubscribeMessages c' = false /\ unsubscribeUsers c' = false.
Proof.
  intros Hr Hrt Hu Hut Hid Hnav Hq Hh Hf left.
  destruct (run_handleLeaveRoom c e room un) as
    (c1 & e1 & Hrun & Htr & Hms & Hus & Hh1 & Hq1 & Hn1); auto.
  rewrite bool_decide_false, Hq in Hq1 by congruence.
  destruct (drain_empty_token 1 c1 e1) as
    (c' & e' & Hd & Hv & Hcr & Hun & Hum & Huu & _ & _ & Hro & Hu' & Hm' & Ht' & Hh' & Hq');
    [congruence..|].
  unfold events_of, submit, dispatch. cbn [fst snd].
  rewrite Hrun, Hq1. cbn [Nat.mul Nat.add]. rewrite Hd. cbn [fst snd].
  unfold room_messages, room_users in *.
  rewrite Ht', Hm', Hu', Htr. rewrite drop_app_length.
  repeat split; assumption.
Qed.
End Leave.

Section LeaveExample.
#[local] Existing Instance example_platform.

(** C6, counterexample.  Alice, in the chat of team-x, leaves: the client
    first appends the "has left" event, then removes her participant
    record, then navigates; the order of the claim (record first) is not
    the order observed. *)
Lemma C6_leave_order_counterexample :
  events_of handleLeaveRoom in_chat =
    [EvRequest
       (AddMessage team_x (event_message (lit "Alice has left the room.")))
       true;
     EvRequest (DeleteUser team_x uid_alice) true;
     EvNavigate []]
  /\ events_of handleLeaveRoom in_chat <>
    [EvRequest (DeleteUser team_x uid_alice) true;
     EvRequest
       (AddMessage team_x (event_message (lit "Alice has left the room.")))
       true;
     EvNavigate []].
Proof.
  assert (Hev : events_of handleLeaveRoom in_chat =
    [EvRequest
       (AddMessage team_x (event_message (lit "Alice has left the room.")))
       true;
     EvRequest (DeleteUser team_x uid_alice) true;
     EvNavigate []]) by (vm_compute; reflexivity).
  split; [exact Hev|]. rewrite Hev. discriminate.
Qed.

(** C6, witness: Alice leaving team-x. *)
Lemma C6_leave_witness :
  let left := event_message (lit "Alice" ++ lit " has left the room.") in
  let '(c', e') := submit handleLeaveRoom (in_chat.1, in_chat.2) in
  events_of handleLeaveRoom (in_chat.1, in_chat.2) =
    [EvRequest (AddMessage team_x left) true;
     EvRequest (DeleteUser team_x (currentUserId in_chat.1)) true;
     EvNavigate []]
  /\ room_messages e' team_x =
       room_messages in_chat.2 team_x
       ++ [(nextId in_chat.2, with_timestamp (Some (now in_chat.2)) left)]
  /\ room_users e' team_x
     = delete (currentUserId in_chat.1) (room_users in_chat.2 team_x)
  /\ hash e' = [] /\ hashchanges e' = 0
  /\ visible (dom c') = UI_room /\ currentRoom c' = None
  /\ userName c' = None
  /\ unsubscribeMessages c' = false /\ unsubscribeUsers c' = false.
Proof.
  apply (C6_leave_appends_then_removes in_chat.1 in_chat.2 team_x (lit "Alice"));
    vm_compute; (reflexivity || discriminate).
Defined.
End LeaveExample.

(** ** Sending a message (C8) *)

Section Send.
Context `{Platform}.

Lemma run_handleMessageFormSubmit c e room un :
  JS.truthy (JS.trim (messageInput (inputs (dom c)))) = true ->
  currentRoom c = Some room -> JS.truthy room = true ->
  userName c = Some un -> JS.truthy un = true ->
  JS.truthy (currentUserId c) = true ->
  let text := JS.trim (messageInput (inputs (dom c))) in
  let msg := user_message un text (currentUserId c) in
  let cleared := upd_inputs (set_messageInput []) c in
  exists c1 e1, run handleMessageFormSubmit c e = (Fulfilled tt, c1, e1)
    /\ hashchanges e1 = hashchanges e
    /\ match faults e with
       | true :: _ =>
           c1 = upd_inputs (set_messageInput text) c
           /\ messages e1 = messages e
           /\ trace e1 = trace e ++
                [EvRequest (AddMessage room msg) false;
                 EvConsoleError (lit "Error sending message:")]
       | _ =>
           c1 = deliver_all
                  (if bool_decide (msgListener e = Some room) then
                     [MessagesSnapshot
                        [{| change_type := added;
                            change_doc := (nextId e, msg) |}];
                      MessagesSnapshot
                        [{| change_type := modified;
                            change_doc :=
                              (nextId e, with_timestamp (Some (now e)) msg) |}]]
                   else [])
                  cleared
           /\ room_messages e1 room =
                room_messages e room
                ++ [(nextId e, with_timestamp (Some (now e)) msg)]
           /\ trace e1 = trace e ++ [EvRequest (AddMessage room msg) true]
       end.
Proof.
  intros Ht Hr Hrt Hu Hut Hid.
  unfold handleMessageFormSubmit. sx.
  destruct (faults e) as [|[] fs] eqn:Hf; sx;
    eexists _, _; (split; [reflexivity|]); sx;
    rewrite <- ?app_assoc, ?lookup_total_insert_eq;
    repeat split; reflexivity.
Qed.

(** C8, as amended.  On submission with non-empty trimmed text and an
    active session the input is cleared before the write is awaited (the
    handler is suspended on the write with the field already empty).  If
    the write is rejected, the trimmed text, not the original field
    content, is put back and the store is unchanged.  If it succeeds the
    message is stored with the trimmed text.  In both cases the client
    differs from the cleared one only by what the message listener renders:
    with no listener on the room the message list is untouched. *)
Theorem C8_send_clears_then_restores_trimmed c e room un :
  JS.truthy (JS.trim (messageInput (inputs (dom c)))) = true ->
  currentRoom c = Some room -> JS.truthy room = true ->
  userName c = Some un -> JS.truthy un = true ->
  JS.truthy (currentUserId c) = true ->
  hashchanges e = 0 ->
  let text := JS.trim (messageInput (inputs (dom c))) in
  let msg := user_message un text (currentUserId c) in
  let cleared := upd_inputs (set_messageInput []) c in
  let waiting := start handleMessageFormSubmit c e in
  let '(c', e') := submit handleMessageFormSubmit (c, e) in
  (pending waiting = Some (AddMessage room msg)
   /\ client_of waiting = cleared /\ env_of waiting = e)
  /\ match faults e with
     | true :: _ =>
         c' = upd_inputs (set_messageInput text) c
         /\ messages e' = messages e
     | _ =>
         c' = deliver_all
                (if bool_decide (msgListener e = Some room) then
                   [MessagesSnapshot
                      [{| change_type := added;
                          change_doc := (nextId e, msg) |}];
                    MessagesSnapshot
                      [{| change_type := modified;
                          change_doc :=
                            (nextId e, with_timestamp (Some (now e)) msg) |}]]
                 else [])
                cleared
         /\ room_messages e' room =
              room_messages e room
              ++ [(nextId e, with_timestamp (Some (now e)) msg)]
         /\ messageInput (inputs (dom c')) = []
         /\ (msgListener e <> Some room ->
             messageList (dom c') = messageList (dom c))
     end.
Proof.
  intros Ht Hr Hrt Hu Hut Hid Hq text msg cleared waiting.
  destruct (run_handleMessageFormSubmit c e room un) as
    (c1 & e1 & Hrun & Hq1 & Hres); auto.
  rewrite (submit_idle _ _ _ _ _ _ Hrun) by congruence.
  split.
  { subst waiting. unfold handleMessageFormSubmit. sx.
    repeat split; reflexivity. }
  fold text msg cleared in Hres.
  destruct (faults e) as [|[] fs].
  - destruct Hres as (-> & Hm & _). repeat split; auto.
    + autorewrite with frame. reflexivity.
    + intros Hl. rewrite bool_decide_false by exact Hl. reflexivity.
  - destruct Hres as (-> & Hm & _). split; auto.
  - destruct Hres as (-> & Hm & _). repeat split; auto.
    + autorewrite with frame. reflexivity.
    + intros Hl. rewrite bool_decide_false by exact Hl. reflexivity.
Qed.
End Send.

Section SendExample.
#[local] Existing Instance example_platform.

(** C8, counterexample.  The field holds " hi"; after the rejected write it
    holds "hi": the original text is not what is restored. *)
Lemma C8_restored_text_counterexample :
  messageInput (inputs (dom send_fails.1)) = lit " hi"
  /\ messageInput (inputs (dom (submit handleMessageFormSubmit send_fails).1))
     = lit "hi"
  /\ messageInput (inputs (dom (submit handleMessageFormSubmit send_fails).1))
     <> messageInput (inputs (dom send_fails.1)).
Proof. vm_compute. repeat split; discriminate. Qed.

(** C8, witness: the rejected send of " hi". *)
Lemma C8_send_witness :
  let c := send_fails.1 in
  let e := send_fails.2 in
  let text := JS.trim (messageInput (inputs (dom c))) in
  let msg := user_message (lit "Alice") text (currentUserId c) in
  let cleared := upd_inputs (set_messageInput []) c in
  let waiting := start handleMessageFormSubmit c e in
  let '(c', e') := submit handleMessageFormSubmit (c, e) in
  (pending waiting = Some (AddMessage team_x msg)
   /\ client_of waiting = cleared /\ env_of waiting = e)
  /\ c' = upd_inputs (set_messageInput text) c
  /\ messages e' = messages e.
Proof.
  apply (C8_send_clears_then_restores_trimmed send_fails.1 send_fails.2
           team_x (lit "Alice")); vm_compute; reflexivity.
Defined.
End SendExample.

(** ** Clearing the history (C4) *)

Lemma partition_all {A} (f : A -> bool) (l : list A) :
  (forall x, x ∈ l -> f x = true) -> List.partition f l = (l, []).
Proof.
  induction l as [|x l IH]; intros Hall; cbn; [reflexivity|].
  rewrite IH by (intros y Hy; apply Hall; right; exact Hy).
  rewrite (Hall x) by left. reflexivity.
Qed.

Lemma partition_own_ids (l : list Msg) :
  List.partition (fun d => bool_decide (d.1 ∈ map fst l)) l = (l, []).
Proof.
  apply partition_all. intros x Hx. apply bool_decide_eq_true.
  apply list_elem_of_fmap. exists x. split; [reflexivity | exact Hx].
Qed.

(** The echo of a new event message on an empty list: one system line. *)
Lemma echo_event_on_empty c id text t :
  messageList (dom c) = [] ->
  messageList (dom (deliver_all
    [MessagesSnapshot
       [{| change_type := added; change_doc := (id, event_message text) |}];
     MessagesSnapshot
       [{| change_type := modified;
           change_doc := (id, with_timestamp (Some t) (event_message text)) |}]]
    c)) = [SystemLine id text].
Proof.
  intros Hl. unfold deliver_all. cbn [foldl deliver].
  unfold onMessagesSnapshot. cbn.
  destruct (bool_decide (system <> currentUserId c) && negb (isWindowActive c));
    cbn; destruct (bool_decide (system = currentUserId c)); cbn;
    rewrite Hl; unfold render_element; cbn;
    rewrite (bool_decide_true (system = system)) by reflexivity;
    cbn; rewrite ?N.eqb_refl; reflexivity.
Qed.

Section DeleteAll.
Context `{Platform}.

Lemma run_handleDeleteChat_empty c e room :
  currentRoom c = Some room -> JS.truthy room = true ->
  faults e = [] -> room_messages e room = [] ->
  exists c1 e1, run handleDeleteChat c e = (Fulfilled tt, c1, e1)
    /\ hashchanges e1 = hashchanges e
    /\ visible (dom c1) = UI_chat
    /\ messageList (dom c1) = messageList (dom c)
    /\ messages e1 = messages e
    /\ trace e1 = trace e ++ [EvRequest (GetMessages room) true].
Proof.
  intros Hr Hrt Hf Hm. unfold room_messages in Hm.
  unfold handleDeleteChat. sx.
  eexists _, _. split; [reflexivity|]. sx. repeat split; reflexivity.
Qed.

Lemma run_handleDeleteChat_ok c e room :
  currentRoom c = Some room -> JS.truthy room = true ->
  faults e = [] -> room_messages e room <> [] ->
  let cleared :=
    event_message
      (JS.interpolate (userName c) ++ lit " cleared the chat history.") in
  exists c1 e1, run handleDeleteChat c e = (Fulfilled tt, c1, e1)
    /\ hashchanges e1 = hashchanges e
    /\ visible (dom c1) = UI_chat
    /\ messageList (dom c1) =
         (if bool_decide (msgListener e = Some room)
          then [SystemLine (nextId e) (msg_text cleared)] else [])
    /\ room_messages e1 room =
         [(nextId e, with_timestamp (Some (now e)) cleared)]
    /\ trace e1 = trace e ++
         [EvRequest (GetMessages room) true;
          EvRequest (CommitDeletes room (map fst (room_messages e room))) true;
          EvRequest (AddMessage room cleared) true].
Proof.
  intros Hr Hrt Hf Hm. unfold room_messages in *.
  assert (He : is_empty (messages e !!! room) = false)
    by (destruct (messages e !!! room); [congruence | reflexivity]).
  unfold handleDeleteChat. sx. rewrite partition_own_ids. sx.
  eexists _, _. split; [reflexivity|]. sx. trace_tail.
  repeat split; try reflexivity.
  destruct (bool_decide (msgListener e = Some room)); [|reflexivity].
  apply echo_event_on_empty. reflexivity.
Qed.

Lemma run_handleDeleteChat_commit_rejected c e room fs :
  currentRoom c = Some room -> JS.truthy room = true ->
  faults e = false :: true :: fs ->
  exists c1 e1, run handleDeleteChat c e = (Fulfilled tt, c1, e1)
    /\ hashchanges e1 = hashchanges e
    /\ visible (dom c1) = UI_chat
    /\ messageList (dom c1) = messageList (dom c)
    /\ messages e1 = messages e.
Proof.
  intros Hr Hrt Hf.
  unfold handleDeleteChat. sx.
  destruct (is_empty (messages e !!! room)) eqn:Hl; sx;
    eexists _, _; (split; [reflexivity|]); sx; repeat split; reflexivity.
Qed.
(** C4, as amended.  With every request answered: when the room has no
    message the operation only lists the collection, and neither deletes,
    clears nor appends anything; when it has some, every listed message is
    deleted in one batch, the local list is cleared, and exactly one system
    "cleared" event is appended, which is all the store and (through the
    listener) the local list then hold.  A rejected batch deletes nothing.
    The chat page is shown again in every case. *)
Theorem C4_delete_all c e room :
  currentRoom c = Some room -> JS.truthy room = true ->
  hashchanges e = 0 ->
  let cleared :=
    event_message
      (JS.interpolate (userName c) ++ lit " cleared the chat history.") in
  let c' := (submit handleDeleteChat (c, e)).1 in
  let e' := (submit handleDeleteChat (c, e)).2 in
  (faults e = [] -> room_messages e room = [] ->
     events_of handleDeleteChat (c, e) = [EvRequest (GetMessages room) true]
     /\ messages e' = messages e
     /\ messageList (dom c') = messageList (dom c)
     /\ visible (dom c') = UI_chat)
  /\ (faults e = [] -> room_messages e room <> [] ->
     events_of handleDeleteChat (c, e) =
       [EvRequest (GetMessages room) true;
        EvRequest (CommitDeletes room (map fst (room_messages e room))) true;
        EvRequest (AddMessage room cleared) true]
     /\ room_messages e' room =
          [(nextId e, with_timestamp (Some (now e)) cleared)]
     /\ messageList (dom c') =
          (if bool_decide (msgListener e = Some room)
           then [SystemLine (nextId e) (msg_text cleared)] else [])
     /\ visible (dom c') = UI_chat)
  /\ (forall fs, faults e = false :: true :: fs ->
     messages e' = messages e
     /\ messageList (dom c') = messageList (dom c)
     /\ visible (dom c') = UI_chat).
Proof.
  intros Hr Hrt Hq cleared. cbv zeta.
  destruct (submit handleDeleteChat (c, e)) as [c' e'] eqn:Hs.
  cbn [fst snd]. split; [|split].
  - intros Hf Hm.
    destruct (run_handleDeleteChat_empty c e room) as
      (c1 & e1 & Hrun & Hq1 & Hv & Hl & Hms & Ht); auto.
    rewrite (events_of_idle _ _ _ _ _ _ _ Hrun ltac:(congruence) Ht).
    rewrite (submit_idle _ _ _ _ _ _ Hrun) in Hs by congruence.
    injection Hs as <- <-. auto.
  - intros Hf Hm.
    destruct (run_handleDeleteChat_ok c e room) as
      (c1 & e1 & Hrun & Hq1 & Hv & Hl & Hms & Ht); auto.
    rewrite (events_of_idle _ _ _ _ _ _ _ Hrun ltac:(congruence) Ht).
    rewrite (submit_idle _ _ _ _ _ _ Hrun) in Hs by congruence.
    injection Hs as <- <-. auto.
  - intros fs Hf.
    destruct (run_handleDeleteChat_commit_rejected c e room fs) as
      (c1 & e1 & Hrun & Hq1 & Hv & Hl & Hms); auto.
    rewrite (submit_idle _ _ _ _ _ _ Hrun) in Hs by congruence.
    injection Hs as <- <-. auto.
Qed.
End DeleteAll.

Section DeleteExample.
#[local] Existing Instance example_platform.

(** C4, counterexample.  In a chat whose collection is empty, delete-all
    lists the messages and stops: no "cleared" event is appended. *)
Lemma C4_empty_room_counterexample :
  visible (dom quiet_chat.1) = UI_chat
  /\ room_messages quiet_chat.2 team_x = []
  /\ events_of handleDeleteChat quiet_chat
     = [EvRequest (GetMessages team_x) true]
  /\ room_messages (submit handleDeleteChat quiet_chat).2 team_x = [].
Proof. vm_compute. repeat split; reflexivity. Qed.

(** C4, witness: Alice clears team-x, which holds her join event. *)
Lemma C4_delete_all_witness :
  let c := in_chat.1 in
  let e := in_chat.2 in
  let cleared := event_message (lit "Alice cleared the chat history.") in
  let c' := (submit handleDeleteChat (c, e)).1 in
  let e' := (submit handleDeleteChat (c, e)).2 in
  room_messages e team_x <> []
  /\ events_of handleDeleteChat (c, e) =
       [EvRequest (GetMessages team_x) true;
        EvRequest (CommitDeletes team_x (map fst (room_messages e team_x))) true;
        EvRequest (AddMessage team_x cleared) true]
  /\ room_messages e' team_x =
       [(nextId e, with_timestamp (Some (now e)) cleared)]
  /\ messageList (dom c') = [SystemLine (nextId e) (msg_text cleared)]
  /\ visible (dom c') = UI_chat.
Proof.
  assert (Hne : room_messages in_chat.2 team_x <> [])
    by (vm_compute; discriminate).
  split; [exact Hne|].
  exact (proj1 (proj2
    (C4_delete_all in_chat.1 in_chat.2 team_x
       ltac:(vm_compute; reflexivity) ltac:(vm_compute; reflexivity)
       ltac:(vm_compute; reflexivity)))
    ltac:(vm_compute; reflexivity) Hne).
Defined.
End DeleteExample.

(** ** Slug normalization (C9) *)

Lemma strip_non_slug_is_slug s : is_slug (JS.strip_non_slug s).
Proof.
  unfold is_slug, JS.strip_non_slug. apply List.Forall_forall.
  intros c Hc. apply List.filter_In in Hc. tauto.
Qed.

Lemma strip_non_slug_fixes_slug s : is_slug s -> JS.strip_non_slug s = s.
Proof.
  unfold is_slug, JS.strip_non_slug.
  induction 1 as [|c s Hc _ IH]; cbn; [reflexivity|].
  rewrite Hc, IH. reflexivity.
Qed.

Lemma slug_class_not_white c :
  JS.in_slug_class c = true -> JS.is_white c = false.
Proof.
  unfold JS.in_slug_class, JS.is_white. intros Hc.
  apply not_true_iff_false.
  rewrite ?orb_true_iff, ?andb_true_iff, ?N.leb_le, ?N.eqb_eq in *. lia.
Qed.

Lemma trimStart_fixes_slug s : is_slug s -> JS.trimStart s = s.
Proof.
  destruct 1 as [|c s Hc _]; cbn; [reflexivity|].
  rewrite (slug_class_not_white c Hc). reflexivity.
Qed.

Lemma trim_fixes_slug s : is_slug s -> JS.trim s = s.
Proof.
  intros Hs. unfold JS.trim, JS.trimEnd.
  rewrite (trimStart_fixes_slug s Hs).
  rewrite trimStart_fixes_slug by (apply List.Forall_rev; exact Hs).
  apply rev_involutive.
Qed.

Lemma ascii_lower_fixes_slug s : is_slug s -> JS.ascii_lower s = s.
Proof.
  unfold is_slug, JS.ascii_lower.
  induction 1 as [|c s Hc _ IH]; cbn; [reflexivity|].
  rewrite IH. f_equal.
  destruct ((65 <=? c)%N && (c <=? 90)%N) eqn:Hup; [|reflexivity].
  exfalso. unfold JS.in_slug_class in Hc.
  rewrite ?orb_true_iff, ?andb_true_iff, ?N.leb_le, ?N.eqb_eq in *. lia.
Qed.

Section NormalizeFacts.
Context `{Platform}.

(** C9.  On a platform whose [toLowerCase] leaves strings of [a-z], [0-9]
    and [-] unchanged (as every JavaScript engine's does), slug
    normalization is idempotent and its output matches [^[a-z0-9-]*$]. *)
Theorem C9_normalize_idempotent_slug :
  (forall t, is_slug t -> toLowerCase t = t) ->
  forall s,
    normalize (normalize s) = normalize s /\ is_slug (normalize s).
Proof.
  intros Hlow s.
  assert (Hs : is_slug (normalize s)) by apply strip_non_slug_is_slug.
  split; [|exact Hs].
  unfold normalize at 1.
  rewrite (trim_fixes_slug _ Hs), (Hlow _ Hs).
  apply strip_non_slug_fixes_slug, Hs.
Qed.

End NormalizeFacts.

Section NormalizeExample.
#[local] Existing Instance example_platform.

(** C9, witness: the ASCII platform and the input " Team X! ". *)
Lemma C9_normalize_witness :
  normalize (lit " Team X! ") = lit "teamx"
  /\ normalize (normalize (lit " Team X! ")) = normalize (lit " Team X! ")
  /\ is_slug (normalize (lit " Team X! ")).
Proof.
  split; [vm_compute; reflexivity|].
  exact (C9_normalize_idempotent_slug ascii_lower_fixes_slug (lit " Team X! ")).
Defined.

End NormalizeExample.

(** ** Rendering a batch of added messages (C2) *)

Section SortByKey.
Context {A : Type} (key : A -> Z).

Lemma insert_by_perm x l : JS.insert_by (by_key key) x l ≡ₚ x :: l.
Proof.
  induction l as [|y l IH]; cbn; [reflexivity|].
  destruct ((by_key key) x y <=? 0)%Z; [reflexivity|].
  rewrite IH. apply Permutation_swap.
Qed.

Lemma sort_perm l : JS.sort (by_key key) l ≡ₚ l.
Proof.
  induction l as [|x l IH]; cbn; [reflexivity|].
  rewrite insert_by_perm, IH. reflexivity.
Qed.

Lemma insert_by_sorted x l :
  StronglySorted (key_le key) l -> StronglySorted (key_le key) (JS.insert_by (by_key key) x l).
Proof.
  induction 1 as [|y l Hs IH Hy]; cbn.
  - repeat constructor.
  - unfold by_key at 1. destruct (Z.leb_spec (key x - key y) 0) as [Hle|Hgt].
    + constructor; [constructor; assumption|].
      constructor; [unfold key_le; lia|].
      eapply Forall_impl; [exact Hy|]. unfold key_le. intros; lia.
    + constructor; [exact IH|].
      rewrite insert_by_perm. constructor; [unfold key_le; lia | exact Hy].
Qed.

Lemma sort_sorted l : StronglySorted (key_le key) (JS.sort (by_key key) l).
Proof.
  induction l as [|x l IH]; cbn; [constructor|].
  apply insert_by_sorted, IH.
Qed.

Lemma insert_by_with_key k x l :
  StronglySorted (key_le key) l ->
  with_key key k (JS.insert_by (by_key key) x l) = with_key key k (x :: l).
Proof.
  unfold with_key.
  induction 1 as [|y l Hs IH Hy]; [reflexivity|].
  cbn [JS.insert_by]. unfold by_key at 1.
  destruct (Z.leb_spec (key x - key y) 0) as [Hle|Hgt]; [reflexivity|].
  cbn [List.filter] in *. rewrite IH.
  destruct (Z.eqb_spec (key y) k), (Z.eqb_spec (key x) k);
    try reflexivity. lia.
Qed.

Lemma sort_stable k l : with_key key k (JS.sort (by_key key) l) = with_key key k l.
Proof.
  induction l as [|x l IH]; [reflexivity|].
  change (JS.sort (by_key key) (x :: l))
    with (JS.insert_by (by_key key) x (JS.sort (by_key key) l)).
  rewrite insert_by_with_key by apply sort_sorted.
  unfold with_key in *. cbn [List.filter]. rewrite IH. reflexivity.
Qed.

End SortByKey.

Lemma sort_key_pending m : msg_timestamp m.2 = None -> sort_key m = 0%Z.
Proof. unfold sort_key. intros ->. reflexivity. Qed.

Lemma sort_key_seconds m t :
  msg_timestamp m.2 = Some t -> sort_key m = seconds t.
Proof.
  unfold sort_key. intros ->. cbn.
  destruct (Z.eqb_spec (seconds t) 0); congruence.
Qed.

Lemma foldl_on_change_added chs c acc :
  all_added chs ->
  (foldl on_change (c, acc) chs).2 = acc ++ map change_doc chs
  /\ messageList (dom (foldl on_change (c, acc) chs).1) = messageList (dom c)
  /\ currentUserId (foldl on_change (c, acc) chs).1 = currentUserId c.
Proof.
  intros Hall. revert c acc.
  induction Hall as [|ch chs Hch _ IH]; intros c acc; cbn [foldl].
  - rewrite app_nil_r. auto.
  - unfold on_change at 2 4 6. rewrite Hch.
    match goal with
    | |- context [foldl on_change (?c1, ?acc1) chs] =>
        destruct (IH c1 acc1) as (-> & -> & ->)
    end.
    rewrite <- app_assoc.
    destruct (_ && _); auto.
Qed.

Lemma render_loop_list ms c :
  messageList (dom
    (foldl (fun c msg =>
              upd_messageList
                (fun l => l ++ [render_element (currentUserId c) msg]) c)
       c ms))
  = messageList (dom c) ++ map (render_element (currentUserId c)) ms.
Proof.
  revert c. induction ms as [|m ms IH]; intros c; cbn [foldl map].
  - rewrite app_nil_r. reflexivity.
  - rewrite IH. cbn. rewrite <- app_assoc. reflexivity.
Qed.

(** The added messages of a batch are appended in ascending order of the
    whole seconds of their timestamps, a pending timestamp counting as 0;
    the order is a permutation of the batch in which messages of equal
    seconds keep their delivery order. *)
Theorem added_batch_rendered_by_seconds c chs :
  all_added chs ->
  let batch := map change_doc chs in
  let shown := JS.sort by_seconds batch in
  messageList (dom (onMessagesSnapshot chs c))
    = messageList (dom c) ++ map (render_element (currentUserId c)) shown
  /\ shown ≡ₚ batch
  /\ StronglySorted (key_le sort_key) shown
  /\ (forall k, with_key sort_key k shown = with_key sort_key k batch).
Proof.
  intros Hall batch shown. split.
  - unfold onMessagesSnapshot.
    destruct (foldl_on_change_added chs c [] Hall) as (Hms & Hl & Hu).
    destruct (foldl on_change (c, []) chs) as [c1 ms]. cbn in Hms, Hl, Hu.
    subst ms. unfold renderMessages. rewrite render_loop_list, Hl, Hu.
    reflexivity.
  - split; [apply (sort_perm sort_key)|].
    split; [apply (sort_sorted sort_key) | intros k; apply (sort_stable sort_key)].
Qed.

Lemma added_batch_witness :
  all_added same_second_batch
  /\ messageList (dom (onMessagesSnapshot same_second_batch (fresh_client (lit "uid-alice"))))
     = map (render_element (lit "uid-alice"))
         (JS.sort by_seconds (map change_doc same_second_batch)).
Proof.
  assert (Ha : all_added same_second_batch) by (repeat constructor).
  split; [exact Ha|].
  exact (proj1 (added_batch_rendered_by_seconds (fresh_client (lit "uid-alice")) same_second_batch Ha)).
Defined.

(** C2, the failing input.  Two messages of the same second are delivered
    newest first; their timestamps are distinct, yet they are rendered in
    delivery order, the later one above the earlier one. *)
Lemma C2_same_second_rendered_out_of_order :
  all_added same_second_batch
  /\ ts_lt t_early t_late
  /\ messageList
       (dom (onMessagesSnapshot same_second_batch (fresh_client (lit "uid-alice"))))
     = [Bubble 7 false (lit "Bob") (lit "second") (LocaleTime t_late);
        Bubble 3 false (lit "Bob") (lit "first") (LocaleTime t_early)].
Proof.
  split; [repeat constructor|]. split.
  - right. cbn. lia.
  - vm_compute. reflexivity.
Qed.

(** ** Passwords are trimmed before hashing (C10) *)

Section Passwords.
Context `{Platform}.

(** Runs of the password form that differ only in whitespace around the
    password. *)
Lemma run_handlePasswordVerifySubmit_trim c e p1 p2 :
  JS.trim p1 = JS.trim p2 ->
  let r1 := run handlePasswordVerifySubmit
              (upd_inputs (set_passwordVerifyInput p1) c) e in
  let r2 := run handlePasswordVerifySubmit
              (upd_inputs (set_passwordVerifyInput p2) c) e in
  r1.2 = r2.2
  /\ upd_inputs (set_passwordVerifyInput []) r1.1.2
     = upd_inputs (set_passwordVerifyInput []) r2.1.2
  /\ hashchanges r1.2 = hashchanges e.
Proof.
  intros Ht. remember (JS.trim p2) as t eqn:Ht2. symmetry in Ht2.
  unfold handlePasswordVerifySubmit. cbv zeta. sx.
  destruct (JS.truthy t) eqn:Htt; sx; [|auto].
  destruct (JS.truthy_opt (currentRoom c)) eqn:Hrt; sx; [|auto].
  destruct (currentRoom c) as [room|] eqn:Hr; [|discriminate]. sx.
  destruct (faults e) as [|[] [|[] fs]] eqn:Hf; sx; auto;
    destruct (rooms e !! room) as [data|]; sx; auto;
    destruct (bool_decide _); sx; auto.
Qed.

Lemma run_handleRoomFormSubmit_trim c e p1 p2 :
  JS.trim p1 = JS.trim p2 ->
  hashchanges e = 0 ->
  let r1 := run handleRoomFormSubmit
              (upd_inputs (set_roomPasswordInput p1) c) e in
  let r2 := run handleRoomFormSubmit
              (upd_inputs (set_roomPasswordInput p2) c) e in
  r1.2 = r2.2
  /\ upd_inputs (set_roomPasswordInput []) r1.1.2
     = upd_inputs (set_roomPasswordInput []) r2.1.2
  /\ (hashchanges r1.2 = 0
      \/ hashchanges r1.2 = 1 /\ isNavigating r1.1.2 = true
         /\ isNavigating r2.1.2 = true).
Proof.
  intros Ht Hq. remember (JS.trim p2) as t eqn:Ht2. symmetry in Ht2.
  unfold handleRoomFormSubmit, enter_name_screen. cbv zeta. sx.
  destruct (JS.truthy (normalize (roomInput (inputs (dom c))))) eqn:Hrt;
    sx; [|auto].
  destruct (JS.truthy t) eqn:Htt; sx; [|auto].
  destruct (faults e) as [|[] [|[] [|[] fs]]] eqn:Hf; sx; auto;
    destruct (rooms e !! normalize (roomInput (inputs (dom c))))
      as [data|]; sx; auto;
    try (destruct (bool_decide (passwordHash data = _)); sx; auto);
    destruct (bool_decide (normalize (roomInput (inputs (dom c))) = hash e));
    sx; auto 6.
Qed.

Lemma submit_handleRoomFormSubmit_trim c e p1 p2 :
  JS.trim p1 = JS.trim p2 ->
  hashchanges e = 0 ->
  let s1 := submit handleRoomFormSubmit
              (upd_inputs (set_roomPasswordInput p1) c, e) in
  let s2 := submit handleRoomFormSubmit
              (upd_inputs (set_roomPasswordInput p2) c, e) in
  s1.2 = s2.2
  /\ upd_inputs (set_roomPasswordInput []) s1.1
     = upd_inputs (set_roomPasswordInput []) s2.1.
Proof.
  intros Ht Hq. cbv zeta.
  destruct (run_handleRoomFormSubmit_trim c e p1 p2 Ht Hq)
    as (He & Hc & [Hq1 | (Hq1 & Hn1 & Hn2)]).
  - rewrite !submit_settled by congruence. auto.
  - rewrite !submit_suppressed by congruence. cbn [fst snd].
    rewrite He. split; [reflexivity|].
    change (set_isNavigating false
              (upd_inputs (set_roomPasswordInput [])
                 (run handleRoomFormSubmit
                    (upd_inputs (set_roomPasswordInput p1) c) e).1.2)
            = set_isNavigating false
              (upd_inputs (set_roomPasswordInput [])
                 (run handleRoomFormSubmit
                    (upd_inputs (set_roomPasswordInput p2) c) e).1.2)).
    rewrite Hc. reflexivity.
Qed.

Lemma submit_handlePasswordVerifySubmit_trim c e p1 p2 :
  JS.trim p1 = JS.trim p2 ->
  hashchanges e = 0 ->
  let s1 := submit handlePasswordVerifySubmit
              (upd_inputs (set_passwordVerifyInput p1) c, e) in
  let s2 := submit handlePasswordVerifySubmit
              (upd_inputs (set_passwordVerifyInput p2) c, e) in
  s1.2 = s2.2
  /\ upd_inputs (set_passwordVerifyInput []) s1.1
     = upd_inputs (set_passwordVerifyInput []) s2.1.
Proof.
  intros Ht Hq. cbv zeta.
  destruct (run_handlePasswordVerifySubmit_trim c e p1 p2 Ht)
    as (He & Hc & Hq1).
  rewrite !submit_settled by congruence. auto.
Qed.
Lemma run_handleRoomFormSubmit_ok c e :
  let roomName := normalize (roomInput (inputs (dom c))) in
  let password := JS.trim (roomPasswordInput (inputs (dom c))) in
  JS.truthy roomName = true -> JS.truthy password = true ->
  faults e = [] -> hashchanges e = 0 ->
  let r := run handleRoomFormSubmit c e in
  (hashchanges r.2 = 0 \/ hashchanges r.2 = 1 /\ isNavigating r.1.2 = true)
  /\ match rooms e !! roomName with
     | None =>
         rooms r.2 =
           <[roomName := {| passwordHash := sha256hex password;
                            createdAt := now e |}]> (rooms e)
         /\ visible (dom r.1.2) = UI_name
         /\ currentRoom r.1.2 = Some roomName
     | Some data =>
         rooms r.2 = rooms e
         /\ visible (dom r.1.2) =
              (if bool_decide (passwordHash data = sha256hex password)
               then UI_name else UI_room)
     end.
Proof.
  intros roomName password Hrt Hpt Hf Hq. subst roomName password.
  unfold handleRoomFormSubmit, enter_name_screen. cbv zeta. sx.
  destruct (rooms e !! normalize (roomInput (inputs (dom c))))
    as [data|]; sx;
    try (destruct (bool_decide (passwordHash data = _)); sx; auto);
    destruct (bool_decide (normalize (roomInput (inputs (dom c))) = hash e));
    sx; auto 6.
Qed.

Lemma run_handlePasswordVerifySubmit_ok c e room :
  let password := JS.trim (passwordVerifyInput (inputs (dom c))) in
  currentRoom c = Some room -> JS.truthy room = true ->
  JS.truthy password = true -> faults e = [] ->
  let r := run handlePasswordVerifySubmit c e in
  hashchanges r.2 = hashchanges e
  /\ rooms r.2 = rooms e
  /\ visible (dom r.1.2) =
       match rooms e !! room with
       | Some data =>
           if bool_decide (passwordHash data = sha256hex password)
           then UI_name else UI_password
       | None => UI_password
       end.
Proof.
  intros password Hr Hrt Hpt Hf. subst password.
  unfold handlePasswordVerifySubmit. cbv zeta. sx.
  destruct (rooms e !! room) as [data|]; sx; auto.
  destruct (bool_decide _); sx; auto.
Qed.

(** C10.  Both password paths trim the submitted password before hashing
    it.  Two submissions whose passwords are equal after trimming leave the
    same store and the same client (up to the text still standing in the
    password field), on the create-or-join form and on the verification
    form, whatever the store answers.  With every request answered, a new
    room stores the digest of the trimmed password, and an existing room
    is opened exactly when its stored digest equals the digest of the
    trimmed password. *)
Theorem C10_password_trimmed_before_hashing c e :
  hashchanges e = 0 ->
  let roomName := normalize (roomInput (inputs (dom c))) in
  let created := JS.trim (roomPasswordInput (inputs (dom c))) in
  let verified := JS.trim (passwordVerifyInput (inputs (dom c))) in
  (forall p1 p2, JS.trim p1 = JS.trim p2 ->
     let s1 := submit handleRoomFormSubmit
                 (upd_inputs (set_roomPasswordInput p1) c, e) in
     let s2 := submit handleRoomFormSubmit
                 (upd_inputs (set_roomPasswordInput p2) c, e) in
     s1.2 = s2.2
     /\ upd_inputs (set_roomPasswordInput []) s1.1
        = upd_inputs (set_roomPasswordInput []) s2.1)
  /\ (forall p1 p2, JS.trim p1 = JS.trim p2 ->
     let s1 := submit handlePasswordVerifySubmit
                 (upd_inputs (set_passwordVerifyInput p1) c, e) in
     let s2 := submit handlePasswordVerifySubmit
                 (upd_inputs (set_passwordVerifyInput p2) c, e) in
     s1.2 = s2.2
     /\ upd_inputs (set_passwordVerifyInput []) s1.1
        = upd_inputs (set_passwordVerifyInput []) s2.1)
  /\ (faults e = [] -> JS.truthy roomName = true ->
      JS.truthy created = true ->
      let s' := submit handleRoomFormSubmit (c, e) in
      pending (start handleRoomFormSubmit c e) = Some (HashPassword created)
      /\ match rooms e !! roomName with
         | None =>
             rooms s'.2 !! roomName =
               Some {| passwordHash := sha256hex created;
                       createdAt := now e |}
             /\ visible (dom s'.1) = UI_name
         | Some data =>
             rooms s'.2 = rooms e
             /\ visible (dom s'.1) =
                  (if bool_decide (passwordHash data = sha256hex created)
                   then UI_name else UI_room)
         end)
  /\ (forall room, faults e = [] -> currentRoom c = Some room ->
      JS.truthy room = true -> JS.truthy verified = true ->
      let s' := submit handlePasswordVerifySubmit (c, e) in
      pending (start handlePasswordVerifySubmit c e)
        = Some (HashPassword verified)
      /\ visible (dom s'.1) =
           match rooms e !! room with
           | Some data =>
               if bool_decide (passwordHash data = sha256hex verified)
               then UI_name else UI_password
           | None => UI_password
           end).
Proof.
  intros Hq roomName created verified.
  split; [intros p1 p2 Ht; apply submit_handleRoomFormSubmit_trim; assumption|].
  split; [intros p1 p2 Ht; apply submit_handlePasswordVerifySubmit_trim;
          assumption|].
  split.
  - intros Hf Hrt Hpt s'. split.
    { unfold handleRoomFormSubmit. subst roomName created. sx. reflexivity. }
    destruct (run_handleRoomFormSubmit_ok c e Hrt Hpt Hf Hq) as (Hqs & Hres).
    fold roomName created in Hres. subst s'.
    destruct Hqs as [Hq1 | (Hq1 & Hn1)];
      [rewrite submit_settled by exact Hq1
      |rewrite submit_suppressed by assumption];
      unfold set_hashchanges, set_isNavigating;
      cbn [fst snd rooms dom visible];
      destruct (rooms e !! roomName) as [data|];
      destruct Hres as (Hro & Hres); rewrite Hro;
      rewrite ?lookup_insert_eq; try destruct Hres; auto.
  - intros room Hf Hr Hrt Hpt s'. split.
    { unfold handlePasswordVerifySubmit. subst verified. sx. reflexivity. }
    destruct (run_handlePasswordVerifySubmit_ok c e room Hr Hrt Hpt Hf)
      as (Hq1 & Hro & Hv).
    subst s'. rewrite submit_settled by congruence. exact Hv.
Qed.
End Passwords.

Section PasswordExample.
#[local] Existing Instance example_platform.

(** C10, witness: creating team-x with " hunter2" and with "hunter2 ". *)
Lemma C10_password_witness :
  let c := create_team_x.1 in
  let e := create_team_x.2 in
  let s1 := submit handleRoomFormSubmit
              (upd_inputs (set_roomPasswordInput (lit " hunter2")) c, e) in
  let s2 := submit handleRoomFormSubmit
              (upd_inputs (set_roomPasswordInput (lit "hunter2 ")) c, e) in
  JS.trim (lit " hunter2") = JS.trim (lit "hunter2 ")
  /\ s1.2 = s2.2
  /\ upd_inputs (set_roomPasswordInput []) s1.1
     = upd_inputs (set_roomPasswordInput []) s2.1
  /\ rooms s1.2 !! team_x
     = Some {| passwordHash := sha256hex (lit "hunter2");
               createdAt := now e |}.
Proof.
  assert (Ht : JS.trim (lit " hunter2") = JS.trim (lit "hunter2 "))
    by (vm_compute; reflexivity).
  split; [exact Ht|].
  split; [|split].
  - exact (proj1 (proj1
      (C10_password_trimmed_before_hashing create_team_x.1 create_team_x.2
         ltac:(vm_compute; reflexivity)) _ _ Ht)).
  - exact (proj2 (proj1
      (C10_password_trimmed_before_hashing create_team_x.1 create_team_x.2
         ltac:(vm_compute; reflexivity)) _ _ Ht)).
  - vm_compute. reflexivity.
Defined.
End PasswordExample.

(** ** Failures of the store *)

Section Failures.
Context `{Platform}.

Lemma run_handleRoomFormSubmit_failures c e :
  JS.truthy (normalize (roomInput (inputs (dom c)))) = true ->
  JS.truthy (JS.trim (roomPasswordInput (inputs (dom c)))) = true ->
  hashchanges e = 0 ->
  let r := run handleRoomFormSubmit c e in
  (hashchanges r.2 = 0 \/ hashchanges r.2 = 1 /\ isNavigating r.1.2 = true)
  /\ visible (dom r.1.2) <> UI_loading
  /\ (rejected (since e r.2) = true ->
      visible (dom r.1.2) = UI_room
      /\ logged (since e r.2) = true
      /\ roomError (errors (dom r.1.2))
         = shown "An error occurred. Please try again.").
Proof.
  intros Hrt Hpt Hq. cbv zeta.
  destruct (run handleRoomFormSubmit c e) as [[v c1] e1] eqn:Hrun.
  cbn [fst snd]. revert Hrun.
  unfold handleRoomFormSubmit, enter_name_screen.
  hx.
  split_faults; hx; try (finish; auto; fail).
  split_faults; hx; try (finish; auto; fail).
  case_on (rooms e !! normalize (roomInput (inputs (dom c)))); hx.
  - match goal with |- context [bool_decide (passwordHash ?d = ?h)] =>
      destruct (bool_decide (passwordHash d = h)) end; hx.
    + case_on (bool_decide (normalize (roomInput (inputs (dom c))) = hash e));
        finish; auto.
    + finish; auto.
  - split_faults; hx; try (finish; auto; fail).
    case_on (bool_decide (normalize (roomInput (inputs (dom c))) = hash e));
        finish; auto.
Qed.

Lemma run_handlePasswordVerifySubmit_failures c e room :
  currentRoom c = Some room -> JS.truthy room = true ->
  JS.truthy (JS.trim (passwordVerifyInput (inputs (dom c)))) = true ->
  let r := run handlePasswordVerifySubmit c e in
  hashchanges r.2 = hashchanges e
  /\ visible (dom r.1.2) <> UI_loading
  /\ (rejected (since e r.2) = true ->
      visible (dom r.1.2) = UI_password
      /\ logged (since e r.2) = true
      /\ passwordError (errors (dom r.1.2)) = shown "An error occurred.").
Proof.
  intros Hr Hrt Hpt. cbv zeta.
  destruct (run handlePasswordVerifySubmit c e) as [[v c1] e1] eqn:Hrun.
  cbn [fst snd]. revert Hrun.
  unfold handlePasswordVerifySubmit.
  hx.
  split_faults; hx; try (finish; fail).
  split_faults; hx; try (finish; fail).
  case_on (rooms e !! room); hx; [|finish].
  match goal with |- context [bool_decide (passwordHash ?d = ?h)] =>
      destruct (bool_decide (passwordHash d = h)) end; hx; finish.
Qed.

Lemma run_handleNameFormSubmit_failures c e room :
  currentRoom c = Some room -> JS.truthy room = true ->
  JS.truthy (JS.trim (nameInput (inputs (dom c)))) = true ->
  let r := run handleNameFormSubmit c e in
  hashchanges r.2 = hashchanges e
  /\ visible (dom r.1.2) <> UI_loading
  /\ (rejected (since e r.2) = true ->
      visible (dom r.1.2) = UI_name
      /\ logged (since e r.2) = true
      /\ nameError (errors (dom r.1.2))
         = shown "An error occurred while joining.").
Proof.
  intros Hr Hrt Hnt. cbv zeta.
  destruct (run handleNameFormSubmit c e) as [[v c1] e1] eqn:Hrun.
  cbn [fst snd]. revert Hrun.
  unfold handleNameFormSubmit.
  hx.
  split_faults; hx; try (finish; fail).
  case_scan; hx; try (finish; fail).
  - split_faults; hx; try (finish; fail).
    case_on ((users e !!! room) !! currentUserId c); hx; finish.
  - split_faults; hx; try (finish; fail).
    split_faults; hx; finish.
Qed.

Lemma run_handleDeleteChat_failures c e room :
  currentRoom c = Some room -> JS.truthy room = true ->
  let r := run handleDeleteChat c e in
  hashchanges r.2 = hashchanges e
  /\ visible (dom r.1.2) = UI_chat
  /\ errors (dom r.1.2) = errors (dom c)
  /\ (rejected (since e r.2) = true -> logged (since e r.2) = true).
Proof.
  intros Hr Hrt. cbv zeta.
  destruct (run handleDeleteChat c e) as [[v c1] e1] eqn:Hrun.
  cbn [fst snd]. revert Hrun.
  unfold handleDeleteChat.
  hx.
  split_faults; hx; try (finish; fail).
  change (JS.interpolate (Some room)) with room.
  case_on (is_empty (messages e !!! room)); hx; try (finish; fail).
  split_faults; hx; try (finish; fail).
  rewrite ?partition_own_ids; hx.
  split_faults; hx; finish.
Qed.

Lemma run_handleHashChange_failures c e :
  isNavigating c = false -> JS.truthy (hash e) = true ->
  hashchanges e = 0 ->
  let r := run handleHashChange c e in
  isNavigating r.1.2 = false
  /\ (hashchanges r.2 = 0 /\ visible (dom r.1.2) = UI_password
      /\ rejected (since e r.2) = false
      \/ hashchanges r.2 = 1 /\ hash r.2 = []
         /\ (rejected (since e r.2) = true ->
             logged (since e r.2) = true
             /\ roomError (errors (dom r.1.2)) = shown "An error occurred.")).
Proof.
  intros Hn Ht Hq. cbv zeta.
  destruct (run handleHashChange c e) as [[v c1] e1] eqn:Hrun.
  cbn [fst snd]. revert Hrun.
  assert (Hne : bool_decide ([] = hash e) = false).
  { apply bool_decide_eq_false. intros Heq. rewrite <- Heq in Ht.
    discriminate. }
  unfold handleHashChange, cleanupSubscriptions, verifyRoomExists.
  hx.
  case_on (unsubscribeMessages c); hx;
    (case_on (unsubscribeUsers c); hx);
    (split_faults; hx;
     [|case_on (rooms e !! hash e); hx]);
    intros Hx; injection Hx as <- <- <-; settle; hyp_rewrite;
    (split; [reflexivity|]);
    first [ left; repeat split; reflexivity
          | right; cbn [logged existsb is_console_error orb];
            repeat split; try reflexivity;
            try congruence ].
Qed.

End Failures.

Section Recovery.
Context `{Platform}.

Lemma truthy_opt_some o :
  JS.truthy_opt o = true -> exists s, o = Some s /\ JS.truthy s = true.
Proof. destruct o as [s|]; [eauto|discriminate]. Qed.

(** Once past its guards, each of the five
    handlers that show the spinner ends on a named screen other than the
    spinner, whatever the store does.  When a request was rejected, the
    handler has logged the error to the console and the screen is the one
    its [catch] returns to: the room page for the room check (through the
    navigation to the empty token) and for create-or-join, the password
    page, the name page, the chat.  The first four show their generic
    message in an error element; delete-all shows none and leaves the error
    elements as they were. *)
Theorem failures_recover op c e :
  reaches_store op c e = true -> hashchanges e = 0 ->
  let c' := (submit (handler_of op) (c, e)).1 in
  let evs := events_of (handler_of op) (c, e) in
  visible (dom c') <> UI_loading
  /\ (rejected evs = true ->
      visible (dom c') = (recovery op).1
      /\ logged evs = true
      /\ match (recovery op).2 with
         | Some (el, message) => error_slot el c' = shown message
         | None => errors (dom c') = errors (dom c)
         end).
Proof.
  intros Hg Hq. cbv zeta. unfold events_of.
  destruct op; cbn [handler_of recovery fst snd error_slot];
    cbn [reaches_store] in Hg;
    repeat match goal with
      | H : _ && _ = true |- _ => apply andb_true_iff in H as [? ?]
      | H : negb _ = true |- _ => apply negb_true_iff in H
      | H : JS.truthy_opt _ = true |- _ =>
          apply truthy_opt_some in H as (room & ? & ?)
      end.
  - (* room check *)
    pose proof (run_handleHashChange_failures c e ltac:(assumption)
                  ltac:(assumption) Hq) as Hrun.
    cbv zeta in Hrun. unfold submit, dispatch. cbn [fst snd].
    unfold since in Hrun.
    destruct (run handleHashChange c e) as [[v c1] e1]. cbn [fst snd] in Hrun.
    destruct Hrun as [Hn1 [(Hq1 & Hv & Hrej)|(Hq1 & Hh1 & Hrej)]].
    + rewrite (drain_idle _ _ _ Hq1). cbn [fst snd]. rewrite Hv, Hrej.
      split; [discriminate|]. intros; discriminate.
    + rewrite Hq1.
      destruct (drain_empty_token 1 c1 e1 Hq1 Hh1 Hn1)
        as (c' & e' & Hd & Hvis & _ & _ & _ & _ & Herr & _ & _ & _ & _
            & Htr & _).
      change (2 * 1) with 2. rewrite Hd. cbn [fst snd].
      rewrite Hvis, Htr, Herr. split; [discriminate|].
      intros Hr. destruct (Hrej Hr) as [? ?]. repeat split; first [assumption | reflexivity].
  - (* create or join *)
    pose proof (run_handleRoomFormSubmit_failures c e ltac:(eassumption)
                  ltac:(eassumption) Hq) as Hrun.
    cbv zeta in Hrun. destruct Hrun as ([Hq1|[Hq1 Hn1]] & Hv & Hrej).
    + rewrite (submit_settled _ _ _ Hq1). cbn [fst snd].
      split; [exact Hv|]. exact Hrej.
    + rewrite (submit_suppressed _ _ _ Hq1 Hn1). cbn [fst snd].
      split; [exact Hv|]. exact Hrej.
  - (* password verify *)
    pose proof (run_handlePasswordVerifySubmit_failures c e room
                  ltac:(assumption) ltac:(assumption) ltac:(assumption))
      as Hrun.
    cbv zeta in Hrun. destruct Hrun as (Hq1 & Hv & Hrej).
    rewrite Hq in Hq1. rewrite (submit_settled _ _ _ Hq1). cbn [fst snd].
    split; [exact Hv|]. exact Hrej.
  - (* name claim *)
    pose proof (run_handleNameFormSubmit_failures c e room
                  ltac:(assumption) ltac:(assumption) ltac:(assumption))
      as Hrun.
    cbv zeta in Hrun. destruct Hrun as (Hq1 & Hv & Hrej).
    rewrite Hq in Hq1. rewrite (submit_settled _ _ _ Hq1). cbn [fst snd].
    split; [exact Hv|]. exact Hrej.
  - (* delete all *)
    pose proof (run_handleDeleteChat_failures c e room
                  ltac:(assumption) ltac:(assumption)) as Hrun.
    cbv zeta in Hrun. destruct Hrun as (Hq1 & Hv & Herr & Hrej).
    rewrite Hq in Hq1. rewrite (submit_settled _ _ _ Hq1). cbn [fst snd].
    rewrite Hv. split; [discriminate|].
    intros Hr. repeat split; [exact (Hrej Hr)|exact Herr].
Qed.

End Recovery.

Section FailureExamples.
#[local] Existing Instance example_platform.

(** The write of the join event is rejected while Alice claims her name. *)
Lemma failures_recover_witness :
  let s := with_faults [false; false; true]
             (typing set_nameInput "Alice" at_name_form) in
  let c' := (submit handleNameFormSubmit s).1 in
  visible (dom c') = UI_name
  /\ nameError (errors (dom c')) = shown "An error occurred while joining.".
Proof.
  cbv zeta.
  pose proof (failures_recover NameClaim
                (with_faults [false; false; true]
                   (typing set_nameInput "Alice" at_name_form)).1
                (with_faults [false; false; true]
                   (typing set_nameInput "Alice" at_name_form)).2
                ltac:(vm_compute; reflexivity)
                ltac:(vm_compute; reflexivity)) as Hw.
  cbv zeta in Hw.
  destruct Hw as [_ Hw].
  destruct (Hw ltac:(vm_compute; reflexivity)) as (Hv & _ & Hm).
  split; [exact Hv | exact Hm].
Defined.

End FailureExamples.

(** A handler run symbolically against a store that answers. *)
Ltac ax :=
  repeat (progress
            (repeat first [mstep | listen_step]; cbv beta iota;
             try perform_step; env_simpl; cli_simpl; hyp_rewrite;
             autorewrite with frame)).

(** The result of a run, named, with the run as a hypothesis of the goal. *)
Ltac run_of h :=
  cbv zeta;
  let v := fresh "v" in
  let c1 := fresh "c1" in
  let e1 := fresh "e1" in
  let Hrun := fresh "Hrun" in
  destruct h as [[v c1] e1] eqn:Hrun;
  cbn [fst snd]; revert Hrun.

(** ** The unread counter *)

Lemma render_loop_unread ms c :
  let c' := foldl (fun c msg =>
              upd_messageList
                (fun l => l ++ [render_element (currentUserId c) msg]) c)
              c ms in
  unreadMessages c' = unreadMessages c /\ title (dom c') = title (dom c)
  /\ isWindowActive c' = isWindowActive c.
Proof.
  cbv zeta. revert c. induction ms as [|m ms IH]; intros c; cbn [foldl].
  - auto.
  - destruct (IH (upd_messageList
                    (fun l => l ++ [render_element (currentUserId c) m]) c))
      as (-> & -> & ->). auto.
Qed.

Lemma on_change_unread c acc ch :
  let r := on_change (c, acc) ch in
  let foreign := is_foreign_added (currentUserId c) ch in
  currentUserId r.1 = currentUserId c
  /\ isWindowActive r.1 = isWindowActive c
  /\ unreadMessages r.1 =
       (if negb (isWindowActive c) && foreign then S (unreadMessages c)
        else unreadMessages c)
  /\ title (dom r.1) =
       (if negb (isWindowActive c) && foreign then Some (S (unreadMessages c))
        else title (dom c)).
Proof.
  cbv zeta. unfold on_change, is_foreign_added.
  destruct (change_type ch); cbn [fst].
  - destruct (bool_decide (msg_senderId (change_doc ch).2 <> currentUserId c)),
      (isWindowActive c) eqn:Hact; cbn; auto.
  - rewrite andb_false_r. destruct (bool_decide _); cbn; auto.
  - rewrite andb_false_r. cbn. auto.
Qed.

Lemma foldl_on_change_unread chs c acc :
  let c' := (foldl on_change (c, acc) chs).1 in
  let n := List.length (List.filter (is_foreign_added (currentUserId c)) chs) in
  currentUserId c' = currentUserId c
  /\ isWindowActive c' = isWindowActive c
  /\ unreadMessages c' =
       (if isWindowActive c then unreadMessages c else unreadMessages c + n)
  /\ title (dom c') =
       (if isWindowActive c then title (dom c)
        else match n with
             | O => title (dom c)
             | S _ => Some (unreadMessages c + n)
             end).
Proof.
  cbv zeta. revert c acc.
  induction chs as [|ch chs IH]; intros c acc; cbn [foldl].
  - cbn. rewrite Nat.add_0_r. destruct (isWindowActive c); auto.
  - destruct (on_change_unread c acc ch) as (Hu & Hw & Hn & Ht).
    cbv zeta in *.
    destruct (on_change (c, acc) ch) as [c1 acc1]. cbn [fst] in *.
    destruct (IH c1 acc1) as (Hu' & Hw' & Hn' & Ht').
    rewrite Hu', Hw', Hn', Ht'. rewrite Hw, Hu. cbn [List.filter].
    destruct (isWindowActive c), (is_foreign_added (currentUserId c) ch);
      cbn [negb andb List.length] in *; rewrite ?Hn, ?Ht;
      repeat split; try lia.
    generalize (List.length
                  (List.filter (is_foreign_added (currentUserId c)) chs)).
    intros [|n]; f_equal; lia.
Qed.

(** While the window is not active, a batch of changes raises the unread
    counter by the number of its added messages that another sender wrote
    (the system's events among them) and shows the new count in the title;
    the client's own messages, and modified and removed changes, do not
    count.  While the window is active the counter and the title stay.
    Focusing the window resets both. *)
Theorem unread_counter_counts_foreign_added chs c :
  let n := List.length (List.filter (is_foreign_added (currentUserId c)) chs) in
  let c' := onMessagesSnapshot chs c in
  unreadMessages c' =
    (if isWindowActive c then unreadMessages c else unreadMessages c + n)
  /\ title (dom c') =
       (if isWindowActive c then title (dom c)
        else match n with
             | O => title (dom c)
             | S _ => Some (unreadMessages c + n)
             end)
  /\ unreadMessages (handleFocus c') = 0
  /\ title (dom (handleFocus c')) = None
  /\ unreadMessages (onMessagesSnapshot chs (handleBlur (handleFocus c'))) = n.
Proof.
  cbv zeta.
  assert (Hgen : forall c0,
    unreadMessages (onMessagesSnapshot chs c0) =
      (if isWindowActive c0 then unreadMessages c0
       else unreadMessages c0
            + List.length (List.filter (is_foreign_added (currentUserId c0)) chs))
    /\ title (dom (onMessagesSnapshot chs c0)) =
      (if isWindowActive c0 then title (dom c0)
       else match List.length
                    (List.filter (is_foreign_added (currentUserId c0)) chs) with
            | O => title (dom c0)
            | S _ => Some (unreadMessages c0
                           + List.length
                               (List.filter
                                  (is_foreign_added (currentUserId c0)) chs))
            end)).
  { intros c0. unfold onMessagesSnapshot.
    destruct (foldl_on_change_unread chs c0 []) as (Hu & Hw & Hn & Ht).
    cbv zeta in *.
    destruct (foldl on_change (c0, []) chs) as [c1 ms]. cbn [fst] in *.
    unfold renderMessages.
    destruct (render_loop_unread (JS.sort by_seconds ms) c1) as (-> & -> & _).
    auto. }
  destruct (Hgen c) as [Hn Ht].
  split; [exact Hn|]. split; [exact Ht|].
  split; [reflexivity|]. split; [reflexivity|].
  destruct (Hgen (handleBlur (handleFocus (onMessagesSnapshot chs c))))
    as [Hn' _].
  rewrite Hn'. cbn.
  pose proof (onMessagesSnapshot_currentUserId chs c) as Hid.
  rewrite Hid. reflexivity.
Qed.

(** ** Removal echoes *)

Lemma remove_element_absent id l :
  id ∉ map data_id l -> remove_element id l = l.
Proof.
  induction l as [|el l IH]; cbn; [reflexivity|].
  intros Hn. apply not_elem_of_cons in Hn as [Hne Hn].
  destruct (N.eqb_spec (data_id el) id); [congruence|].
  rewrite IH by exact Hn. reflexivity.
Qed.

Lemma remove_element_nodup id l :
  NoDup (map data_id l) ->
  remove_element id l
  = List.filter (fun el => negb (data_id el =? id)%N) l.
Proof.
  induction l as [|el l IH]; cbn; [reflexivity|].
  intros Hnd. apply NoDup_cons in Hnd as [Hel Hnd].
  destruct (N.eqb_spec (data_id el) id) as [Heq|Hne]; cbn.
  - subst id. clear IH. induction l as [|el' l IH]; [reflexivity|].
    cbn in *. apply not_elem_of_cons in Hel as [Hne Hel].
    apply NoDup_cons in Hnd as [_ Hnd].
    destruct (N.eqb_spec (data_id el') (data_id el)); [congruence|].
    cbn. f_equal. apply IH; assumption.
  - f_equal. apply IH, Hnd.
Qed.

Lemma filter_data_id_nodup (f : Element -> bool) l :
  NoDup (map data_id l) -> NoDup (map data_id (List.filter f l)).
Proof.
  induction l as [|el l IH]; cbn; [auto|].
  intros Hnd. apply NoDup_cons in Hnd as [Hel Hnd].
  destruct (f el); cbn; [|auto].
  apply NoDup_cons. split; [|auto].
  intros Hin. apply Hel.
  apply list_elem_of_fmap in Hin as (x & -> & Hx).
  apply list_elem_of_fmap. exists x. split; [reflexivity|].
  apply list_elem_of_In in Hx. apply filter_In in Hx as [Hx _].
  apply list_elem_of_In. exact Hx.
Qed.

Lemma filter_filter_andb {A} (f g : A -> bool) l :
  List.filter f (List.filter g l) = List.filter (fun x => g x && f x) l.
Proof.
  induction l as [|x l IH]; cbn; [reflexivity|].
  destruct (g x); cbn; [|exact IH]. destruct (f x); rewrite IH; reflexivity.
Qed.

Lemma foldl_on_change_removed chs c acc :
  all_removed chs ->
  NoDup (map data_id (messageList (dom c))) ->
  let r := foldl on_change (c, acc) chs in
  r.2 = acc
  /\ currentUserId r.1 = currentUserId c
  /\ messageList (dom r.1)
     = List.filter
         (fun el =>
            bool_decide (data_id el ∉ map (fun ch => (change_doc ch).1) chs))
         (messageList (dom c)).
Proof.
  cbv zeta. intros Hall. revert c acc.
  induction Hall as [|ch chs Hch _ IH]; intros c acc Hnd; cbn [foldl].
  - split; [reflexivity|]. split; [reflexivity|].
    cbn. rewrite <- (List.filter_true (messageList (dom c))) at 1.
    apply List.filter_ext. intros el. symmetry. apply bool_decide_eq_true.
    apply not_elem_of_nil.
  - unfold on_change at 2 4 6. rewrite Hch.
    match goal with
    | |- context [foldl on_change (?c1, ?acc1) chs] =>
        destruct (IH c1 acc1) as (-> & -> & ->)
    end.
    { cbn. rewrite remove_element_nodup by exact Hnd.
      apply filter_data_id_nodup, Hnd. }
    split; [reflexivity|]. split; [reflexivity|].
    cbn. rewrite remove_element_nodup by exact Hnd.
    rewrite filter_filter_andb. apply List.filter_ext. intros el.
    destruct (N.eqb_spec (data_id el) (change_doc ch).1) as [Heq|Hne]; cbn.
    + symmetry. apply bool_decide_eq_false. intros Hn. apply Hn.
      rewrite Heq. apply list_elem_of_here.
    + apply bool_decide_ext. rewrite not_elem_of_cons. tauto.
Qed.

(** A batch of removals, as the listener receives after a batch delete,
    takes out of the rendered list exactly the elements whose [data-id] is
    among the removed documents; the other elements stay, in order, and
    nothing is appended.  A removal of a message that is not rendered
    changes nothing. *)
Theorem removed_batch_removes_elements chs c :
  all_removed chs ->
  NoDup (map data_id (messageList (dom c))) ->
  let ids := map (fun ch => (change_doc ch).1) chs in
  let c' := onMessagesSnapshot chs c in
  messageList (dom c')
  = List.filter (fun el => bool_decide (data_id el ∉ ids)) (messageList (dom c))
  /\ ((forall el, el ∈ messageList (dom c) -> data_id el ∉ ids) ->
      messageList (dom c') = messageList (dom c)).
Proof.
  intros Hall Hnd ids c'.
  assert (Hl : messageList (dom c')
    = List.filter (fun el => bool_decide (data_id el ∉ ids))
        (messageList (dom c))).
  { subst c'. unfold onMessagesSnapshot.
    destruct (foldl_on_change_removed chs c [] Hall Hnd) as (Hms & Hu & Hl).
    cbv zeta in *.
    destruct (foldl on_change (c, []) chs) as [c1 ms]. cbn [fst snd] in *.
    subst ms. cbn. exact Hl. }
  split; [exact Hl|].
  intros Hfresh. rewrite Hl.
  rewrite <- (List.filter_true (messageList (dom c))) at 2.
  apply List.filter_ext_in. intros el Hin. apply bool_decide_eq_true.
  apply Hfresh. apply list_elem_of_In. exact Hin.
Qed.

Lemma removed_batch_witness :
  messageList
    (dom (onMessagesSnapshot
            [{| change_type := removed;
                change_doc := (2%N, user_message (lit "Alice") (lit "hi")
                                      (lit "uid-alice")) |}]
            (upd_messageList (fun _ => two_lines)
               (fresh_client (lit "uid-alice")))))
  = [SystemLine 1 (lit "Alice has joined the room.")].
Proof.
  refine (eq_trans (proj1 (removed_batch_removes_elements _ _ _ _)) _).
  - repeat constructor.
  - apply (bool_decide_unpack _). vm_compute. exact I.
  - vm_compute. reflexivity.
Defined.

(** ** Modified messages *)

Lemma patch_timestamp_without_time id label l :
  map without_time (patch_timestamp id label l) = map without_time l.
Proof.
  induction l as [|[i t|i s n t old] l IH]; cbn; [reflexivity| |].
  - rewrite IH. reflexivity.
  - destruct (i =? id)%N; cbn; [reflexivity|]. rewrite IH. reflexivity.
Qed.

Lemma foldl_on_change_modified chs c acc :
  all_modified chs ->
  let r := foldl on_change (c, acc) chs in
  r.2 = acc
  /\ map without_time (messageList (dom r.1))
     = map without_time (messageList (dom c))
  /\ ((forall ch, ch ∈ chs ->
         msg_senderId (change_doc ch).2 <> currentUserId c) ->
      r.1 = c).
Proof.
  cbv zeta. intros Hall. revert c acc.
  induction Hall as [|ch chs Hch _ IH]; intros c acc; cbn [foldl].
  - auto.
  - unfold on_change at 2 4 6. rewrite Hch.
    destruct (bool_decide_reflect
                (msg_senderId (change_doc ch).2 = currentUserId c))
      as [Hs|Hs].
    + match goal with
      | |- context [foldl on_change (?c1, ?acc1) chs] =>
          destruct (IH c1 acc1) as (-> & -> & _)
      end.
      split; [reflexivity|]. split.
      * cbn. apply patch_timestamp_without_time.
      * intros Hall'. exfalso. apply (Hall' ch); [apply list_elem_of_here|].
        exact Hs.
    + destruct (IH c acc) as (-> & -> & Hsame).
      split; [reflexivity|]. split; [reflexivity|].
      intros Hall'. apply Hsame. intros ch' Hin. apply Hall'.
      apply elem_of_cons. right. exact Hin.
Qed.

(** A batch of modified changes never alters a rendered text, name or
    order, and renders nothing new: of the rendered list only time labels
    can change, and only those of this client's own messages.  Modified
    messages of other senders change nothing at all. *)
Theorem modified_batch_only_patches_times chs c :
  all_modified chs ->
  let c' := onMessagesSnapshot chs c in
  map without_time (messageList (dom c'))
  = map without_time (messageList (dom c))
  /\ ((forall ch, ch ∈ chs ->
         msg_senderId (change_doc ch).2 <> currentUserId c) ->
      c' = c).
Proof.
  intros Hall. cbv zeta. unfold onMessagesSnapshot.
  destruct (foldl_on_change_modified chs c [] Hall) as (Hms & Hl & Hsame).
  cbv zeta in *.
  destruct (foldl on_change (c, []) chs) as [c1 ms]. cbn [fst snd] in *.
  subst ms. cbn. split; [exact Hl|].
  intros Hother. rewrite (Hsame Hother). reflexivity.
Qed.

Lemma modified_batch_witness :
  let edit :=
    [{| change_type := modified;
        change_doc := (2%N, with_timestamp (Some t_late)
                              (user_message (lit "Alice") (lit "bye")
                                 (lit "uid-alice"))) |}] in
  let c := upd_messageList (fun _ => two_lines) (fresh_client (lit "uid-alice")) in
  messageList (dom (onMessagesSnapshot edit c))
  = [SystemLine 1 (lit "Alice has joined the room.");
     Bubble 2 true (lit "Alice") (lit "hi") (LocaleTime t_late)]
  /\ map without_time (messageList (dom (onMessagesSnapshot edit c)))
     = map without_time (messageList (dom c)).
Proof.
  cbv zeta. split; [vm_compute; reflexivity|].
  refine (proj1 (modified_batch_only_patches_times _ _ _)).
  repeat constructor.
Defined.

(** ** The participant list *)

Lemma foldl_cache_lookup (docs : list (JSString * UserDoc))
    (m : gmap JSString UserDoc) id u :
  NoDup (map fst docs) -> (id, u) ∈ docs ->
  foldl (fun m u => <[u.1 := u.2]> m) m docs !! id = Some u.
Proof.
  revert m. induction docs as [|d docs IH]; intros m Hnd Hin.
  - apply elem_of_nil in Hin as [].
  - cbn in Hnd. apply NoDup_cons in Hnd as [Hd Hnd]. cbn [foldl].
    apply elem_of_cons in Hin as [<-|Hin]; [|apply IH; assumption].
    cbn [fst snd]. clear IH.
    assert (Hgen : forall m0 : gmap JSString UserDoc, m0 !! id = Some u ->
              foldl (fun m u => <[u.1 := u.2]> m) m0 docs !! id = Some u).
    { clear Hnd. induction docs as [|d2 docs IH]; intros m0 Hm0; [exact Hm0|].
      cbn [foldl]. apply IH.
      - intros Hin. apply Hd. cbn. apply elem_of_cons. right. exact Hin.
      - rewrite lookup_insert_ne; [exact Hm0|].
        intros Heq. apply Hd. cbn. apply elem_of_cons. left. symmetry. exact Heq. }
    apply Hgen. apply lookup_insert_eq.
Qed.

(** A snapshot of the participants replaces the sidebar list by one line
    per participant, in ascending order of the whole seconds of the join
    time, participants of the same second in the order of the snapshot;
    the line of this client, and only it, is marked "(You)".  The local
    cache then maps every participant id of the snapshot to its record. *)
Theorem participants_rendered_by_join_time docs c :
  NoDup (map fst docs) ->
  let c' := onUsersSnapshot docs c in
  let shown := JS.sort by_joined docs in
  userList (dom c') = map (user_line (currentUserId c)) shown
  /\ shown ≡ₚ docs
  /\ StronglySorted (key_le joined_key) shown
  /\ (forall k, with_key joined_key k shown = with_key joined_key k docs)
  /\ List.length (userList (dom c')) = List.length docs
  /\ (forall id u, (id, u) ∈ docs -> usersInRoom c' !! id = Some u).
Proof.
  intros Hnd c' shown.
  assert (Hp : shown ≡ₚ docs) by apply (sort_perm joined_key).
  split; [reflexivity|]. split; [exact Hp|].
  split; [apply (sort_sorted joined_key)|].
  split; [intros k; apply (sort_stable joined_key)|].
  split.
  - subst c'. unfold onUsersSnapshot, renderUserList. cbn.
    rewrite length_map. apply Permutation_length, Hp.
  - intros id u Hin. subst c'. unfold onUsersSnapshot, renderUserList. cbn.
    apply foldl_cache_lookup; assumption.
Qed.

Lemma participants_witness :
  let docs :=
    [(lit "uid-bob", {| user_name := lit "Bob"; user_joined := t_late |});
     (lit "uid-alice", {| user_name := lit "Alice"; user_joined := t_early |})] in
  userList (dom (onUsersSnapshot docs (fresh_client (lit "uid-alice"))))
  = [(lit "Bob", false); (lit "Alice", true)].
Proof.
  cbv zeta.
  refine (eq_trans (proj1 (participants_rendered_by_join_time _ _ _)) _).
  - apply (bool_decide_unpack _). vm_compute. exact I.
  - vm_compute. reflexivity.
Defined.

(** ** Navigation *)

Section Navigation.
Context `{Platform}.

Lemma drain_step n q c e :
  hashchanges e = S q ->
  drain (S n) c e
  = drain n (run handleHashChange c (set_hashchanges q e)).1.2
      (run handleHashChange c (set_hashchanges q e)).2.
Proof.
  intros Hq. cbn [drain]. rewrite Hq.
  destruct (run handleHashChange c (set_hashchanges q e)) as [[v c1] e1].
  reflexivity.
Qed.

(** [handleHashChange] on the empty token. *)
Lemma run_handleHashChange_teardown c e :
  isNavigating c = false -> hash e = [] ->
  let r := run handleHashChange c e in
  (visible (dom r.1.2) = UI_room /\ chatRoomDisplay (dom r.1.2) = []
   /\ currentRoom r.1.2 = None /\ userName r.1.2 = None
   /\ unsubscribeMessages r.1.2 = false /\ unsubscribeUsers r.1.2 = false
   /\ isNavigating r.1.2 = false)
  /\ (inputs (dom r.1.2) = clear_forms (inputs (dom c))
      /\ errors (dom r.1.2) = errors (dom c)
      /\ messageList (dom r.1.2) = messageList (dom c)
      /\ userList (dom r.1.2) = userList (dom c)
      /\ currentUserId r.1.2 = currentUserId c)
  /\ (rooms r.2 = rooms e /\ users r.2 = users e /\ messages r.2 = messages e
      /\ trace r.2 = trace e /\ hash r.2 = hash e
      /\ hashchanges r.2 = hashchanges e /\ faults r.2 = faults e)
  /\ msgListener r.2 = (if unsubscribeMessages c then None else msgListener e)
  /\ userListener r.2 = (if unsubscribeUsers c then None else userListener e).
Proof.
  intros Hn Hh. cbv zeta.
  destruct (run handleHashChange c e) as [[v c1] e1] eqn:Hrun.
  cbn [fst snd]. revert Hrun.
  unfold handleHashChange, cleanupSubscriptions.
  hx.
  case_on (unsubscribeMessages c); hx;
    (case_on (unsubscribeUsers c); hx);
    change (JS.truthy []) with false; hx;
    intros Hx; injection Hx as <- <- <-; settle; hyp_rewrite;
    repeat split; reflexivity.
Qed.

(** [handleHashChange] on the token of a room, its check answered. *)
Lemma run_handleHashChange_token c e :
  isNavigating c = false -> JS.truthy (hash e) = true ->
  head (faults e) <> Some true ->
  let r := run handleHashChange c e in
  (currentRoom r.1.2 = Some (hash e) /\ userName r.1.2 = userName c
   /\ unsubscribeMessages r.1.2 = false /\ unsubscribeUsers r.1.2 = false
   /\ isNavigating r.1.2 = false
   /\ inputs (dom r.1.2) = inputs (dom c)
   /\ messageList (dom r.1.2) = messageList (dom c)
   /\ currentUserId r.1.2 = currentUserId c)
  /\ (rooms r.2 = rooms e /\ users r.2 = users e /\ messages r.2 = messages e
      /\ faults r.2 = tail (faults e)
      /\ msgListener r.2 = (if unsubscribeMessages c then None else msgListener e)
      /\ userListener r.2 = (if unsubscribeUsers c then None else userListener e))
  /\ match rooms e !! hash e with
     | Some _ =>
         visible (dom r.1.2) = UI_password
         /\ chatRoomDisplay (dom r.1.2) = lit "Room: " ++ hash e
         /\ errors (dom r.1.2) = errors (dom c)
         /\ hash r.2 = hash e /\ hashchanges r.2 = hashchanges e
         /\ trace r.2 = trace e ++ [EvRequest (GetRoom (hash e)) true]
     | None =>
         roomError (errors (dom r.1.2))
           = shown "Room not found. You can create it."
         /\ passwordError (errors (dom r.1.2)) = passwordError (errors (dom c))
         /\ nameError (errors (dom r.1.2)) = nameError (errors (dom c))
         /\ hash r.2 = [] /\ hashchanges r.2 = S (hashchanges e)
         /\ trace r.2 = trace e ++ [EvRequest (GetRoom (hash e)) true;
                                    EvNavigate []]
     end.
Proof.
  intros Hn Ht Hf. cbv zeta.
  destruct (run handleHashChange c e) as [[v c1] e1] eqn:Hrun.
  cbn [fst snd]. revert Hrun.
  assert (Hne : bool_decide ([] = hash e) = false).
  { apply bool_decide_eq_false. intros Heq. rewrite <- Heq in Ht.
    discriminate. }
  unfold handleHashChange, cleanupSubscriptions, verifyRoomExists.
  hx.
  case_on (unsubscribeMessages c); hx;
    (case_on (unsubscribeUsers c); hx);
    (match goal with
     | |- context [perform ?r ?e0] =>
         rewrite (perform_answered r e0) by (env_simpl; exact Hf)
     end; hx);
    (case_on (rooms e !! hash e); hx);
    intros Hx; injection Hx as <- <- <-; settle; hyp_rewrite;
    rewrite <- ?app_assoc; cbn [app JS.interpolate];
    repeat split; reflexivity.
Qed.

(** Navigation to the empty token, by the back button of the password page,
    a link or [handleLeaveRoom]: the session is torn down to the room
    page.  Both listeners are unsubscribed, the room and the name are
    forgotten and the four form inputs are emptied.  The store is not
    touched, and the rendered messages, the participant list, the error
    elements and the message input are left as they were. *)
Theorem navigate_empty_tears_down c e :
  isNavigating c = false -> hashchanges e = 0 -> hash e <> [] ->
  let s := navigate [] c e in
  (visible (dom s.1) = UI_room /\ chatRoomDisplay (dom s.1) = []
   /\ currentRoom s.1 = None /\ userName s.1 = None
   /\ unsubscribeMessages s.1 = false /\ unsubscribeUsers s.1 = false
   /\ isNavigating s.1 = false)
  /\ (inputs (dom s.1) = clear_forms (inputs (dom c))
      /\ errors (dom s.1) = errors (dom c)
      /\ messageList (dom s.1) = messageList (dom c)
      /\ userList (dom s.1) = userList (dom c)
      /\ currentUserId s.1 = currentUserId c)
  /\ (rooms s.2 = rooms e /\ users s.2 = users e /\ messages s.2 = messages e
      /\ trace s.2 = trace e /\ hash s.2 = [] /\ hashchanges s.2 = 0)
  /\ msgListener s.2 = (if unsubscribeMessages c then None else msgListener e)
  /\ userListener s.2 = (if unsubscribeUsers c then None else userListener e).
Proof.
  intros Hn Hq Hh. cbv zeta. unfold navigate.
  rewrite bool_decide_false by congruence. rewrite Hq.
  env_simpl. change (2 * 1) with 2.
  rewrite (drain_step 1 0) by reflexivity.
  pose proof (run_handleHashChange_teardown c
                (set_hashchanges 0 (set_hashchanges 1 (set_hash [] e)))
                Hn eq_refl) as Hrun.
  cbv zeta in Hrun.
  destruct (run handleHashChange c _) as [[v c1] e1]. cbn [fst snd] in *.
  destruct Hrun as (Hc & Hd & (Hro & Hus & Hms & Htr & Hh1 & Hq1 & Hf1)
                    & Hml & Hul).
  rewrite (drain_idle _ _ _ Hq1). cbn [fst snd].
  split; [exact Hc|]. split; [exact Hd|].
  split; [repeat split; assumption|]. split; assumption.
Qed.


End Navigation.

Section NavigationExamples.
#[local] Existing Instance example_platform.

(** Alice, in the chat of team-x, follows a link to the empty token. *)
Lemma navigate_empty_witness :
  let s := navigate [] in_chat.1 in_chat.2 in
  visible (dom s.1) = UI_room /\ currentRoom s.1 = None
  /\ messageList (dom s.1) = messageList (dom in_chat.1)
  /\ msgListener s.2 = None.
Proof.
  cbv zeta.
  pose proof (navigate_empty_tears_down in_chat.1 in_chat.2
                ltac:(vm_compute; reflexivity) ltac:(vm_compute; reflexivity)
                ltac:(vm_compute; discriminate)) as Hw.
  cbv zeta in Hw.
  destruct Hw as ((Hv & _ & Hcr & _) & (_ & _ & Hml & _) & _ & Hl & _).
  split; [exact Hv|]. split; [exact Hcr|]. split; [exact Hml|].
  rewrite Hl. vm_compute. reflexivity.
Defined.


End NavigationExamples.

(** ** The room form and the password form *)

Section Forms.
Context `{Platform}.

Lemma run_handleRoomFormSubmit_invalid c e :
  JS.truthy (normalize (roomInput (inputs (dom c))))
  && JS.truthy (JS.trim (roomPasswordInput (inputs (dom c)))) = false ->
  run handleRoomFormSubmit c e
  = (Fulfilled tt,
     showError El_roomError (lit "Room name and password are required.")
       false (showError El_roomError [] true c),
     e).
Proof.
  intros Hg. unfold handleRoomFormSubmit. hx.
  apply andb_false_iff in Hg as [Hg|Hg]; rewrite Hg; hx;
    rewrite ?orb_true_r; hx; reflexivity.
Qed.

(** A submission of the room form whose slug normalizes to the empty
    string, or whose password is empty after trimming, asks the store
    nothing: the room error shows "Room name and password are required."
    and everything else, the page shown and the inputs included, stays. *)
Theorem room_form_requires_slug_and_password c e :
  hashchanges e = 0 ->
  JS.truthy (normalize (roomInput (inputs (dom c))))
  && JS.truthy (JS.trim (roomPasswordInput (inputs (dom c)))) = false ->
  let s := submit handleRoomFormSubmit (c, e) in
  s.2 = e
  /\ roomError (errors (dom s.1))
     = shown "Room name and password are required."
  /\ s.1 = showError El_roomError
             (lit "Room name and password are required.") false c.
Proof.
  intros Hq Hg. cbv zeta.
  rewrite (submit_idle _ _ _ _ _ _ (run_handleRoomFormSubmit_invalid c e Hg) Hq).
  cbn [fst snd]. split; [reflexivity|]. split; [reflexivity|].
  destruct c as [[] ? ? ? ? ? ? ? ? ?]. reflexivity.
Qed.

Lemma run_handleRoomFormSubmit_outcomes c e :
  JS.truthy (normalize (roomInput (inputs (dom c)))) = true ->
  JS.truthy (JS.trim (roomPasswordInput (inputs (dom c)))) = true ->
  hashchanges e = 0 ->
  let slug := normalize (roomInput (inputs (dom c))) in
  let digest := sha256hex (JS.trim (roomPasswordInput (inputs (dom c)))) in
  let r := run handleRoomFormSubmit c e in
  (users r.2 = users e /\ messages r.2 = messages e
   /\ messageList (dom r.1.2) = messageList (dom c)
   /\ unsubscribeMessages r.1.2 = unsubscribeMessages c
   /\ unsubscribeUsers r.1.2 = unsubscribeUsers c)
  /\ (visible (dom r.1.2) = UI_name /\ currentRoom r.1.2 = Some slug
      /\ chatRoomDisplay (dom r.1.2) = lit "Room: " ++ slug
      /\ hash r.2 = slug /\ isNavigating r.1.2 = true
      /\ hashchanges r.2 = (if bool_decide (slug = hash e) then 0 else 1)
      /\ match rooms e !! slug with
         | Some data =>
             passwordHash data = digest /\ rooms r.2 = rooms e
             /\ since e r.2 =
                  [EvRequest (HashPassword
                     (JS.trim (roomPasswordInput (inputs (dom c))))) true;
                   EvRequest (GetRoom slug) true; EvNavigate slug]
         | None =>
             rooms r.2 = <[slug := {| passwordHash := digest;
                                      createdAt := now e |}]> (rooms e)
             /\ since e r.2 =
                  [EvRequest (HashPassword
                     (JS.trim (roomPasswordInput (inputs (dom c))))) true;
                   EvRequest (GetRoom slug) true;
                   EvRequest (SetRoom slug digest) true; EvNavigate slug]
         end
      \/ visible (dom r.1.2) = UI_room /\ currentRoom r.1.2 = currentRoom c
         /\ rooms r.2 = rooms e /\ hash r.2 = hash e /\ hashchanges r.2 = 0
         /\ isNavigating r.1.2 = isNavigating c
         /\ (rejected (since e r.2) = false ->
             exists data, rooms e !! slug = Some data
               /\ passwordHash data <> digest
               /\ roomError (errors (dom r.1.2))
                  = shown "Invalid password for this room."
               /\ since e r.2 =
                    [EvRequest (HashPassword
                       (JS.trim (roomPasswordInput (inputs (dom c))))) true;
                     EvRequest (GetRoom slug) true])).
Proof.
  intros Hrt Hpt Hq. run_of (run handleRoomFormSubmit c e).
  unfold handleRoomFormSubmit, enter_name_screen.
  hx.
  split_faults; hx.
  { intros Hx; injection Hx as <- <- <-; settle; hyp_rewrite.
    split; [repeat split; reflexivity|]. right.
    repeat split; try reflexivity. intros; discriminate. }
  split_faults; hx.
  { intros Hx; injection Hx as <- <- <-; settle; hyp_rewrite.
    split; [repeat split; reflexivity|]. right.
    repeat split; try reflexivity. intros; discriminate. }
  case_on (rooms e !! normalize (roomInput (inputs (dom c)))); hx.
  - match goal with |- context [bool_decide (passwordHash ?d = ?h)] =>
      destruct (bool_decide_reflect (passwordHash d = h)) as [Hd|Hd] end; hx.
    + intros Hx; injection Hx as <- <- <-; settle; hyp_rewrite.
      split; [repeat split; reflexivity|]. left.
      repeat split; try reflexivity; try assumption.
    + intros Hx; injection Hx as <- <- <-; settle; hyp_rewrite.
      split; [repeat split; reflexivity|]. right.
      repeat split; try reflexivity. intros _.
      eexists. repeat split; try reflexivity; assumption.
  - split_faults; hx.
    { intros Hx; injection Hx as <- <- <-; settle; hyp_rewrite.
      split; [repeat split; reflexivity|]. right.
      repeat split; try reflexivity. intros; discriminate. }
    intros Hx; injection Hx as <- <- <-; settle; hyp_rewrite.
    split; [repeat split; reflexivity|]. left.
    repeat split; reflexivity.
Qed.


(** The room form on the room page, the store answering: a new room, or an
    existing room with the right password, ends on the name page of that
    room with the hash set to the slug.  The [hashchange] this causes is
    swallowed by the navigation lock and does not run the room check
    again: after the navigation the store is asked nothing more, and the
    lock is released.  When the hash already was the slug no [hashchange]
    fires, and the lock stays set. *)
Theorem room_form_navigates_without_recheck c e :
  JS.truthy (normalize (roomInput (inputs (dom c)))) = true ->
  JS.truthy (JS.trim (roomPasswordInput (inputs (dom c)))) = true ->
  hashchanges e = 0 -> faults e = [] ->
  let slug := normalize (roomInput (inputs (dom c))) in
  let password := JS.trim (roomPasswordInput (inputs (dom c))) in
  (forall data, rooms e !! slug = Some data ->
                passwordHash data = sha256hex password) ->
  let s := submit handleRoomFormSubmit (c, e) in
  visible (dom s.1) = UI_name
  /\ chatRoomDisplay (dom s.1) = lit "Room: " ++ slug
  /\ currentRoom s.1 = Some slug /\ hash s.2 = slug
  /\ hashchanges s.2 = 0
  /\ isNavigating s.1 = bool_decide (slug = hash e)
  /\ since e s.2 =
       [EvRequest (HashPassword password) true;
        EvRequest (GetRoom slug) true]
       ++ match rooms e !! slug with
          | Some _ => []
          | None => [EvRequest (SetRoom slug (sha256hex password)) true]
          end
       ++ [EvNavigate slug].
Proof.
  intros Hrt Hpt Hq Hf slug password Hd. cbv zeta.
  pose proof (run_handleRoomFormSubmit_outcomes c e Hrt Hpt Hq) as Hrun.
  cbv zeta in Hrun. fold slug password in Hrun.
  destruct Hrun as (_ & [(Hv & Hcr & Hdis & Hh & Hn & Hq1 & Hro)|Hno]).
  - assert (Hev : since e (run handleRoomFormSubmit c e).2 =
       [EvRequest (HashPassword password) true;
        EvRequest (GetRoom slug) true]
       ++ match rooms e !! slug with
          | Some _ => []
          | None => [EvRequest (SetRoom slug (sha256hex password)) true]
          end
       ++ [EvNavigate slug]).
    { destruct (rooms e !! slug); [destruct Hro as (_ & _ & ->)
                                  |destruct Hro as (_ & ->)]; reflexivity. }
    destruct (bool_decide (slug = hash e)).
    + rewrite (submit_settled _ _ _ Hq1). cbn [fst snd].
      repeat split; assumption.
    + rewrite (submit_suppressed _ _ _ Hq1 Hn). cbn [fst snd].
      unfold since in *. env_simpl. cli_simpl.
      repeat split; assumption.
  - exfalso. revert Hno. run_of (run handleRoomFormSubmit c e).
    unfold handleRoomFormSubmit, enter_name_screen.
    ax.
    case_on (rooms e !! normalize (roomInput (inputs (dom c)))); ax.
    + rewrite bool_decide_true by (apply Hd; assumption). ax.
      intros Hx; injection Hx as <- <- <-; settle.
      intros (Hv & _). discriminate.
    + intros Hx; injection Hx as <- <- <-; settle.
      intros (Hv & _). discriminate.
Qed.

(** The room form with the password of an existing room wrong, the store
    answering: the room error shows "Invalid password for this room." on
    the room page; the store, the hash and the current room are as
    before, and the store was only asked for the room record. *)
Theorem room_form_wrong_password c e data :
  JS.truthy (normalize (roomInput (inputs (dom c)))) = true ->
  JS.truthy (JS.trim (roomPasswordInput (inputs (dom c)))) = true ->
  hashchanges e = 0 -> faults e = [] ->
  let slug := normalize (roomInput (inputs (dom c))) in
  let password := JS.trim (roomPasswordInput (inputs (dom c))) in
  rooms e !! slug = Some data ->
  passwordHash data <> sha256hex password ->
  let s := submit handleRoomFormSubmit (c, e) in
  visible (dom s.1) = UI_room
  /\ roomError (errors (dom s.1)) = shown "Invalid password for this room."
  /\ currentRoom s.1 = currentRoom c /\ hash s.2 = hash e
  /\ rooms s.2 = rooms e /\ users s.2 = users e /\ messages s.2 = messages e
  /\ since e s.2 =
       [EvRequest (HashPassword password) true;
        EvRequest (GetRoom slug) true].
Proof.
  intros Hrt Hpt Hq Hf slug password Hro Hd. cbv zeta.
  assert (Hrun : let r := run handleRoomFormSubmit c e in
    hashchanges r.2 = 0
    /\ visible (dom r.1.2) = UI_room
    /\ roomError (errors (dom r.1.2)) = shown "Invalid password for this room."
    /\ currentRoom r.1.2 = currentRoom c /\ hash r.2 = hash e
    /\ rooms r.2 = rooms e /\ users r.2 = users e /\ messages r.2 = messages e
    /\ since e r.2 =
         [EvRequest (HashPassword password) true;
          EvRequest (GetRoom slug) true]).
  { subst slug password. run_of (run handleRoomFormSubmit c e).
    unfold handleRoomFormSubmit, enter_name_screen.
    ax. rewrite bool_decide_false by exact Hd. ax.
    intros Hx; injection Hx as <- <- <-; settle; hyp_rewrite.
    repeat split; reflexivity. }
  cbv zeta in Hrun. destruct Hrun as (Hq1 & Hrun).
  rewrite (submit_settled _ _ _ Hq1). cbn [fst snd]. exact Hrun.
Qed.

Lemma run_handlePasswordVerifySubmit_reads c e room :
  currentRoom c = Some room -> JS.truthy room = true ->
  JS.truthy (JS.trim (passwordVerifyInput (inputs (dom c)))) = true ->
  let password := JS.trim (passwordVerifyInput (inputs (dom c))) in
  let r := run handlePasswordVerifySubmit c e in
  (hashchanges r.2 = hashchanges e /\ hash r.2 = hash e
   /\ rooms r.2 = rooms e /\ users r.2 = users e /\ messages r.2 = messages e
   /\ currentRoom r.1.2 = Some room
   /\ messageList (dom r.1.2) = messageList (dom c)
   /\ unsubscribeMessages r.1.2 = unsubscribeMessages c
   /\ unsubscribeUsers r.1.2 = unsubscribeUsers c)
  /\ (visible (dom r.1.2) = UI_name
      /\ (exists data, rooms e !! room = Some data
            /\ passwordHash data = sha256hex password)
      \/ visible (dom r.1.2) = UI_password
         /\ (rejected (since e r.2) = false ->
             passwordError (errors (dom r.1.2))
               = shown "Invalid password. Please try again."
             /\ forall data, rooms e !! room = Some data ->
                             passwordHash data <> sha256hex password)).
Proof.
  intros Hr Hrt Hpt. run_of (run handlePasswordVerifySubmit c e).
  unfold handlePasswordVerifySubmit.
  hx.
  split_faults; hx.
  { intros Hx; injection Hx as <- <- <-; settle; hyp_rewrite.
    split; [repeat split; reflexivity|]. right.
    split; [reflexivity|]. intros; discriminate. }
  split_faults; hx.
  { intros Hx; injection Hx as <- <- <-; settle; hyp_rewrite.
    split; [repeat split; reflexivity|]. right.
    split; [reflexivity|]. intros; discriminate. }
  case_on (rooms e !! room); hx.
  - match goal with |- context [bool_decide (passwordHash ?d = ?h)] =>
      destruct (bool_decide_reflect (passwordHash d = h)) as [Hd|Hd] end; hx;
      intros Hx; injection Hx as <- <- <-; settle; hyp_rewrite;
      (split; [repeat split; reflexivity|]).
    + left. split; [reflexivity|]. eexists. split; [reflexivity|exact Hd].
    + right. split; [reflexivity|]. intros _. split; [reflexivity|].
      intros data [= <-]. exact Hd.
  - intros Hx; injection Hx as <- <- <-; settle; hyp_rewrite.
    split; [repeat split; reflexivity|]. right.
    split; [reflexivity|]. intros _. split; [reflexivity|].
    intros data [=].
Qed.

(** Whatever the store does, the password form only reads: the store, the
    hash, the current room, the rendered messages and the listeners are as
    before.  It leaves for the name page only when the record of the
    current room holds the digest of the trimmed password; otherwise it
    ends on the password page, and when no request was rejected the
    password error shows "Invalid password. Please try again.", which is
    also the answer when the room record is gone. *)
Theorem password_form_opens_by_digest_only c e room :
  currentRoom c = Some room -> JS.truthy room = true ->
  JS.truthy (JS.trim (passwordVerifyInput (inputs (dom c)))) = true ->
  hashchanges e = 0 ->
  let password := JS.trim (passwordVerifyInput (inputs (dom c))) in
  let s := submit handlePasswordVerifySubmit (c, e) in
  (hash s.2 = hash e
   /\ rooms s.2 = rooms e /\ users s.2 = users e /\ messages s.2 = messages e
   /\ currentRoom s.1 = Some room
   /\ messageList (dom s.1) = messageList (dom c)
   /\ unsubscribeMessages s.1 = unsubscribeMessages c
   /\ unsubscribeUsers s.1 = unsubscribeUsers c)
  /\ (visible (dom s.1) = UI_name
      /\ (exists data, rooms e !! room = Some data
            /\ passwordHash data = sha256hex password)
      \/ visible (dom s.1) = UI_password
         /\ (rejected (since e s.2) = false ->
             passwordError (errors (dom s.1))
               = shown "Invalid password. Please try again."
             /\ forall data, rooms e !! room = Some data ->
                             passwordHash data <> sha256hex password)).
Proof.
  intros Hr Hrt Hpt Hq. cbv zeta.
  pose proof (run_handlePasswordVerifySubmit_reads c e room Hr Hrt Hpt)
    as Hrun.
  cbv zeta in Hrun. destruct Hrun as ((Hq1 & Hrest) & Hcase).
  rewrite Hq in Hq1. rewrite (submit_settled _ _ _ Hq1). cbn [fst snd].
  split; [exact Hrest | exact Hcase].
Qed.

(** ** Guards *)

(** A handler whose guard fails asks the store nothing and changes no
    page: the name form with an empty name or no current room and the
    password form with an empty password or no current room only hide
    their error element; leave without a room, a session name or an
    identity, send with a text that is empty after trimming (the input
    keeps its whitespace), and delete-all without a room do nothing. *)
Theorem guarded_handlers_do_nothing c e :
  hashchanges e = 0 ->
  (JS.truthy (JS.trim (nameInput (inputs (dom c))))
   && JS.truthy_opt (currentRoom c) = false ->
   submit handleNameFormSubmit (c, e)
   = (showError El_nameError [] true c, e))
  /\ (JS.truthy (JS.trim (passwordVerifyInput (inputs (dom c))))
      && JS.truthy_opt (currentRoom c) = false ->
      submit handlePasswordVerifySubmit (c, e)
      = (showError El_passwordError [] true c, e))
  /\ (JS.truthy_opt (currentRoom c) && JS.truthy_opt (userName c)
      && JS.truthy (currentUserId c) = false ->
      submit handleLeaveRoom (c, e) = (c, e))
  /\ (JS.truthy (JS.trim (messageInput (inputs (dom c))))
      && JS.truthy_opt (currentRoom c) && JS.truthy_opt (userName c)
      && JS.truthy (currentUserId c) = false ->
      submit handleMessageFormSubmit (c, e) = (c, e))
  /\ (JS.truthy_opt (currentRoom c) = false ->
      submit handleDeleteChat (c, e) = (c, e)).
Proof.
  intros Hq.
  assert (Hsub : forall (h : Prog unit) c1,
            run h c e = (Fulfilled tt, c1, e) -> submit h (c, e) = (c1, e)).
  { intros h c1 Hrun. apply (submit_idle _ _ _ _ _ _ Hrun Hq). }
  repeat split; intros Hg; apply Hsub.
  - destruct (JS.truthy (JS.trim (nameInput (inputs (dom c))))) eqn:H1,
      (JS.truthy_opt (currentRoom c)) eqn:H2; try discriminate Hg;
      unfold handleNameFormSubmit; hx; reflexivity.
  - destruct (JS.truthy (JS.trim (passwordVerifyInput (inputs (dom c)))))
      eqn:H1, (JS.truthy_opt (currentRoom c)) eqn:H2; try discriminate Hg;
      unfold handlePasswordVerifySubmit; hx; reflexivity.
  - destruct (JS.truthy_opt (currentRoom c)) eqn:H1,
      (JS.truthy_opt (userName c)) eqn:H2,
      (JS.truthy (currentUserId c)) eqn:H3; try discriminate Hg;
      unfold handleLeaveRoom; hx; reflexivity.
  - destruct (JS.truthy (JS.trim (messageInput (inputs (dom c))))) eqn:H1,
      (JS.truthy_opt (currentRoom c)) eqn:H2,
      (JS.truthy_opt (userName c)) eqn:H3,
      (JS.truthy (currentUserId c)) eqn:H4; try discriminate Hg;
      unfold handleMessageFormSubmit; hx; reflexivity.
  - unfold handleDeleteChat. hx. reflexivity.
Qed.

End Forms.

Section FormExamples.
#[local] Existing Instance example_platform.

Lemma room_form_requires_witness :
  let s := submit handleRoomFormSubmit (punctuation_only.1, punctuation_only.2) in
  s.2 = punctuation_only.2
  /\ roomError (errors (dom s.1)) = shown "Room name and password are required.".
Proof.
  cbv zeta.
  pose proof (@room_form_requires_slug_and_password example_platform
                punctuation_only.1 punctuation_only.2
                ltac:(vm_compute; reflexivity) ltac:(vm_compute; reflexivity))
    as Hw.
  cbv zeta in Hw. destruct Hw as (He & Hm & _).
  split; [exact He | exact Hm].
Defined.


Lemma room_form_navigates_witness :
  let s := submit handleRoomFormSubmit (alice_creates.1, alice_creates.2) in
  visible (dom s.1) = UI_name /\ hash s.2 = team_x
  /\ isNavigating s.1 = false.
Proof.
  cbv zeta.
  pose proof (@room_form_navigates_without_recheck example_platform
                alice_creates.1 alice_creates.2
                ltac:(vm_compute; reflexivity) ltac:(vm_compute; reflexivity)
                ltac:(vm_compute; reflexivity) ltac:(vm_compute; reflexivity)
                ltac:(intros data; vm_compute; discriminate)) as Hw.
  cbv zeta in Hw. destruct Hw as (Hv & _ & _ & Hh & _ & Hn & _).
  split; [exact Hv|]. split; [exact Hh|].
  rewrite Hn. vm_compute. reflexivity.
Defined.

Lemma room_form_wrong_password_witness :
  let s := submit handleRoomFormSubmit (bob_shouts.1, bob_shouts.2) in
  roomError (errors (dom s.1)) = shown "Invalid password for this room.".
Proof.
  cbv zeta.
  pose proof (fun data => @room_form_wrong_password example_platform
                bob_shouts.1 bob_shouts.2 data
                ltac:(vm_compute; reflexivity) ltac:(vm_compute; reflexivity)
                ltac:(vm_compute; reflexivity) ltac:(vm_compute; reflexivity))
    as Hw.
  cbv zeta in Hw.
  destruct (rooms in_chat.2 !! team_x) as [data|] eqn:Hro;
    [|revert Hro; vm_compute; discriminate].
  refine (proj1 (proj2 (Hw data _ _))).
  - revert Hro. vm_compute. exact (fun x => x).
  - revert Hro. vm_compute. intros [= <-]. discriminate.
Defined.

Lemma password_form_witness :
  let s := submit handlePasswordVerifySubmit
             (bob_at_password.1, bob_at_password.2) in
  visible (dom s.1) = UI_password /\ rooms s.2 = rooms bob_at_password.2.
Proof.
  cbv zeta.
  pose proof (@password_form_opens_by_digest_only example_platform
                bob_at_password.1 bob_at_password.2 team_x
                ltac:(vm_compute; reflexivity) ltac:(vm_compute; reflexivity)
                ltac:(vm_compute; reflexivity) ltac:(vm_compute; reflexivity))
    as Hw.
  cbv zeta in Hw. destruct Hw as ((_ & Hro & _) & [(Hv & _)|(Hv & _)]).
  - exfalso. revert Hv. vm_compute. discriminate.
  - split; [exact Hv | exact Hro].
Defined.

Lemma guarded_handlers_witness :
  submit handleMessageFormSubmit (blanks_typed.1, blanks_typed.2)
  = (blanks_typed.1, blanks_typed.2).
Proof.
  refine (proj1 (proj2 (proj2 (proj2
            (@guarded_handlers_do_nothing example_platform
               blanks_typed.1 blanks_typed.2 _)))) _);
    vm_compute; reflexivity.
Defined.

End FormExamples.

(** ** Claiming a name *)

Section NameClaims.
Context `{Platform}.

Lemma scan_users_spec name uid docs st :
  let r := foldl (scan_step name uid) st docs in
  (r.1 = true <->
   st.1 = true
   \/ exists d, d ∈ docs /\ same_name (user_name d.2) name /\ d.1 <> uid)
  /\ (forall d, r.2 = Some d ->
        st.2 = Some d
        \/ d ∈ docs /\ same_name (user_name d.2) name /\ d.1 = uid)
  /\ (r.2 = None ->
        st.2 = None
        /\ forall d, d ∈ docs -> d.1 = uid ->
                     ~ same_name (user_name d.2) name).
Proof.
  cbv zeta. unfold same_name. revert st.
  induction docs as [|d docs IH]; intros st.
  - cbn. split; [|split].
    + split; [auto|]. intros [?|(d & Hd & _)]; [assumption|].
      apply elem_of_nil in Hd as [].
    + auto.
    + intros Hn. split; [exact Hn|]. intros d Hd. apply elem_of_nil in Hd as [].
  - cbn [foldl].
    destruct (IH (scan_step name uid st d)) as (IH1 & IH2 & IH3); clear IH.
    set (r := foldl (scan_step name uid) (scan_step name uid st d) docs) in *.
    unfold scan_step in IH1, IH2, IH3.
    destruct (bool_decide_reflect
                (toLowerCase (user_name d.2) = toLowerCase name)) as [Hl|Hl];
      [destruct (bool_decide_reflect (d.1 <> uid)) as [Hu|Hu]|];
      cbn [fst snd] in *.
    + split; [|split].
      * split.
        -- intros _. right. exists d. split; [apply list_elem_of_here|auto].
        -- intros _. apply IH1. auto.
      * intros d0 Hd0. destruct (IH2 d0 Hd0) as [?|(? & ? & ?)]; [auto|].
        right. split; [apply elem_of_cons; auto|auto].
      * intros Hn. destruct (IH3 Hn) as [Hst Hall]. split; [exact Hst|].
        intros d0 Hd0 Hid. apply elem_of_cons in Hd0 as [->|Hd0];
          [contradiction|auto].
    + apply dec_stable in Hu. split; [|split].
      * rewrite IH1. split.
        -- intros [?|(d0 & Hd0 & ? & ?)]; [auto|]. right. exists d0.
           split; [apply elem_of_cons; auto|auto].
        -- intros [?|(d0 & Hd0 & Hn0 & Hu0)]; [auto|].
           apply elem_of_cons in Hd0 as [->|Hd0]; [contradiction|].
           right. exists d0. auto.
      * intros d0 Hd0. destruct (IH2 d0 Hd0) as [Hs|(? & ? & ?)].
        -- injection Hs as <-. right. split; [apply list_elem_of_here|auto].
        -- right. split; [apply elem_of_cons; auto|auto].
      * intros Hn. destruct (IH3 Hn) as [Hst _]. discriminate.
    + split; [|split].
      * rewrite IH1. split.
        -- intros [?|(d0 & Hd0 & ? & ?)]; [auto|]. right. exists d0.
           split; [apply elem_of_cons; auto|auto].
        -- intros [?|(d0 & Hd0 & Hn0 & Hu0)]; [auto|].
           apply elem_of_cons in Hd0 as [->|Hd0]; [contradiction|].
           right. exists d0. auto.
      * intros d0 Hd0. destruct (IH2 d0 Hd0) as [?|(? & ? & ?)]; [auto|].
        right. split; [apply elem_of_cons; auto|auto].
      * intros Hn. destruct (IH3 Hn) as [Hst Hall]. split; [exact Hst|].
        intros d0 Hd0 Hid. apply elem_of_cons in Hd0 as [->|Hd0];
          [exact Hl|auto].
Qed.

(** What the scan of lines 333-341 finds in the participants of a room. *)
Lemma scan_users_room (name uid : JSString) (m : gmap JSString UserDoc) :
  let r := scan_users name uid (map_to_list m) in
  (r.1 = true <->
   exists i u, m !! i = Some u /\ same_name (user_name u) name /\ i <> uid)
  /\ (forall d, r.2 = Some d ->
        d.1 = uid /\ m !! uid = Some d.2 /\ same_name (user_name d.2) name)
  /\ (r.2 = None ->
        forall u, m !! uid = Some u -> ~ same_name (user_name u) name).
Proof.
  cbv zeta.
  change (scan_users name uid (map_to_list m))
    with (foldl (scan_step name uid) (false, None) (map_to_list m)).
  destruct (scan_users_spec name uid (map_to_list m) (false, None))
    as (H1 & H2 & H3). cbv zeta in *. cbn [fst snd] in *.
  split; [|split].
  - rewrite H1. split.
    + intros [?|([i u] & Hd & Hn & Hu)]; [discriminate|].
      exists i, u. apply elem_of_map_to_list in Hd. auto.
    + intros (i & u & Hm & Hn & Hu). right. exists (i, u).
      split; [apply elem_of_map_to_list; exact Hm|auto].
  - intros [i u] Hd. destruct (H2 _ Hd) as [?|(Hin & Hn & Hu)]; [discriminate|].
    cbn [fst snd] in *. subst i. apply elem_of_map_to_list in Hin. auto.
  - intros Hn u Hm. destruct (H3 Hn) as [_ Hall].
    apply (Hall (uid, u)); [apply elem_of_map_to_list; exact Hm|reflexivity].
Qed.


Lemma run_handleNameFormSubmit_writes c e room :
  currentRoom c = Some room -> JS.truthy room = true ->
  JS.truthy (JS.trim (nameInput (inputs (dom c)))) = true ->
  let name := JS.trim (nameInput (inputs (dom c))) in
  let uid := currentUserId c in
  let m := users e !!! room in
  let scan := scan_users name uid (map_to_list m) in
  let r := run handleNameFormSubmit c e in
  (rooms r.2 = rooms e /\ hash r.2 = hash e
   /\ hashchanges r.2 = hashchanges e)
  /\ (users r.2 = users e
      \/ (scan.1 = false /\ scan.2 <> None
          /\ exists u, m !! uid = Some u
               /\ users r.2 = <[room := <[uid := refreshed u (now e)]> m]> (users e))
      \/ (scan = (false, None)
          /\ users r.2
             = <[room := <[uid := {| user_name := name;
                                     user_joined := now e |}]> m]> (users e))).
Proof.
  intros Hr Hrt Hnt. run_of (run handleNameFormSubmit c e).
  unfold handleNameFormSubmit.
  hx.
  split_faults; hx.
  { intros Hx; injection Hx as <- <- <-; settle.
    split; [repeat split; reflexivity|]. left. reflexivity. }
  case_scan; hx.
  1,2: intros Hx; injection Hx as <- <- <-; settle;
    (split; [repeat split; reflexivity|]); left; reflexivity.
  - split_faults; hx.
    { intros Hx; injection Hx as <- <- <-; settle.
      split; [repeat split; reflexivity|]. left. reflexivity. }
    case_on ((users e !!! room) !! currentUserId c); hx;
      intros Hx; injection Hx as <- <- <-; settle;
      (split; [repeat split; reflexivity|]).
    + right. left. split; [reflexivity|]. split; [discriminate|].
      eexists. split; reflexivity.
    + left. reflexivity.
  - split_faults; hx.
    { intros Hx; injection Hx as <- <- <-; settle.
      split; [repeat split; reflexivity|]. left. reflexivity. }
    split_faults; hx;
      intros Hx; injection Hx as <- <- <-; settle;
      (split; [repeat split; reflexivity|]);
      right; right; split; reflexivity.
Qed.

Lemma names_unique_refreshed (m : gmap JSString UserDoc) uid u t :
  m !! uid = Some u -> names_unique m ->
  names_unique (<[uid := refreshed u t]> m).
Proof.
  intros Hm Hun i j a b Ha Hb Hn.
  assert (Hold : forall k x, <[uid := refreshed u t]> m !! k = Some x ->
            exists y, m !! k = Some y /\ user_name y = user_name x).
  { intros k x Hk. destruct (decide (k = uid)) as [->|Hne].
    - rewrite lookup_insert_eq in Hk. injection Hk as <-. eauto.
    - rewrite lookup_insert_ne in Hk by congruence. eauto. }
  destruct (Hold _ _ Ha) as (a' & Ha' & Hna).
  destruct (Hold _ _ Hb) as (b' & Hb' & Hnb).
  apply (Hun i j a' b' Ha' Hb'). rewrite Hna, Hnb. exact Hn.
Qed.

Lemma names_unique_claimed (m : gmap JSString UserDoc) uid name t :
  (forall i u, m !! i = Some u -> same_name (user_name u) name -> i = uid) ->
  names_unique m ->
  names_unique (<[uid := {| user_name := name; user_joined := t |}]> m).
Proof.
  intros Hfree Hun i j a b Ha Hb Hn.
  destruct (decide (i = uid)) as [->|Hi], (decide (j = uid)) as [->|Hj];
    [reflexivity| | |].
  - rewrite lookup_insert_eq in Ha. injection Ha as <-.
    rewrite lookup_insert_ne in Hb by congruence.
    symmetry. apply (Hfree j b Hb). symmetry. exact Hn.
  - rewrite lookup_insert_eq in Hb. injection Hb as <-.
    rewrite lookup_insert_ne in Ha by congruence.
    apply (Hfree i a Ha). exact Hn.
  - rewrite lookup_insert_ne in Ha by congruence.
    rewrite lookup_insert_ne in Hb by congruence.
    apply (Hun i j a b Ha Hb Hn).
Qed.

(** Whatever the store does to its requests, the name form keeps the names
    of the room unique up to case when they were: it writes the participant
    record of this client only, and only with a name that the listing showed
    no other identity to hold.  The records of other rooms, the room
    directory and the hash are not touched.  (The listing and the write are
    two requests: the guarantee is for a store that no other client writes
    in between.) *)
Theorem name_form_keeps_names_unique c e room :
  currentRoom c = Some room -> JS.truthy room = true ->
  JS.truthy (JS.trim (nameInput (inputs (dom c)))) = true ->
  hashchanges e = 0 ->
  names_unique (users e !!! room) ->
  let s := submit handleNameFormSubmit (c, e) in
  names_unique (users s.2 !!! room)
  /\ (forall i, i <> currentUserId c ->
        (users s.2 !!! room) !! i = (users e !!! room) !! i)
  /\ (forall other, other <> room -> users s.2 !!! other = users e !!! other)
  /\ rooms s.2 = rooms e /\ hash s.2 = hash e.
Proof.
  intros Hr Hrt Hnt Hq Hun. cbv zeta.
  pose proof (run_handleNameFormSubmit_writes c e room Hr Hrt Hnt) as Hrun.
  cbv zeta in Hrun. destruct Hrun as ((Hro & Hh & Hq1) & Hcase).
  rewrite Hq in Hq1. rewrite (submit_settled _ _ _ Hq1). cbn [fst snd].
  pose proof (scan_users_room (JS.trim (nameInput (inputs (dom c))))
                (currentUserId c) (users e !!! room)) as Hscan.
  cbv zeta in Hscan. destruct Hscan as (Hs1 & Hs2 & Hs3).
  destruct Hcase as [->|[(Ht & Hex & u & Hm & ->)|(Hsc & ->)]].
  - repeat split; auto.
  - rewrite lookup_total_insert_eq.
    split; [apply names_unique_refreshed; assumption|].
    split; [intros i Hi; apply lookup_insert_ne; congruence|].
    split; [intros other Hne; apply lookup_total_insert_ne; congruence|].
    split; assumption.
  - rewrite lookup_total_insert_eq.
    split.
    + apply names_unique_claimed; [|assumption].
      intros i v Hv Hn. destruct (decide (i = currentUserId c)) as [|Hne];
        [assumption|].
      assert (Ht : (scan_users (JS.trim (nameInput (inputs (dom c))))
                      (currentUserId c)
                      (map_to_list (users e !!! room))).1 = true).
      { apply Hs1. eauto. }
      rewrite Hsc in Ht. discriminate.
    + split; [intros i Hi; apply lookup_insert_ne; congruence|].
      split; [intros other Hne; apply lookup_total_insert_ne; congruence|].
      split; assumption.
Qed.

(** The name is held, up to case, by a participant with another identity
    and the listing is answered: the name error shows "This name is
    already in use. Please choose another." on the name page, nothing is
    written, the session name is not set and no listener is started. *)
Theorem name_form_rejects_taken_name c e room other u :
  currentRoom c = Some room -> JS.truthy room = true ->
  JS.truthy (JS.trim (nameInput (inputs (dom c)))) = true ->
  hashchanges e = 0 -> head (faults e) <> Some true ->
  (users e !!! room) !! other = Some u -> other <> currentUserId c ->
  same_name (user_name u) (JS.trim (nameInput (inputs (dom c)))) ->
  let s := submit handleNameFormSubmit (c, e) in
  visible (dom s.1) = UI_name
  /\ nameError (errors (dom s.1))
     = shown "This name is already in use. Please choose another."
  /\ userName s.1 = userName c
  /\ unsubscribeMessages s.1 = unsubscribeMessages c
  /\ unsubscribeUsers s.1 = unsubscribeUsers c
  /\ users s.2 = users e /\ messages s.2 = messages e
  /\ since e s.2 = [EvRequest (GetUsers room) true].
Proof.
  intros Hr Hrt Hnt Hq Hf Hm Hne Hsame. cbv zeta.
  pose proof (scan_users_room (JS.trim (nameInput (inputs (dom c))))
                (currentUserId c) (users e !!! room)) as Hscan.
  cbv zeta in Hscan. destruct Hscan as (Hs1 & _).
  destruct (scan_users (JS.trim (nameInput (inputs (dom c))))
              (currentUserId c) (map_to_list (users e !!! room)))
    as [taken ex] eqn:Hsc.
  cbn [fst] in Hs1.
  assert (taken = true) as -> by (apply Hs1; eauto).
  assert (Hrun : let r := run handleNameFormSubmit c e in
    hashchanges r.2 = 0
    /\ visible (dom r.1.2) = UI_name
    /\ nameError (errors (dom r.1.2))
       = shown "This name is already in use. Please choose another."
    /\ userName r.1.2 = userName c
    /\ unsubscribeMessages r.1.2 = unsubscribeMessages c
    /\ unsubscribeUsers r.1.2 = unsubscribeUsers c
    /\ users r.2 = users e /\ messages r.2 = messages e
    /\ since e r.2 = [EvRequest (GetUsers room) true]).
  { run_of (run handleNameFormSubmit c e).
    unfold handleNameFormSubmit. hx.
    match goal with
    | |- context [perform ?r ?e0] =>
        rewrite (perform_answered r e0) by (env_simpl; exact Hf)
    end. hx.
    intros Hx; injection Hx as <- <- <-; settle; hyp_rewrite.
    repeat split; reflexivity. }
  cbv zeta in Hrun. destruct Hrun as (Hq1 & Hrun).
  rewrite (submit_settled _ _ _ Hq1). cbn [fst snd]. exact Hrun.
Qed.

(** A client whose participant record in the room carries the submitted
    name, up to case, joins again, the store answering: only the join time
    of the record is refreshed (the stored spelling of the name stays), no
    message is written, and the client enters the chat under the submitted
    spelling with both listeners on the room. *)
Theorem name_form_rejoin_refreshes_join_time c e room u :
  currentRoom c = Some room -> JS.truthy room = true ->
  JS.truthy (JS.trim (nameInput (inputs (dom c)))) = true ->
  hashchanges e = 0 -> faults e = [] ->
  let name := JS.trim (nameInput (inputs (dom c))) in
  let uid := currentUserId c in
  (users e !!! room) !! uid = Some u -> same_name (user_name u) name ->
  (forall i v, (users e !!! room) !! i = Some v ->
               same_name (user_name v) name -> i = uid) ->
  let s := submit handleNameFormSubmit (c, e) in
  users s.2 !!! room = <[uid := refreshed u (now e)]> (users e !!! room)
  /\ messages s.2 = messages e
  /\ visible (dom s.1) = UI_chat /\ userName s.1 = Some name
  /\ unsubscribeMessages s.1 = true /\ unsubscribeUsers s.1 = true
  /\ msgListener s.2 = Some room /\ userListener s.2 = Some room
  /\ since e s.2 = [EvRequest (GetUsers room) true;
                    EvRequest (UpdateUserJoined room uid) true].
Proof.
  intros Hr Hrt Hnt Hq Hf name uid Hm Hsame Hfree. cbv zeta.
  pose proof (scan_users_room name uid (users e !!! room)) as Hscan.
  cbv zeta in Hscan. destruct Hscan as (Hs1 & _ & Hs3).
  subst name uid.
  destruct (scan_users (JS.trim (nameInput (inputs (dom c))))
              (currentUserId c) (map_to_list (users e !!! room)))
    as [taken ex] eqn:Hsc.
  cbn [fst snd] in Hs1, Hs3.
  assert (taken = false) as ->.
  { destruct taken; [|reflexivity].
    destruct (proj1 Hs1 eq_refl) as (i & v & Hv & Hn & Hne).
    exfalso. apply Hne. apply (Hfree i v Hv Hn). }
  destruct ex as [d|]; [|exfalso; exact (Hs3 eq_refl u Hm Hsame)].
  assert (Hrun : let r := run handleNameFormSubmit c e in
    hashchanges r.2 = 0
    /\ users r.2 !!! room
       = <[currentUserId c := refreshed u (now e)]> (users e !!! room)
    /\ messages r.2 = messages e
    /\ visible (dom r.1.2) = UI_chat
    /\ userName r.1.2 = Some (JS.trim (nameInput (inputs (dom c))))
    /\ unsubscribeMessages r.1.2 = true /\ unsubscribeUsers r.1.2 = true
    /\ msgListener r.2 = Some room /\ userListener r.2 = Some room
    /\ since e r.2 = [EvRequest (GetUsers room) true;
                      EvRequest (UpdateUserJoined room (currentUserId c)) true]).
  { run_of (run handleNameFormSubmit c e).
    unfold handleNameFormSubmit. ax.
    intros Hx; injection Hx as <- <- <-; settle; hyp_rewrite.
    rewrite <- ?app_assoc. repeat split; reflexivity. }
  cbv zeta in Hrun. destruct Hrun as (Hq1 & Hrun).
  rewrite (submit_settled _ _ _ Hq1). cbn [fst snd]. exact Hrun.
Qed.

(** A client that has no participant record in the room, or whose record
    carries another name, claims a name nobody else holds, the store
    answering: its record is written with the submitted name and the
    current time, replacing any record it had, and the event "<name> has
    joined the room." is appended to the messages of the room.  The client
    enters the chat with both listeners on the room. *)
Theorem name_form_new_name_writes_record_and_event c e room :
  currentRoom c = Some room -> JS.truthy room = true ->
  JS.truthy (JS.trim (nameInput (inputs (dom c)))) = true ->
  hashchanges e = 0 -> faults e = [] ->
  let name := JS.trim (nameInput (inputs (dom c))) in
  let uid := currentUserId c in
  (forall u, (users e !!! room) !! uid = Some u ->
             ~ same_name (user_name u) name) ->
  (forall i v, (users e !!! room) !! i = Some v ->
               same_name (user_name v) name -> i = uid) ->
  let s := submit handleNameFormSubmit (c, e) in
  users s.2 !!! room
  = <[uid := {| user_name := name; user_joined := now e |}]> (users e !!! room)
  /\ messages s.2 !!! room
     = (messages e !!! room)
       ++ [(nextId e, with_timestamp (Some (tick (now e))) (join_event name))]
  /\ visible (dom s.1) = UI_chat /\ userName s.1 = Some name
  /\ unsubscribeMessages s.1 = true /\ unsubscribeUsers s.1 = true
  /\ msgListener s.2 = Some room /\ userListener s.2 = Some room
  /\ since e s.2 = [EvRequest (GetUsers room) true;
                    EvRequest (SetUser room uid name) true;
                    EvRequest (AddMessage room (join_event name)) true].
Proof.
  intros Hr Hrt Hnt Hq Hf name uid Hnew Hfree. cbv zeta.
  pose proof (scan_users_room name uid (users e !!! room)) as Hscan.
  cbv zeta in Hscan. destruct Hscan as (Hs1 & Hs2 & _).
  subst name uid.
  destruct (scan_users (JS.trim (nameInput (inputs (dom c))))
              (currentUserId c) (map_to_list (users e !!! room)))
    as [taken ex] eqn:Hsc.
  cbn [fst snd] in Hs1, Hs2.
  assert (taken = false) as ->.
  { destruct taken; [|reflexivity].
    destruct (proj1 Hs1 eq_refl) as (i & v & Hv & Hn & Hne).
    exfalso. apply Hne. apply (Hfree i v Hv Hn). }
  destruct ex as [d|].
  { exfalso. destruct (Hs2 d eq_refl) as (_ & Hm & Hn).
    exact (Hnew _ Hm Hn). }
  assert (Hrun : let r := run handleNameFormSubmit c e in
    hashchanges r.2 = 0
    /\ users r.2 !!! room
       = <[currentUserId c :=
             {| user_name := JS.trim (nameInput (inputs (dom c)));
                user_joined := now e |}]> (users e !!! room)
    /\ messages r.2 !!! room
       = (messages e !!! room)
         ++ [(nextId e, with_timestamp (Some (tick (now e)))
                          (join_event (JS.trim (nameInput (inputs (dom c))))))]
    /\ visible (dom r.1.2) = UI_chat
    /\ userName r.1.2 = Some (JS.trim (nameInput (inputs (dom c))))
    /\ unsubscribeMessages r.1.2 = true /\ unsubscribeUsers r.1.2 = true
    /\ msgListener r.2 = Some room /\ userListener r.2 = Some room
    /\ since e r.2 =
         [EvRequest (GetUsers room) true;
          EvRequest (SetUser room (currentUserId c)
                       (JS.trim (nameInput (inputs (dom c))))) true;
          EvRequest (AddMessage room
                       (join_event (JS.trim (nameInput (inputs (dom c))))))
            true]).
  { run_of (run handleNameFormSubmit c e).
    unfold handleNameFormSubmit. ax.
    intros Hx; injection Hx as <- <- <-; settle; hyp_rewrite.
    rewrite <- ?app_assoc. repeat split; reflexivity. }
  cbv zeta in Hrun. destruct Hrun as (Hq1 & Hrun).
  rewrite (submit_settled _ _ _ Hq1). cbn [fst snd]. exact Hrun.
Qed.

End NameClaims.

Section NameExamples.
#[local] Existing Instance example_platform.

Lemma only_alice (s : Client * Env) i v :
  base.dom (users s.2 !!! team_x) = ({[uid_alice]} : gset JSString) ->
  (users s.2 !!! team_x) !! i = Some v -> i = uid_alice.
Proof.
  intros Hd Hv. apply elem_of_dom_2 in Hv. rewrite Hd in Hv.
  apply elem_of_singleton in Hv. exact Hv.
Qed.

Lemma name_form_unique_witness :
  let s := submit handleNameFormSubmit (bob_as_bob.1, bob_as_bob.2) in
  names_unique (users s.2 !!! team_x).
Proof.
  cbv zeta.
  refine (proj1 (@name_form_keeps_names_unique example_platform
                   bob_as_bob.1 bob_as_bob.2 team_x _ _ _ _ _));
    try (vm_compute; reflexivity).
  intros i j u v Hu Hv _.
  rewrite (only_alice bob_as_bob i u ltac:(vm_compute; reflexivity) Hu).
  rewrite (only_alice bob_as_bob j v ltac:(vm_compute; reflexivity) Hv).
  reflexivity.
Defined.

Lemma name_form_taken_witness :
  let s := submit handleNameFormSubmit (bob_as_alice.1, bob_as_alice.2) in
  visible (dom s.1) = UI_name
  /\ nameError (errors (dom s.1))
     = shown "This name is already in use. Please choose another."
  /\ users s.2 = users bob_as_alice.2.
Proof.
  cbv zeta.
  destruct ((users bob_as_alice.2 !!! team_x) !! uid_alice) as [u|] eqn:Hu;
    [|revert Hu; vm_compute; discriminate].
  pose proof (@name_form_rejects_taken_name example_platform
                bob_as_alice.1 bob_as_alice.2 team_x uid_alice u
                ltac:(vm_compute; reflexivity) ltac:(vm_compute; reflexivity)
                ltac:(vm_compute; reflexivity) ltac:(vm_compute; reflexivity)
                ltac:(vm_compute; discriminate) Hu
                ltac:(vm_compute; discriminate)
                ltac:(revert Hu; vm_compute; intros [= <-]; reflexivity))
    as Hw.
  cbv zeta in Hw. destruct Hw as (Hv & Hm & _ & _ & _ & Hus & _).
  split; [exact Hv|]. split; [exact Hm | exact Hus].
Defined.

Lemma name_form_rejoin_witness :
  let s := submit handleNameFormSubmit (alice_again.1, alice_again.2) in
  userName s.1 = Some (lit "ALICE")
  /\ user_name <$> (users s.2 !!! team_x) !! uid_alice = Some (lit "Alice")
  /\ messages s.2 = messages alice_again.2.
Proof.
  cbv zeta.
  destruct ((users alice_again.2 !!! team_x) !! uid_alice) as [u|] eqn:Hu;
    [|revert Hu; vm_compute; discriminate].
  pose proof (@name_form_rejoin_refreshes_join_time example_platform
                alice_again.1 alice_again.2 team_x u
                ltac:(vm_compute; reflexivity) ltac:(vm_compute; reflexivity)
                ltac:(vm_compute; reflexivity) ltac:(vm_compute; reflexivity)
                ltac:(vm_compute; reflexivity) Hu
                ltac:(revert Hu; vm_compute; intros [= <-]; reflexivity)
                ltac:(intros i v Hv _;
                      exact (only_alice alice_again i v
                               ltac:(vm_compute; reflexivity) Hv)))
    as Hw.
  cbv zeta in Hw. destruct Hw as (Hus & Hms & _ & Hun & _).
  split; [exact Hun|]. split; [|exact Hms].
  rewrite Hus, lookup_insert_eq. revert Hu. vm_compute.
  intros [= <-]. reflexivity.
Defined.

Lemma name_form_new_name_witness :
  let s := submit handleNameFormSubmit (alice_renamed.1, alice_renamed.2) in
  user_name <$> (users s.2 !!! team_x) !! uid_alice = Some (lit "Alicia")
  /\ List.length (messages s.2 !!! team_x)
     = S (List.length (messages alice_renamed.2 !!! team_x)).
Proof.
  cbv zeta.
  pose proof (@name_form_new_name_writes_record_and_event example_platform
                alice_renamed.1 alice_renamed.2 team_x
                ltac:(vm_compute; reflexivity) ltac:(vm_compute; reflexivity)
                ltac:(vm_compute; reflexivity) ltac:(vm_compute; reflexivity)
                ltac:(vm_compute; reflexivity)
                ltac:(intros u Hu; revert Hu; vm_compute;
                      intros [= <-]; vm_compute; discriminate)
                ltac:(intros i v Hv _;
                      exact (only_alice alice_renamed i v
                               ltac:(vm_compute; reflexivity) Hv)))
    as Hw.
  cbv zeta in Hw. destruct Hw as (Hus & Hms & _).
  split.
  - rewrite Hus, lookup_insert_eq. reflexivity.
  - rewrite Hms, length_app. cbn [List.length]. lia.
Defined.

End NameExamples.

(** ** Subscribing and rendering *)

Lemma onMessagesSnapshot_added_list chs c :
  all_added chs ->
  messageList (dom (onMessagesSnapshot chs c))
  = messageList (dom c)
    ++ map (render_element (currentUserId c))
         (JS.sort by_seconds (map change_doc chs)).
Proof.
  intros Hall. unfold onMessagesSnapshot.
  destruct (foldl_on_change_added chs c [] Hall) as (Hms & Hl & Hu).
  destruct (foldl on_change (c, []) chs) as [c1 ms]. cbn in Hms, Hl, Hu.
  subst ms. unfold renderMessages. rewrite render_loop_list, Hl, Hu.
  reflexivity.
Qed.

Lemma all_added_initial (l : list Msg) :
  all_added (map (fun d => {| change_type := added; change_doc := d |}) l).
Proof. apply Forall_map, Forall_forall. intros; reflexivity. Qed.

Lemma change_doc_initial (l : list Msg) :
  map change_doc (map (fun d => {| change_type := added; change_doc := d |}) l)
  = l.
Proof. rewrite map_map. apply map_id. Qed.

Section Subscriptions.
Context `{Platform}.

(** [listenForMessages] in a room registers the listener and appends the
    messages the room holds, sorted by whole seconds, to whatever is
    rendered: the list is not cleared, so subscribing a second time shows
    every message of the room twice.  The store is not written. *)
Theorem listen_for_messages_appends_history c e room :
  currentRoom c = Some room ->
  let history := map (render_element (currentUserId c))
                   (JS.sort by_seconds (messages e !!! room)) in
  let r := run listenForMessages c e in
  let r2 := run listenForMessages r.1.2 r.2 in
  (r.1.1 = Fulfilled tt /\ unsubscribeMessages r.1.2 = true
   /\ msgListener r.2 = Some room
   /\ rooms r.2 = rooms e /\ users r.2 = users e /\ messages r.2 = messages e
   /\ trace r.2 = trace e)
  /\ messageList (dom r.1.2) = messageList (dom c) ++ history
  /\ messageList (dom r2.1.2) = messageList (dom c) ++ history ++ history.
Proof.
  intros Hr. cbv zeta.
  rewrite (run_listenForMessages c e room Hr). cbn [fst snd].
  erewrite run_listenForMessages
    by (cli_simpl; autorewrite with frame; exact Hr).
  cbn [fst snd]. env_simpl. cli_simpl.
  split; [repeat split; reflexivity|].
  assert (Hstep : forall c0,
    messageList (dom (deliver_all
      [MessagesSnapshot
         (map (fun d => {| change_type := added; change_doc := d |})
            (messages e !!! room))] c0))
    = messageList (dom c0)
      ++ map (render_element (currentUserId c0))
           (JS.sort by_seconds (messages e !!! room))).
  { intros c0. change (deliver_all [?cb] c0) with (deliver cb c0).
    cbn [deliver].
    rewrite onMessagesSnapshot_added_list by apply all_added_initial.
    rewrite change_doc_initial. reflexivity. }
  split; [apply Hstep|].
  rewrite Hstep. cli_simpl. rewrite Hstep.
  autorewrite with frame. cli_simpl. autorewrite with frame.
  rewrite <- app_assoc. reflexivity.
Qed.

End Subscriptions.

(** ** A sent message on the screen *)

Lemma patch_timestamp_last id label l s n t old :
  Forall (fun el => data_id el <> id) l ->
  patch_timestamp id label (l ++ [Bubble id s n t old])
  = l ++ [Bubble id s n t label].
Proof.
  induction 1 as [|el l Hel _ IH]; cbn.
  - rewrite N.eqb_refl. reflexivity.
  - destruct el as [i tx|i s0 n0 t0 o0]; cbn in *.
    + rewrite IH. reflexivity.
    + destruct (N.eqb_spec i id); [contradiction|]. rewrite IH. reflexivity.
Qed.

Section Sending.
Context `{Platform}.

(** A message sent from the chat, the write answered and the listener on
    the room: the message is stored with the trimmed text, the session
    name, this client's identity and the server time, and the echo of the
    write puts exactly one bubble for it at the end of the list, first
    with its time pending, in the end with the server time.  The message
    counts as the client's own: the unread counter stays. *)
Theorem sent_message_rendered_once c e room un :
  JS.truthy (JS.trim (messageInput (inputs (dom c)))) = true ->
  currentRoom c = Some room -> JS.truthy room = true ->
  userName c = Some un -> JS.truthy un = true ->
  JS.truthy (currentUserId c) = true ->
  currentUserId c <> system ->
  hashchanges e = 0 -> head (faults e) <> Some true ->
  msgListener e = Some room ->
  Forall (fun el => data_id el <> nextId e) (messageList (dom c)) ->
  let text := JS.trim (messageInput (inputs (dom c))) in
  let s := submit handleMessageFormSubmit (c, e) in
  messages s.2 !!! room
  = (messages e !!! room)
    ++ [(nextId e, with_timestamp (Some (now e))
                     (user_message un text (currentUserId c)))]
  /\ messageList (dom s.1)
     = messageList (dom c)
       ++ [Bubble (nextId e) true un text (LocaleTime (now e))]
  /\ messageInput (inputs (dom s.1)) = []
  /\ unreadMessages s.1 = unreadMessages c.
Proof.
  intros Ht Hr Hrt Hu Hut Hid Hsys Hq Hf Hl Hfresh. cbv zeta.
  destruct (run_handleMessageFormSubmit c e room un Ht Hr Hrt Hu Hut Hid)
    as (c1 & e1 & Hrun & Hq1 & Hres).
  rewrite (submit_idle _ _ _ _ _ _ Hrun) by congruence. cbn [fst snd].
  assert (Hans : c1 = deliver_all
            [MessagesSnapshot
               [{| change_type := added;
                   change_doc :=
                     (nextId e,
                      user_message un (JS.trim (messageInput (inputs (dom c))))
                        (currentUserId c)) |}];
             MessagesSnapshot
               [{| change_type := modified;
                   change_doc :=
                     (nextId e,
                      with_timestamp (Some (now e))
                        (user_message un
                           (JS.trim (messageInput (inputs (dom c))))
                           (currentUserId c))) |}]]
            (upd_inputs (set_messageInput []) c)
          /\ room_messages e1 room =
               room_messages e room
               ++ [(nextId e,
                    with_timestamp (Some (now e))
                      (user_message un
                         (JS.trim (messageInput (inputs (dom c))))
                         (currentUserId c)))]).
  { rewrite Hl in Hres. rewrite bool_decide_true in Hres by reflexivity.
    destruct (faults e) as [|[] fs]; cbn in Hf; try congruence;
      destruct Hres as (? & ? & _); auto. }
  destruct Hans as [-> Hms]. split; [exact Hms|].
  unfold deliver_all. cbn [foldl deliver].
  unfold onMessagesSnapshot. cbn [foldl on_change change_type change_doc snd fst].
  cbn [user_message with_timestamp msg_senderId msg_timestamp msg_name msg_text].
  cli_simpl.
  rewrite (bool_decide_false (currentUserId c <> currentUserId c)) by tauto.
  cbn [andb app]. unfold renderMessages, JS.sort.
  cbn [foldr JS.insert_by foldl]. cli_simpl.
  rewrite bool_decide_true by reflexivity.
  cbn [foldr foldl]. cli_simpl.
  unfold render_element.
  cbn [user_message with_timestamp msg_senderId msg_timestamp msg_name
       msg_text fst snd formatTimestamp].
  rewrite (bool_decide_false (currentUserId c = system)) by exact Hsys.
  rewrite bool_decide_true by reflexivity.
  cbn [JS.truthy_opt JS.interpolate]. rewrite Hut.
  rewrite patch_timestamp_last by exact Hfresh.
  repeat split; reflexivity.
Qed.

End Sending.

(** ** Leaving under failures *)

Section Leaving.
Context `{Platform}.

Lemma run_handleLeaveRoom_any c e room un :
  currentRoom c = Some room -> JS.truthy room = true ->
  userName c = Some un -> JS.truthy un = true ->
  JS.truthy (currentUserId c) = true ->
  hash e <> [] ->
  let r := run handleLeaveRoom c e in
  hash r.2 = [] /\ hashchanges r.2 = S (hashchanges e)
  /\ isNavigating r.1.2 = isNavigating c
  /\ rooms r.2 = rooms e
  /\ (rejected (since e r.2) = true ->
      users r.2 = users e /\ logged (since e r.2) = true)
  /\ (rejected (since e r.2) = false ->
      users r.2 !!! room = delete (currentUserId c) (users e !!! room)).
Proof.
  intros Hr Hrt Hu Hut Hid Hh. run_of (run handleLeaveRoom c e).
  assert (Hne : bool_decide ([] = hash e) = false)
    by (apply bool_decide_eq_false; congruence).
  unfold handleLeaveRoom. hx.
  split_faults; hx; [finish|].
  split_faults; hx; finish.
Qed.

(** Leaving an active session ends on the room page with the session torn
    down, whatever the store does to the two writes: the [catch] navigates
    to the empty token as well.  When a write was rejected the error is
    logged and the participant record of this client is still in the
    room; when none was, the record is gone. *)
Theorem leave_always_returns_to_rooms c e room un :
  currentRoom c = Some room -> JS.truthy room = true ->
  userName c = Some un -> JS.truthy un = true ->
  JS.truthy (currentUserId c) = true ->
  isNavigating c = false -> hashchanges e = 0 -> hash e <> [] ->
  let s := submit handleLeaveRoom (c, e) in
  (visible (dom s.1) = UI_room /\ currentRoom s.1 = None
   /\ userName s.1 = None
   /\ unsubscribeMessages s.1 = false /\ unsubscribeUsers s.1 = false
   /\ hash s.2 = [] /\ hashchanges s.2 = 0 /\ rooms s.2 = rooms e)
  /\ (rejected (since e s.2) = true ->
      users s.2 = users e /\ logged (since e s.2) = true)
  /\ (rejected (since e s.2) = false ->
      users s.2 !!! room = delete (currentUserId c) (users e !!! room)).
Proof.
  intros Hr Hrt Hu Hut Hid Hn Hq Hh. cbv zeta.
  pose proof (run_handleLeaveRoom_any c e room un Hr Hrt Hu Hut Hid Hh)
    as Hrun.
  cbv zeta in Hrun. unfold submit, dispatch, since in *. cbn [fst snd].
  destruct (run handleLeaveRoom c e) as [[v c1] e1]. cbn [fst snd] in Hrun.
  destruct Hrun as (Hh1 & Hq1 & Hn1 & Hro1 & Hrej & Hok).
  rewrite Hq in Hq1. rewrite Hq1. change (2 * 1) with 2.
  destruct (drain_empty_token 1 c1 e1 Hq1 Hh1 ltac:(congruence))
    as (c' & e' & Hd & Hv & Hcr & Hun & Hum & Huu & _ & _ & Hro & Hus & _
        & Htr & Hh' & Hq').
  rewrite Hd. cbn [fst snd]. rewrite Htr, Hus, Hro.
  split; [repeat split; assumption|]. split; assumption.
Qed.

End Leaving.

Section RenderingExamples.
#[local] Existing Instance example_platform.

(** Alice, in the chat of team-x with its join event rendered, subscribes
    once more. *)
Lemma listen_for_messages_witness :
  let r := run listenForMessages in_chat.1 in_chat.2 in
  messageList (dom r.1.2)
  = [SystemLine 0 (lit "Alice has joined the room.");
     SystemLine 0 (lit "Alice has joined the room.")].
Proof.
  cbv zeta.
  refine (eq_trans
            (proj1 (proj2 (@listen_for_messages_appends_history
                             example_platform in_chat.1 in_chat.2 team_x _))) _);
    vm_compute; reflexivity.
Defined.

Lemma sent_message_witness :
  let s := submit handleMessageFormSubmit (alice_says_hi.1, alice_says_hi.2) in
  messageList (dom s.1)
  = [SystemLine 0 (lit "Alice has joined the room.");
     Bubble 1 true (lit "Alice") (lit "hi")
       (LocaleTime (now alice_says_hi.2))].
Proof.
  cbv zeta.
  refine (eq_trans
            (proj1 (proj2 (@sent_message_rendered_once example_platform
                             alice_says_hi.1 alice_says_hi.2 team_x
                             (lit "Alice") _ _ _ _ _ _ _ _ _ _ _))) _);
    try (vm_compute; first [reflexivity | discriminate]).
  vm_compute. repeat constructor; discriminate.
Defined.

Lemma leave_witness :
  let s := submit handleLeaveRoom
             (alice_leaves_offline.1, alice_leaves_offline.2) in
  visible (dom s.1) = UI_room /\ users s.2 = users alice_leaves_offline.2.
Proof.
  cbv zeta.
  pose proof (@leave_always_returns_to_rooms example_platform
                alice_leaves_offline.1 alice_leaves_offline.2 team_x
                (lit "Alice")
                ltac:(vm_compute; reflexivity) ltac:(vm_compute; reflexivity)
                ltac:(vm_compute; reflexivity) ltac:(vm_compute; reflexivity)
                ltac:(vm_compute; reflexivity) ltac:(vm_compute; reflexivity)
                ltac:(vm_compute; reflexivity) ltac:(vm_compute; discriminate))
    as Hw.
  cbv zeta in Hw. destruct Hw as ((Hv & _) & Hrej & _).
  split; [exact Hv|].
  exact (proj1 (Hrej ltac:(vm_compute; reflexivity))).
Defined.

End RenderingExamples.

(** ** Running a handler up to its next await *)

Section StartLaws.
Context `{Platform}.

Lemma start_bind {A B} (p : Prog A) (f : A -> Prog B) c e :
  start (p ≫= f) c e =
  match start p c e with
  | Done _ (Fulfilled a) c1 e1 => start (f a) c1 e1
  | Done _ (Rejected err) c1 e1 => Done _ (Rejected err) c1 e1
  | Waiting _ r k c1 e1 => Waiting _ r (fun v => k v ≫= f) c1 e1
  end.
Proof.
  change (p ≫= f) with (bind p f). revert c e.
  induction p as [a|err|k IH|c' k IH|s k IH|r k IH]; intros c e; cbn;
    try reflexivity; try apply IH.
  destruct (syscall s e) as [[v e'] cbs]. apply IH.
Qed.

Lemma start_fmap {A B} (g : A -> B) (p : Prog A) c e :
  start (g <$> p) c e =
  match start p c e with
  | Done _ (Fulfilled a) c1 e1 => Done _ (Fulfilled (g a)) c1 e1
  | Done _ (Rejected err) c1 e1 => Done _ (Rejected err) c1 e1
  | Waiting _ r k c1 e1 => Waiting _ r (fun v => g <$> k v) c1 e1
  end.
Proof.
  change (g <$> p) with (p ≫= fun a => Ret (g a)). rewrite start_bind.
  destruct (start p c e) as [[a|err] c1 e1|r k c1 e1]; reflexivity.
Qed.

Lemma start_try_catch {A} (p : Prog A) (handler : Error -> Prog A) c e :
  start (try_catch p handler) c e =
  match start p c e with
  | Done _ (Fulfilled a) c1 e1 => Done _ (Fulfilled a) c1 e1
  | Done _ (Rejected err) c1 e1 => start (handler err) c1 e1
  | Waiting _ r k c1 e1 => Waiting _ r (fun v => try_catch (k v) handler) c1 e1
  end.
Proof.
  revert c e.
  induction p as [a|err|k IH|c' k IH|s k IH|r k IH]; intros c e; cbn;
    try reflexivity; try apply IH.
  destruct (syscall s e) as [[v e'] cbs]. apply IH.
Qed.

Lemma start_ret {A} (a : A) c e : start (mret a) c e = Done _ (Fulfilled a) c e.
Proof. reflexivity. Qed.

Lemma start_Ret {A} (a : A) c e : start (Ret a) c e = Done _ (Fulfilled a) c e.
Proof. reflexivity. Qed.

Lemma start_Throw {A} err c e :
  start (@Throw A err) c e = Done _ (Rejected err) c e.
Proof. reflexivity. Qed.

Lemma start_gets {A} (f : Client -> A) c e :
  start (gets f) c e = Done _ (Fulfilled (f c)) c e.
Proof. reflexivity. Qed.

Lemma start_value f c e :
  start (value f) c e = Done _ (Fulfilled (f (inputs (dom c)))) c e.
Proof. reflexivity. Qed.

Lemma start_modify f c e : start (modify f) c e = Done _ (Fulfilled tt) (f c) e.
Proof. reflexivity. Qed.

Lemma start_sys s c e :
  start (sys s) c e =
  Done _ (Fulfilled (syscall s e).1.1) (deliver_all (syscall s e).2 c)
    (syscall s e).1.2.
Proof. cbn. destruct (syscall s e) as [[v e'] cbs]. reflexivity. Qed.

Lemma start_await r c e :
  start (await r) c e =
  Waiting _ r (fun v => match v with
                      | Fulfilled b => Ret b
                      | Rejected err => Throw err
                      end) c e.
Proof. reflexivity. Qed.

Lemma start_segment o c e :
  start (segment o) c e =
  Done _ (match o with Some s => Fulfilled s | None => Rejected TypeError end)
    c e.
Proof. destruct o; reflexivity. Qed.

(** A settled promise wakes the handler. *)
Lemma resume_waiting {A} r (k : Settled (response r) -> Prog A) c e :
  resume (Waiting _ r k c e)
  = start (k (perform r e).1.1) (deliver_all (perform r e).2 c)
      (perform r e).1.2.
Proof. cbn. destruct (perform r e) as [[v e'] cbs]. reflexivity. Qed.

(** A handler without an [await] runs to completion at once. *)
Lemma start_listenForMessages c e room :
  currentRoom c = Some room ->
  start listenForMessages c e
  = Done _ (Fulfilled tt)
      (set_unsubscribeMessages true
         (deliver_all
            [MessagesSnapshot
               (map (fun d => {| change_type := added; change_doc := d |})
                  (room_messages e room))] c))
      (set_msgListener (Some room) e).
Proof.
  intros Hr. unfold listenForMessages.
  destruct (unsubscribeMessages c) eqn:Hum; cbn; rewrite Hum; cbn;
    rewrite Hr; reflexivity.
Qed.

Lemma start_listenForUsers c e room :
  currentRoom c = Some room ->
  start listenForUsers c e
  = Done _ (Fulfilled tt)
      (set_unsubscribeUsers true
         (deliver_all [UsersSnapshot (map_to_list (room_users e room))] c))
      (set_userListener (Some room) e).
Proof.
  intros Hr. unfold listenForUsers.
  destruct (unsubscribeUsers c) eqn:Hum; cbn; rewrite Hum; cbn;
    rewrite Hr; reflexivity.
Qed.

End StartLaws.

Ltac start_sys_step :=
  match goal with
  | |- context [start (sys ?s) ?c ?e] =>
      let Hr := fresh "Hr" in
      pose proof (start_sys s c e) as Hr; cbn [answer] in Hr;
      rewrite Hr; clear Hr
  | |- context [start (await ?r) ?c ?e] =>
      let Hr := fresh "Hr" in
      pose proof (start_await r c e) as Hr; cbn [response] in Hr;
      rewrite Hr; clear Hr
  | |- context [resume (Waiting _ ?r ?k ?c ?e)] =>
      let Hr := fresh "Hr" in
      pose proof (resume_waiting r k c e) as Hr; cbn [response] in Hr;
      rewrite Hr; clear Hr
  end.

Ltac wstep :=
  first
    [ rewrite start_bind | rewrite start_fmap | rewrite start_try_catch
    | rewrite start_modify | rewrite start_gets | rewrite start_value
    | rewrite start_ret | rewrite start_Ret | rewrite start_Throw
    | start_sys_step | rewrite start_segment
    | erewrite start_listenForMessages by known_room
    | erewrite start_listenForUsers by known_room ].

(** A suspended handler run symbolically, the store answering. *)
Ltac wx :=
  repeat (progress
            (repeat wstep; cbv beta iota; try perform_step; env_simpl;
             cli_simpl; cbn [pending client_of env_of JS.interpolate];
             hyp_rewrite; autorewrite with frame)).

(** ** Results that arrive after a navigation *)

Section Stale.
Context `{Platform}.

(** What a navigation to an existing room leaves behind. *)
Lemma navigate_existing c e token data :
  isNavigating c = false -> hashchanges e = 0 ->
  JS.truthy token = true -> token <> hash e ->
  head (faults e) <> Some true ->
  rooms e !! token = Some data ->
  let s := navigate token c e in
  visible (dom s.1) = UI_password /\ currentRoom s.1 = Some token
  /\ currentUserId s.1 = currentUserId c /\ userName s.1 = userName c
  /\ inputs (dom s.1) = inputs (dom c)
  /\ unsubscribeMessages s.1 = false /\ unsubscribeUsers s.1 = false
  /\ rooms s.2 = rooms e /\ users s.2 = users e /\ messages s.2 = messages e
  /\ faults s.2 = tail (faults e) /\ hashchanges s.2 = 0
  /\ msgListener s.2 = (if unsubscribeMessages c then None else msgListener e)
  /\ userListener s.2 = (if unsubscribeUsers c then None else userListener e).
Proof.
  intros Hn Hq Ht Hne Hf Hro. cbv zeta. unfold navigate.
  rewrite bool_decide_false by congruence. rewrite Hq.
  env_simpl. change (2 * 1) with 2.
  rewrite (drain_step 1 0) by reflexivity.
  pose proof (run_handleHashChange_token c
                (set_hashchanges 0 (set_hashchanges 1 (set_hash token e)))
                Hn Ht Hf) as Hrun.
  cbv zeta in Hrun. revert Hrun. env_simpl. rewrite Hro.
  destruct (run handleHashChange c _) as [[v c1] e1]. cbn [fst snd].
  intros ((Hcr & Hun & Hum & Huu & Hn1 & Hin & Hml & Hid)
          & (Hro1 & Hus & Hms & Hf1 & Hl1 & Hl2)
          & (Hv & Hd & Her & Hh1 & Hq1 & Htr)).
  rewrite (drain_idle _ _ _ Hq1). cbn [fst snd].
  repeat split; assumption.
Qed.

Ltac elsewhere roomB dB Hn Hq HBt Hne Hf HB :=
  match goal with
  | |- context [meanwhile (navigate roomB) (Waiting _ ?r ?k ?c2 ?e2)] =>
      let Hnav := fresh "Hnav" in
      let c' := fresh "c'" in
      let e' := fresh "e'" in
      pose proof (navigate_existing c2 e2 roomB dB) as Hnav;
      cbv zeta in Hnav; revert Hnav;
      cbn [meanwhile];
      destruct (navigate roomB c2 e2) as [c' e'];
      cbn [fst snd]; env_simpl; cli_simpl;
      intros Hnav;
      destruct (Hnav Hn Hq HBt Hne ltac:(rewrite ?Hf; cbn; discriminate) HB)
        as (Hv & Hcr & Hid & Hun & Hin & Hum & Huu & Hro & Hus & Hms & Hf'
            & Hq' & _);
      rewrite ?Hf in Hf'; cbn [tail] in Hf'; clear Hnav
  end.

(** The password form holds no record of the room it was submitted for.
    While the store is asked for the record of room A, the user follows a
    link to room B, whose password page comes up; the answer for A then
    arrives, its digest equals the digest of the password typed for A, and
    the handler shows the name page, which now is the name page of room B:
    the result is applied to the room that is current when it arrives,
    and the password of B was never compared. *)
Theorem password_result_applies_to_current_room c e roomA roomB dA dB :
  currentRoom c = Some roomA -> JS.truthy roomA = true ->
  JS.truthy (JS.trim (passwordVerifyInput (inputs (dom c)))) = true ->
  isNavigating c = false -> hashchanges e = 0 -> faults e = [] ->
  let password := JS.trim (passwordVerifyInput (inputs (dom c))) in
  rooms e !! roomA = Some dA -> passwordHash dA = sha256hex password ->
  rooms e !! roomB = Some dB -> JS.truthy roomB = true -> roomB <> hash e ->
  let hashing := start handlePasswordVerifySubmit c e in
  let asking := resume hashing in
  let elsewhere := meanwhile (navigate roomB) asking in
  let answered := resume elsewhere in
  pending hashing = Some (HashPassword password)
  /\ pending asking = Some (GetRoom roomA)
  /\ visible (dom (client_of elsewhere)) = UI_password
  /\ currentRoom (client_of elsewhere) = Some roomB
  /\ pending answered = None
  /\ visible (dom (client_of answered)) = UI_name
  /\ currentRoom (client_of answered) = Some roomB
  /\ chatRoomDisplay (dom (client_of answered)) = lit "Room: " ++ roomB.
Proof.
  intros Hr Hrt Hpt Hn Hq Hf password HA HdA HB HBt Hne. cbv zeta.
  subst password. unfold handlePasswordVerifySubmit. wx.
  split; [reflexivity|]. split; [reflexivity|].
  elsewhere roomB dB Hn Hq HBt Hne Hf HB.
  wx. rewrite ?bool_decide_true by first [exact HdA | reflexivity]. wx.
  repeat split; first [assumption | reflexivity].
Qed.

(** The name form reads the current room again after the listing.  While
    the participants of room A are listed, the user follows a link to
    room B; the listing of A arrives, nobody in A holds the name, and the
    handler writes the participant record and the join event into room B,
    whose participants were never listed and whose password was never
    asked, and enters the chat of room B. *)
Theorem name_claim_writes_to_current_room c e roomA roomB (dB : RoomDoc) :
  currentRoom c = Some roomA -> JS.truthy roomA = true ->
  JS.truthy (JS.trim (nameInput (inputs (dom c)))) = true ->
  isNavigating c = false -> hashchanges e = 0 -> faults e = [] ->
  let name := JS.trim (nameInput (inputs (dom c))) in
  let uid := currentUserId c in
  scan_users name uid (map_to_list (users e !!! roomA)) = (false, None) ->
  rooms e !! roomB = Some dB -> JS.truthy roomB = true -> roomB <> hash e ->
  roomA <> roomB ->
  let listing := start handleNameFormSubmit c e in
  let elsewhere := meanwhile (navigate roomB) listing in
  let writing := resume elsewhere in
  let announcing := resume writing in
  let joined := resume announcing in
  pending listing = Some (GetUsers roomA)
  /\ currentRoom (client_of elsewhere) = Some roomB
  /\ pending writing = Some (SetUser roomB uid name)
  /\ pending announcing = Some (AddMessage roomB (join_event name))
  /\ pending joined = None
  /\ visible (dom (client_of joined)) = UI_chat
  /\ currentRoom (client_of joined) = Some roomB
  /\ user_name <$> (users (env_of joined) !!! roomB) !! uid = Some name
  /\ users (env_of joined) !!! roomA = users e !!! roomA
  /\ msgListener (env_of joined) = Some roomB.
Proof.
  intros Hr Hrt Hnt Hn Hq Hf name uid Hscan HB HBt Hne HAB. cbv zeta.
  subst name uid. unfold handleNameFormSubmit. wx.
  split; [reflexivity|].
  elsewhere roomB dB Hn Hq HBt Hne Hf HB.
  wx. rewrite ?Hus, ?Hid. wx. rewrite ?Hscan. wx.
  rewrite ?lookup_total_insert_eq, ?lookup_insert_eq.
  rewrite ?lookup_total_insert_ne by congruence.
  repeat split; first [assumption | reflexivity].
Qed.

End Stale.

Section StaleExamples.
#[local] Existing Instance example_platform.

Lemma password_result_witness :
  let c := bob_right_password.1 in
  let e := bob_right_password.2 in
  let answered :=
    resume (meanwhile (navigate (lit "board"))
              (resume (start handlePasswordVerifySubmit c e))) in
  visible (dom (client_of answered)) = UI_name
  /\ currentRoom (client_of answered) = Some (lit "board").
Proof.
  cbv zeta.
  destruct (rooms bob_right_password.2 !! team_x) as [dA|] eqn:HA;
    [|revert HA; vm_compute; discriminate].
  destruct (rooms bob_right_password.2 !! lit "board") as [dB|] eqn:HB;
    [|revert HB; vm_compute; discriminate].
  pose proof (@password_result_applies_to_current_room example_platform
                bob_right_password.1 bob_right_password.2 team_x (lit "board")
                dA dB
                ltac:(vm_compute; reflexivity) ltac:(vm_compute; reflexivity)
                ltac:(vm_compute; reflexivity) ltac:(vm_compute; reflexivity)
                ltac:(vm_compute; reflexivity) ltac:(vm_compute; reflexivity)
                HA
                ltac:(revert HA; vm_compute; intros [= <-]; reflexivity)
                HB
                ltac:(vm_compute; reflexivity) ltac:(vm_compute; discriminate))
    as Hw.
  cbv zeta in Hw. destruct Hw as (_ & _ & _ & _ & _ & Hv & Hcr & _).
  split; [exact Hv | exact Hcr].
Defined.

Lemma name_claim_witness :
  let c := bob_claims.1 in
  let e := bob_claims.2 in
  let joined :=
    resume (resume (resume (meanwhile (navigate (lit "board"))
                              (start handleNameFormSubmit c e)))) in
  currentRoom (client_of joined) = Some (lit "board")
  /\ user_name <$> (users (env_of joined) !!! lit "board") !! lit "uid-bob"
     = Some (lit "Bob").
Proof.
  cbv zeta.
  destruct (rooms bob_claims.2 !! lit "board") as [dB|] eqn:HB;
    [|revert HB; vm_compute; discriminate].
  pose proof (@name_claim_writes_to_current_room example_platform
                bob_claims.1 bob_claims.2 team_x (lit "board") dB
                ltac:(vm_compute; reflexivity) ltac:(vm_compute; reflexivity)
                ltac:(vm_compute; reflexivity) ltac:(vm_compute; reflexivity)
                ltac:(vm_compute; reflexivity) ltac:(vm_compute; reflexivity)
                ltac:(vm_compute; reflexivity)
                HB
                ltac:(vm_compute; reflexivity) ltac:(vm_compute; discriminate)
                ltac:(vm_compute; discriminate))
    as Hw.
  cbv zeta in Hw.
  destruct Hw as (_ & _ & _ & _ & _ & _ & Hcr & Hus & _).
  split; [exact Hcr | exact Hus].
Defined.

End StaleExamples.

(** ** A result that arrives on the room page *)

Section Away.
Context `{Platform}.

(** What a navigation to the empty token leaves behind. *)
Lemma navigate_empty c e :
  isNavigating c = false -> hashchanges e = 0 -> hash e <> [] ->
  let s := navigate [] c e in
  visible (dom s.1) = UI_room /\ currentRoom s.1 = None
  /\ userName s.1 = None
  /\ rooms s.2 = rooms e /\ faults s.2 = faults e /\ hashchanges s.2 = 0.
Proof.
  intros Hn Hq Hh. cbv zeta. unfold navigate.
  rewrite bool_decide_false by congruence. rewrite Hq.
  env_simpl. change (2 * 1) with 2.
  rewrite (drain_step 1 0) by reflexivity.
  pose proof (run_handleHashChange_teardown c
                (set_hashchanges 0 (set_hashchanges 1 (set_hash [] e)))
                Hn eq_refl) as Hrun.
  cbv zeta in Hrun.
  destruct (run handleHashChange c _) as [[v c1] e1]. cbn [fst snd] in *.
  destruct Hrun as ((Hv & _ & Hcr & Hun & _) & _
                    & (Hro & _ & _ & _ & _ & Hq1 & Hf1) & _).
  rewrite (drain_idle _ _ _ Hq1). cbn [fst snd].
  repeat split; assumption.
Qed.

Lemma run_handleNameFormSubmit_no_room c e :
  currentRoom c = None ->
  run handleNameFormSubmit c e = (Fulfilled tt, showError El_nameError [] true c, e).
Proof.
  intros Hr. unfold handleNameFormSubmit. hx.
  rewrite orb_true_r. hx. reflexivity.
Qed.

(** The user leaves for the room page while the password form waits for
    the room record.  The answer arrives, the digest matches, and the
    handler shows the name page although no room is current: the header
    reads "Room: null", and submitting a name there does nothing, since
    the name form returns at its guard. *)
Theorem password_result_after_leaving c e roomA dA :
  currentRoom c = Some roomA -> JS.truthy roomA = true ->
  JS.truthy (JS.trim (passwordVerifyInput (inputs (dom c)))) = true ->
  isNavigating c = false -> hashchanges e = 0 -> hash e <> [] ->
  faults e = [] ->
  let password := JS.trim (passwordVerifyInput (inputs (dom c))) in
  rooms e !! roomA = Some dA -> passwordHash dA = sha256hex password ->
  let asking := resume (start handlePasswordVerifySubmit c e) in
  let away := meanwhile (navigate []) asking in
  let answered := resume away in
  pending asking = Some (GetRoom roomA)
  /\ visible (dom (client_of away)) = UI_room
  /\ currentRoom (client_of away) = None
  /\ pending answered = None
  /\ visible (dom (client_of answered)) = UI_name
  /\ currentRoom (client_of answered) = None
  /\ chatRoomDisplay (dom (client_of answered)) = lit "Room: " ++ lit "null"
  /\ submit handleNameFormSubmit (client_of answered, env_of answered)
     = (showError El_nameError [] true (client_of answered),
        env_of answered).
Proof.
  intros Hr Hrt Hpt Hn Hq Hh Hf password HA HdA. cbv zeta.
  subst password. unfold handlePasswordVerifySubmit. wx.
  split; [reflexivity|].
  match goal with
  | |- context [meanwhile (navigate []) (Waiting _ ?r ?k ?c2 ?e2)] =>
      pose proof (navigate_empty c2 e2) as Hnav;
      cbv zeta in Hnav; revert Hnav;
      cbn [meanwhile];
      destruct (navigate [] c2 e2) as [c' e'];
      cbn [fst snd]; env_simpl; cli_simpl;
      intros Hnav;
      destruct (Hnav Hn Hq Hh) as (Hv & Hcr & Hun & Hro & Hf' & Hq')
  end.
  wx. rewrite ?bool_decide_true by first [exact HdA | reflexivity]. wx.
  repeat split; try first [assumption | reflexivity].
  apply (submit_idle _ _ _ _ _ (Fulfilled tt)).
  - apply run_handleNameFormSubmit_no_room. cli_simpl. exact Hcr.
  - env_simpl. exact Hq'.
Qed.

End Away.

Section AwayExamples.
#[local] Existing Instance example_platform.

Lemma password_result_after_leaving_witness :
  let c := bob_right_password.1 in
  let e := bob_right_password.2 in
  let answered :=
    resume (meanwhile (navigate [])
              (resume (start handlePasswordVerifySubmit c e))) in
  visible (dom (client_of answered)) = UI_name
  /\ chatRoomDisplay (dom (client_of answered)) = lit "Room: null".
Proof.
  cbv zeta.
  destruct (rooms bob_right_password.2 !! team_x) as [dA|] eqn:HA;
    [|revert HA; vm_compute; discriminate].
  pose proof (@password_result_after_leaving example_platform
                bob_right_password.1 bob_right_password.2 team_x dA
                ltac:(vm_compute; reflexivity) ltac:(vm_compute; reflexivity)
                ltac:(vm_compute; reflexivity) ltac:(vm_compute; reflexivity)
                ltac:(vm_compute; reflexivity) ltac:(vm_compute; discriminate)
                ltac:(vm_compute; reflexivity)
                HA
                ltac:(revert HA; vm_compute; intros [= <-]; reflexivity))
    as Hw.
  cbv zeta in Hw. destruct Hw as (_ & _ & _ & _ & Hv & _ & Hd & _).
  split; [exact Hv | exact Hd].
Defined.

End AwayExamples.
